(** * StockWise inventory: a shallow embedding of [inventory/models.py],
    [inventory/views.py], [inventory/forms.py] and the data-clearing step of
    [management/commands/populate_data.py], and the properties of its stock
    bookkeeping.

    The database is explicit state.  Model instances are values held by the
    caller: as in Django, two instances loaded from the same row are
    independent copies, a forward foreign-key access ([item.product]) fetches
    the related row once and then keeps that copy on the instance, and
    [save()] writes every column of the instance back to its row.

    Modelling conventions:
    - [Model.save] updates the row of the instance's key, or inserts one
      when there is none; a row inserted without a key gets one more than
      the highest key its table has ever held, so that the key of a deleted
      row is not given again (as with AUTOINCREMENT on SQLite);
    - a foreign key declared [on_delete=PROTECT] makes [delete()] of the
      row it points to raise while a row points to it;
    - money ([DecimalField(max_digits=10, decimal_places=2)]) is an integer
      number of cents; the column width is not enforced (as on SQLite);
    - [PositiveIntegerField] columns carry the [>= 0] CHECK constraint that
      Django emits for them;
    - constraints (UNIQUE, CHECK, NOT NULL, FOREIGN KEY) are checked by the
      statement that writes the row, and a statement outside
      [transaction.atomic()] is committed when it returns (autocommit);
    - timestamps managed by the ORM ([created_at], [updated_at],
      [timestamp]) are left out: nothing below reads them;
    - strings are byte strings. *)

From Stdlib Require Import ZArith Lia Ascii String DecimalString DecimalPos.
From stdpp Require Import gmap strings list fin_maps sorting.

Open Scope string_scope.
Open Scope Z_scope.

(** ** Python built-ins used by the models *)

Module Py.

(** [str(n)] for an [int]. *)
Definition str (n : Z) : string := NilZero.string_of_int (Z.to_int n).

(** [s.zfill(w)] on a string of digits. *)
Definition zfill (w : nat) (s : string) : string :=
  String.concat "" (replicate (w - String.length s)%nat "0") +:+ s.

(** [f"{n:06d}"]: sign-aware zero padding to a minimum width of six. *)
Definition format_06d (n : Z) : string :=
  if n <? 0 then "-" +:+ zfill 5 (str (- n)) else zfill 6 (str n).

(** [s.split(sep)] for a one-character separator: never empty. *)
Fixpoint split_go (sep : ascii) (cur : string) (s : string) : list string :=
  match s with
  | EmptyString => [cur]
  | String c r =>
      if Ascii.eqb c sep then cur :: split_go sep "" r
      else split_go sep (cur +:+ String c EmptyString) r
  end.

Definition split (sep : ascii) (s : string) : list string := split_go sep "" s.

(** [l[-1]] on a list; [d] stands for the IndexError that [split] never
    triggers. *)
Definition last_item (l : list string) (d : string) : string := List.last l d.

(** The characters [int()] strips: 0x09-0x0D, 0x1C-0x20. *)
Definition is_space (c : ascii) : bool :=
  let n := N_of_ascii c in
  ((9 <=? n)%N && (n <=? 13)%N) || ((28 <=? n)%N && (n <=? 32)%N).

Definition digit_of (c : ascii) : option Z :=
  let n := N_of_ascii c in
  if ((48 <=? n)%N && (n <=? 57)%N) then Some (Z.of_N n - 48) else None.

Fixpoint lstrip (s : string) : string :=
  match s with
  | String c r => if is_space c then lstrip r else s
  | EmptyString => EmptyString
  end.

Fixpoint rstrip (s : string) : string :=
  match s with
  | EmptyString => EmptyString
  | String c r =>
      match rstrip r with
      | EmptyString => if is_space c then EmptyString else String c EmptyString
      | r' => String c r'
      end
  end.

(** Digits with single underscores between them ([1_000]). [after_digit]
    records that the previous character was a digit. *)
Fixpoint digits (acc : Z) (after_digit : bool) (s : string) : option Z :=
  match s with
  | EmptyString => if after_digit then Some acc else None
  | String c r =>
      match digit_of c with
      | Some d => digits (10 * acc + d) true r
      | None =>
          if Ascii.eqb c "_" then
            if after_digit then digits acc false r else None
          else None
      end
  end.

(** [int(s)]; [None] is [ValueError]. *)
Definition int (s : string) : option Z :=
  match lstrip (rstrip s) with
  | String "+" r => digits 0 false r
  | String "-" r => Z.opp <$> digits 0 false r
  | t => digits 0 false t
  end.

End Py.

(** ** Exceptions *)

Inductive exn : Type :=
  | ValidationError (message : string)
  | DoesNotExist (model : string)
  | RelatedObjectDoesNotExist (field : string)
  | IntegrityError
  | ProtectedError (model : string)
  | ValueError (what : string).

Inductive result (A : Type) : Type :=
  | Ok (a : A)
  | Raise (e : exn).
Arguments Ok {A} a.
Arguments Raise {A} e.

(** ** Data model: [inventory/models.py] *)

Module Product.
Record t : Type := mk {
  id : option Z;
  name : string;
  sku : option string;
  description : string;
  category : string;
  buying_price : Z;
  selling_price : Z;
  current_stock : Z;
  min_stock_level : Z;
  is_active : bool
}.

Definition set_id (k : Z) (p : t) : t :=
  mk (Some k) (name p) (sku p) (description p) (category p) (buying_price p)
     (selling_price p) (current_stock p) (min_stock_level p) (is_active p).

Definition set_sku (s : string) (p : t) : t :=
  mk (id p) (name p) (Some s) (description p) (category p) (buying_price p)
     (selling_price p) (current_stock p) (min_stock_level p) (is_active p).

Definition set_current_stock (n : Z) (p : t) : t :=
  mk (id p) (name p) (sku p) (description p) (category p) (buying_price p)
     (selling_price p) n (min_stock_level p) (is_active p).

(** [Product.clean]. *)
Definition clean (self : t) : result unit :=
  if selling_price self <? buying_price self then
    Raise (ValidationError "Selling price cannot be less than buying price.")
  else if current_stock self <? 0 then
    Raise (ValidationError "Stock cannot be negative.")
  else Ok tt.

(** [Product.is_low_stock]. *)
Definition is_low_stock (self : t) : bool :=
  current_stock self <=? min_stock_level self.
End Product.

Module Sale.
Definition CASH : string := "cash".
Definition CARD : string := "card".
Definition TRANSFER : string := "transfer".
Definition DIGITAL : string := "digital".

Record t : Type := mk {
  id : option Z;
  sale_number : string;
  date : Z;
  total_amount : Z;
  payment_method : string;
  notes : string
}.

Definition set_id (k : Z) (s : t) : t :=
  mk (Some k) (sale_number s) (date s) (total_amount s) (payment_method s) (notes s).

Definition set_sale_number (n : string) (s : t) : t :=
  mk (id s) n (date s) (total_amount s) (payment_method s) (notes s).

Definition set_total_amount (a : Z) (s : t) : t :=
  mk (id s) (sale_number s) (date s) a (payment_method s) (notes s).
End Sale.

(** A forward foreign key to [Product] on an instance: either only the
    column value is known, or the related object has been fetched (or
    assigned) and is kept on the instance. *)
Inductive related : Type :=
  | Unfetched (fk : option Z)
  | Cached (obj : Product.t).

Definition related_id (r : related) : option Z :=
  match r with
  | Unfetched fk => fk
  | Cached obj => Product.id obj
  end.

Module SaleItem.
(** A row of the [sale_items] table. *)
Record row : Type := mkrow {
  sale_id : Z;
  product_id : Z;
  quantity : Z;
  unit_price : Z
}.

(** An instance in memory. *)
Record t : Type := mk {
  pk : option Z;
  sale : option Z;
  product : related;
  qty : Z;
  price : Z
}.

Definition set_pk (k : Z) (i : t) : t :=
  mk (Some k) (sale i) (product i) (qty i) (price i).
Definition set_sale (s : option Z) (i : t) : t :=
  mk (pk i) s (product i) (qty i) (price i).
Definition set_product (r : related) (i : t) : t :=
  mk (pk i) (sale i) r (qty i) (price i).

(** What the manager builds from a row. *)
Definition from_db (k : Z) (r : row) : t :=
  mk (Some k) (Some (sale_id r)) (Unfetched (Some (product_id r)))
     (quantity r) (unit_price r).

(** [SaleItem.subtotal]. *)
Definition subtotal (self : t) : Z := qty self * price self.
End SaleItem.

Module StockTransaction.
Record row : Type := mkrow {
  product_id : Z;
  transaction_type : string;
  quantity : Z;
  reference : string;
  notes : string
}.

Record t : Type := mk {
  pk : option Z;
  product : related;
  ttype : string;
  qty : Z;
  ref : string;
  note : string
}.

Definition set_pk (k : Z) (i : t) : t :=
  mk (Some k) (product i) (ttype i) (qty i) (ref i) (note i).
Definition set_product (r : related) (i : t) : t :=
  mk (pk i) r (ttype i) (qty i) (ref i) (note i).
End StockTransaction.

(** ** The database *)

(** The highest key that each table has held so far.  An [AutoField] key is
    never given twice: the counter stays when the row is deleted. *)
Record Sequences : Type := mkSequences {
  product_seq : Z;
  sale_seq : Z;
  sale_item_seq : Z;
  stock_transaction_seq : Z
}.

Record DB : Type := mkDB {
  products : gmap Z Product.t;
  sales : gmap Z Sale.t;
  sale_items : gmap Z SaleItem.row;
  stock_transactions : gmap Z StockTransaction.row;
  sequences : Sequences
}.

Definition empty_db : DB := mkDB ∅ ∅ ∅ ∅ (mkSequences 0 0 0 0).

Definition set_products (f : gmap Z Product.t → gmap Z Product.t) (db : DB) : DB :=
  mkDB (f (products db)) (sales db) (sale_items db) (stock_transactions db)
       (sequences db).
Definition set_sales (f : gmap Z Sale.t → gmap Z Sale.t) (db : DB) : DB :=
  mkDB (products db) (f (sales db)) (sale_items db) (stock_transactions db)
       (sequences db).
Definition set_sale_items (f : gmap Z SaleItem.row → gmap Z SaleItem.row) (db : DB) : DB :=
  mkDB (products db) (sales db) (f (sale_items db)) (stock_transactions db)
       (sequences db).
Definition set_stock_transactions
    (f : gmap Z StockTransaction.row → gmap Z StockTransaction.row) (db : DB) : DB :=
  mkDB (products db) (sales db) (sale_items db) (f (stock_transactions db))
       (sequences db).
Definition set_sequences (f : Sequences → Sequences) (db : DB) : DB :=
  mkDB (products db) (sales db) (sale_items db) (stock_transactions db)
       (f (sequences db)).

(** A row was written under key [k]: the table's counter is at least [k]. *)
Definition note_product_key (k : Z) : DB → DB :=
  set_sequences (λ q, mkSequences (Z.max (product_seq q) k) (sale_seq q)
                                  (sale_item_seq q) (stock_transaction_seq q)).
Definition note_sale_key (k : Z) : DB → DB :=
  set_sequences (λ q, mkSequences (product_seq q) (Z.max (sale_seq q) k)
                                  (sale_item_seq q) (stock_transaction_seq q)).
Definition note_sale_item_key (k : Z) : DB → DB :=
  set_sequences (λ q, mkSequences (product_seq q) (sale_seq q)
                                  (Z.max (sale_item_seq q) k) (stock_transaction_seq q)).
Definition note_stock_transaction_key (k : Z) : DB → DB :=
  set_sequences (λ q, mkSequences (product_seq q) (sale_seq q)
                                  (sale_item_seq q) (Z.max (stock_transaction_seq q) k)).

(** ** Computations over the database

    A computation takes the database and returns a result together with
    the database it leaves behind; a raised exception keeps the writes made
    before it, as under autocommit. *)

Definition M (A : Type) : Type := DB → result A * DB.

Definition ret {A} (a : A) : M A := λ db, (Ok a, db).
Definition raise {A} (e : exn) : M A := λ db, (Raise e, db).
Definition lift {A} (r : result A) : M A := λ db, (r, db).
Definition bind {A B} (c : M A) (k : A → M B) : M B :=
  λ db, match c db with
        | (Ok a, db') => k a db'
        | (Raise e, db') => (Raise e, db')
        end.
Definition query {A} (f : DB → A) : M A := λ db, (Ok (f db), db).
Definition write (f : DB → DB) : M unit := λ db, (Ok tt, f db).

(** [with transaction.atomic(): c]: an exception leaving the block rolls
    the database back to what it was on entry. *)
Definition atomic {A} (c : M A) : M A :=
  λ db, match c db with
        | (Ok a, db') => (Ok a, db')
        | (Raise e, _) => (Raise e, db)
        end.

Notation "x <~ c ;; k" := (bind c (λ x, k))
  (at level 100, c at next level, right associativity).
Notation "c ;;; k" := (bind c (λ _, k))
  (at level 100, right associativity).

(** [for x in xs: body(x)], collecting what each iteration returns. *)
Fixpoint for_each {A B} (body : A → M B) (xs : list A) : M (list B) :=
  match xs with
  | [] => ret []
  | x :: rest => y <~ body x ;; ys <~ for_each body rest ;; ret (y :: ys)
  end.

(** ** The ORM layer *)

(** One step of [Model.objects.order_by('-id').first()]: the later of a
    row and the best so far. *)
Definition later_of {A} (kv : Z * A) (acc : option (Z * A)) : option (Z * A) :=
  match acc with
  | None => Some kv
  | Some best => if best.1 <? kv.1 then Some kv else Some best
  end.

(** The row with the highest key, if the table has one. *)
Definition last_by_id {A} (m : gmap Z A) : option (Z * A) :=
  foldr later_of None (map_to_list m).

(** The key given to an inserted row that has none: one more than the
    highest key the table has ever held, [seq], and so above every key in
    the table [m]. *)
Definition fresh_pk {A} (seq : Z) (m : gmap Z A) : Z :=
  match last_by_id m with
  | Some (k, _) => Z.max seq (Z.max k 0) + 1
  | None => Z.max seq 0 + 1
  end.

(** The key a save writes to: the instance's own, or a fresh one. *)
Definition pk_or_fresh {A} (pk : option Z) (seq : Z) (m : gmap Z A) : Z :=
  match pk with
  | Some k => k
  | None => fresh_pk seq m
  end.

(** Truth value of an integer key ([if self.pk:], [self.id or ...]). *)
Definition truthy_pk (pk : option Z) : bool :=
  match pk with
  | Some k => negb (k =? 0)
  | None => false
  end.

(** Truth value of a nullable string ([if not self.sku]). *)
Definition truthy_str (s : option string) : bool :=
  match s with
  | Some v => negb (String.eqb v "")
  | None => false
  end.

(** [Product.objects.get(id=k)]. *)
Definition Product_get (k : Z) (db : DB) : option Product.t :=
  Product.set_id k <$> products db !! k.

(** [Product.objects.count()]. *)
Definition Product_count (db : DB) : Z := Z.of_nat (size (products db)).

(** [SaleItem.objects.get(pk=k)]. *)
Definition SaleItem_get (k : Z) (db : DB) : option SaleItem.t :=
  SaleItem.from_db k <$> sale_items db !! k.

(** Reading a forward foreign key to [Product]: the object kept on the
    instance if there is one, else a fetch by the column value. *)
Definition fetch_product (r : related) : M Product.t :=
  match r with
  | Cached obj => ret obj
  | Unfetched None => raise (RelatedObjectDoesNotExist "product")
  | Unfetched (Some k) =>
      o <~ query (Product_get k) ;;
      match o with
      | Some obj => ret obj
      | None => raise (DoesNotExist "Product")
      end
  end.

(** UNIQUE(sku): another row holds the same non-NULL value. *)
Definition sku_taken (k : Z) (s : option string) (m : gmap Z Product.t) : bool :=
  match s with
  | None => false
  | Some v =>
      existsb (λ kv, negb (kv.1 =? k)
                     && bool_decide (Product.sku kv.2 = Some v))
              (map_to_list m)
  end.

(** [models.Model.save] for a product: UPDATE the row of its key, or INSERT
    when there is none. *)
Definition Model_save_Product (self : Product.t) : M Product.t :=
  λ db,
    let k := pk_or_fresh (Product.id self) (product_seq (sequences db))
                         (products db) in
    if sku_taken k (Product.sku self) (products db)
       || (Product.current_stock self <? 0)
       || (Product.min_stock_level self <? 0)
    then (Raise IntegrityError, db)
    else
      let self' := Product.set_id k self in
      (Ok self', note_product_key k (set_products (insert k self') db)).

(** UNIQUE(sale_number). *)
Definition sale_number_taken (k : Z) (n : string) (m : gmap Z Sale.t) : bool :=
  existsb (λ kv, negb (kv.1 =? k) && String.eqb (Sale.sale_number kv.2) n)
          (map_to_list m).

(** [models.Model.save] for a sale. *)
Definition Model_save_Sale (self : Sale.t) : M Sale.t :=
  λ db,
    let k := pk_or_fresh (Sale.id self) (sale_seq (sequences db)) (sales db) in
    if sale_number_taken k (Sale.sale_number self) (sales db)
    then (Raise IntegrityError, db)
    else
      let self' := Sale.set_id k self in
      (Ok self', note_sale_key k (set_sales (insert k self') db)).

(** [unique_together = ['sale', 'product']]. *)
Definition pair_taken (k s p : Z) (m : gmap Z SaleItem.row) : bool :=
  existsb (λ kv, negb (kv.1 =? k)
                 && (SaleItem.sale_id kv.2 =? s)
                 && (SaleItem.product_id kv.2 =? p))
          (map_to_list m).

(** A related object held on the instance must have been saved. *)
Definition unsaved_related (r : related) : bool :=
  match r with
  | Cached obj => negb (bool_decide (is_Some (Product.id obj)))
  | Unfetched _ => false
  end.

(** [models.Model.save] for a sale item: both foreign keys are NOT NULL
    and must point to stored rows. *)
Definition Model_save_SaleItem (self : SaleItem.t) : M SaleItem.t :=
  λ db,
    if unsaved_related (SaleItem.product self)
    then (Raise (ValueError "unsaved related object 'product'"), db)
    else
      match SaleItem.sale self, related_id (SaleItem.product self) with
      | Some s, Some p =>
          let k := pk_or_fresh (SaleItem.pk self)
                               (sale_item_seq (sequences db)) (sale_items db) in
          if negb (bool_decide (is_Some (sales db !! s)))
             || negb (bool_decide (is_Some (products db !! p)))
             || (SaleItem.qty self <? 0)
             || pair_taken k s p (sale_items db)
          then (Raise IntegrityError, db)
          else
            (Ok (SaleItem.set_pk k self),
             note_sale_item_key k
               (set_sale_items
                  (insert k (SaleItem.mkrow s p (SaleItem.qty self)
                                            (SaleItem.price self)))
                  db))
      | _, _ => (Raise IntegrityError, db)
      end.

(** [models.Model.save] for a stock transaction. *)
Definition Model_save_StockTransaction (self : StockTransaction.t)
    : M StockTransaction.t :=
  λ db,
    if unsaved_related (StockTransaction.product self)
    then (Raise (ValueError "unsaved related object 'product'"), db)
    else
      match related_id (StockTransaction.product self) with
      | Some p =>
          let k := pk_or_fresh (StockTransaction.pk self)
                               (stock_transaction_seq (sequences db))
                               (stock_transactions db) in
          if negb (bool_decide (is_Some (products db !! p)))
          then (Raise IntegrityError, db)
          else
            (Ok (StockTransaction.set_pk k self),
             note_stock_transaction_key k
               (set_stock_transactions
                  (insert k (StockTransaction.mkrow p
                               (StockTransaction.ttype self) (StockTransaction.qty self)
                               (StockTransaction.ref self) (StockTransaction.note self)))
                  db))
      | None => (Raise IntegrityError, db)
      end.

(** ** Model methods: [inventory/models.py] *)

(** [Product.save]: validate, give a SKU to a product that has none, write. *)
Definition Product_save (self : Product.t) : M Product.t :=
  lift (Product.clean self) ;;;
  self <~ (if truthy_str (Product.sku self) then ret self
           else
             n <~ (if truthy_pk (Product.id self)
                   then ret (default 0 (Product.id self))
                   else c <~ query Product_count ;; ret (c + 1)) ;;
             ret (Product.set_sku ("SKU-" +:+ Py.str n) self)) ;;
  Model_save_Product self.

(** The number that [Sale.save] reads off the sale with the highest id. *)
Definition last_number (db : DB) : result Z :=
  match last_by_id (sales db) with
  | Some (_, last_sale) =>
      match Py.int (Py.last_item (Py.split "-" (Sale.sale_number last_sale)) "") with
      | Some n => Ok n
      | None => Raise (ValueError "invalid literal for int()")
      end
  | None => Ok 0
  end.

(** [Sale.save]. *)
Definition Sale_save (self : Sale.t) : M Sale.t :=
  self <~ (if String.eqb (Sale.sale_number self) "" then
             r <~ query last_number ;;
             n <~ lift r ;;
             ret (Sale.set_sale_number ("SALE-" +:+ Py.format_06d (n + 1)) self)
           else ret self) ;;
  Model_save_Sale self.

(** [sale.items]: the rows of [sale_items] that point to the sale. *)
Definition items_of (s : Z) (db : DB) : gmap Z SaleItem.row :=
  filter (λ kv, SaleItem.sale_id kv.2 = s) (sale_items db).

(** [F('quantity') * F('unit_price')] of a row, and its sum over rows. *)
Definition line_total (r : SaleItem.row) : Z :=
  SaleItem.quantity r * SaleItem.unit_price r.

Definition sum_lines (rows : list (Z * SaleItem.row)) : Z :=
  foldr (λ kv acc, line_total kv.2 + acc) 0 rows.

(** [aggregate(total=Sum(F('quantity') * F('unit_price')))['total']]: NULL
    over no rows. *)
Definition aggregate_total (m : gmap Z SaleItem.row) : option Z :=
  match map_to_list m with
  | [] => None
  | rows => Some (sum_lines rows)
  end.

(** [Sale.update_total]. *)
Definition Sale_update_total (self : Sale.t) : M Sale.t :=
  match Sale.id self with
  | None => raise (ValueError "instance needs a primary key value")
  | Some k =>
      total <~ query (λ db, aggregate_total (items_of k db)) ;;
      Sale_save (Sale.set_total_amount (default 0 total) self)
  end.

(** The error of the stock check in [SaleItem.clean]. *)
Definition insufficient_stock (available requested : Z) : exn :=
  ValidationError ("Insufficient stock. Available: " +:+ Py.str available
                   +:+ ", Requested: " +:+ Py.str requested).

(** [SaleItem.clean].  The first read of [self.product] leaves the product
    on the instance, so the instance is returned.  A model instance is
    always true, so [if not self.product] never takes its branch: a missing
    product has already raised in the read. *)
Definition SaleItem_clean (self : SaleItem.t) : M SaleItem.t :=
  p <~ fetch_product (SaleItem.product self) ;;
  let self := SaleItem.set_product (Cached p) self in
  if SaleItem.qty self <? 1 then
    raise (ValidationError "Quantity must be at least 1.")
  else if SaleItem.price self <? 0 then
    raise (ValidationError "Unit price cannot be negative.")
  else if negb (SaleItem.qty self =? 0) then
    available_stock <~
      (if truthy_pk (SaleItem.pk self) then
         o <~ query (SaleItem_get (default 0 (SaleItem.pk self))) ;;
         match o with
         | Some original_item =>
             ret (Product.current_stock p + SaleItem.qty original_item)
         | None => ret (Product.current_stock p)
         end
       else ret (Product.current_stock p)) ;;
    if available_stock <? SaleItem.qty self then
      raise (insufficient_stock available_stock (SaleItem.qty self))
    else ret self
  else ret self.

(** The update branch of [SaleItem.save]: the stored item is loaded again,
    its product is fetched from the database, credited and saved. *)
Definition restore_original_stock (self : SaleItem.t) : M unit :=
  if truthy_pk (SaleItem.pk self) then
    o <~ query (SaleItem_get (default 0 (SaleItem.pk self))) ;;
    match o with
    | Some original_item =>
        op <~ fetch_product (SaleItem.product original_item) ;;
        Product_save
          (Product.set_current_stock
             (Product.current_stock op + SaleItem.qty original_item) op) ;;;
        ret tt
    | None => ret tt
    end
  else ret tt.

(** [SaleItem.save].  The last two lines act on the product object that the
    instance holds since [clean]. *)
Definition SaleItem_save (self : SaleItem.t) : M SaleItem.t :=
  self <~ SaleItem_clean self ;;
  restore_original_stock self ;;;
  self <~ Model_save_SaleItem self ;;
  p <~ fetch_product (SaleItem.product self) ;;
  p <~ Product_save
         (Product.set_current_stock (Product.current_stock p - SaleItem.qty self) p) ;;
  ret (SaleItem.set_product (Cached p) self).

(** [StockTransaction.save]. *)
Definition StockTransaction_save (self : StockTransaction.t)
    : M StockTransaction.t :=
  self <~ Model_save_StockTransaction self ;;
  p <~ fetch_product (StockTransaction.product self) ;;
  p <~ Product_save
         (Product.set_current_stock
            (Product.current_stock p + StockTransaction.qty self) p) ;;
  ret (StockTransaction.set_product (Cached p) self).

(** [instance.delete()] for a sale item: nothing refers to sale items. *)
Definition SaleItem_delete (self : SaleItem.t) : M unit :=
  match SaleItem.pk self with
  | None => raise (ValueError "object can't be deleted: its pk is None")
  | Some k => write (set_sale_items (delete k))
  end.

(** [sale.delete()]: [SaleItem.sale] is declared [on_delete=PROTECT], so
    the collector refuses while an item points to the sale. *)
Definition Sale_delete (self : Sale.t) : M unit :=
  match Sale.id self with
  | None => raise (ValueError "object can't be deleted: its id is None")
  | Some k =>
      its <~ query (items_of k) ;;
      match map_to_list its with
      | [] => write (set_sales (delete k))
      | _ => raise (ProtectedError "SaleItem.sale")
      end
  end.

(** ** Views: [inventory/views.py] *)

Inductive json : Type :=
  | JInt (n : Z)
  | JFloatOfCents (cents : Z)   (* [float(d)] of the decimal [cents / 100] *)
  | JStr (s : string).

Inductive message : Type :=
  | Text (s : string)
  | Caught (prefix : string) (e : exn).

Inductive response : Type :=
  | Redirect (url_name : string) (pk : option Z)
  | FormInvalid (messages : list message)
  | NotFound
  | JsonResponse (status : Z) (body : list (string * json)).

Definition status_of (r : response) : Z :=
  match r with
  | Redirect _ _ => 302
  | FormInvalid _ => 200
  | NotFound => 404
  | JsonResponse status _ => status
  end.

Definition keys_of (r : response) : list string :=
  match r with
  | JsonResponse _ body => fst <$> body
  | _ => []
  end.

(** [try: with transaction.atomic(): c  except Exception as e: ...]. *)
Definition try_atomic (prefix : string) (c : M response) : M response :=
  λ db, match atomic c db with
        | (Ok r, db') => (Ok r, db')
        | (Raise e, db') => (Ok (FormInvalid [Caught prefix e]), db')
        end.

Definition key_le {A} (a b : Z * A) : Prop := a.1 ≤ b.1.

#[global] Instance key_le_dec {A} (a b : Z * A) : Decision (key_le a b) :=
  Z_le_dec a.1 b.1.

(** [sale.items.all()], in key order. *)
Definition items_all (s : Z) (db : DB) : list SaleItem.t :=
  (λ kv, SaleItem.from_db kv.1 kv.2)
    <$> merge_sort key_le (map_to_list (items_of s db)).

(** [SaleItemForm.__init__] for the form of one line.  It reads
    [self.instance.product] on the instance the form starts from: the stored
    item [k], or for [None] the blank [SaleItem()] of a new line, whose
    product is not set. *)
Definition SaleItemForm_init (stored : option Z) : M unit :=
  match stored with
  | None => fetch_product (Unfetched None) ;;; ret tt
  | Some k =>
      o <~ query (SaleItem_get k) ;;
      match o with
      | Some instance => fetch_product (SaleItem.product instance) ;;; ret tt
      | None => ret tt
      end
  end.

(** [formset.is_valid()] builds the form of every line; [stored line] is
    the key of the stored item that the form of [line] starts from. *)
Definition build_forms (stored : SaleItem.t → option Z) (lines : list SaleItem.t)
    : M unit :=
  for_each (λ line, SaleItemForm_init (stored line)) lines ;;; ret tt.

(** [SaleCreateView.form_valid] for a form and a formset that validate:
    [form_sale] is [form.save(commit=False)], [instances] is
    [formset.save(commit=False)], [deleted] is [formset.deleted_objects].
    The formset is built without a sale, so the form of every line starts
    from a blank item; the forms are built by [formset.is_valid()], before
    the [try]. *)
Definition SaleCreateView_form_valid
    (form_sale : Sale.t) (instances deleted : list SaleItem.t) : M response :=
  build_forms (λ _, None) (instances ++ deleted) ;;;
  try_atomic "Error creating sale: "
    (object <~ Sale_save form_sale ;;
     for_each (λ instance,
                 p <~ fetch_product (SaleItem.product instance) ;;
                 SaleItem_save
                   (SaleItem.set_sale (Sale.id object)
                      (SaleItem.set_product (Cached p) instance)))
              instances ;;;
     for_each SaleItem_delete deleted ;;;
     object <~ Sale_update_total object ;;
     ret (Redirect "inventory:sale-detail" (Sale.id object))).

(** The stock check of [SaleUpdateView.form_valid] for the item at index
    [i]: the instance with its product read, and the error if any. *)
Definition check_stock (original_quantities : gmap Z Z)
    (i_instance : nat * SaleItem.t) : M (SaleItem.t * option message) :=
  let '(i, instance) := i_instance in
  p <~ fetch_product (SaleItem.product instance) ;;
  let instance := SaleItem.set_product (Cached p) instance in
  let available_stock :=
    Product.current_stock p +
    (if truthy_pk (SaleItem.pk instance)
     then default 0 (original_quantities !! default 0 (SaleItem.pk instance))
     else 0) in
  ret (instance,
       if available_stock <? SaleItem.qty instance then
         Some (Text ("Item " +:+ Py.str (Z.of_nat i + 1) +:+ ": " +:+ Product.name p
                     +:+ " - Insufficient stock. Available: " +:+ Py.str available_stock
                     +:+ ", Requested: " +:+ Py.str (SaleItem.qty instance)))
       else None).

(** [SaleUpdateView.form_valid] for a form and a formset that validate;
    [form_sale] is the sale being edited with the form's fields applied.
    The form of a line starts from the stored item of the line's key, and
    from a blank item when the line is new. *)
Definition SaleUpdateView_form_valid
    (form_sale : Sale.t) (instances deleted : list SaleItem.t) : M response :=
  build_forms SaleItem.pk (instances ++ deleted) ;;;
  try_atomic "Error updating sale: "
    (match Sale.id form_sale with
     | None => raise (ValueError "instance needs a primary key value")
     | Some k =>
         original_quantities <~
           query (λ db, SaleItem.quantity <$> items_of k db) ;;
         checked <~ for_each (check_stock original_quantities)
                             (zip (seq 0 (length instances)) instances) ;;
         match omap snd checked with
         | [] =>
             object <~ Sale_save form_sale ;;
             for_each (λ instance,
                         SaleItem_save (SaleItem.set_sale (Sale.id object) instance))
                      (fst <$> checked) ;;;
             for_each SaleItem_delete deleted ;;;
             object <~ Sale_update_total object ;;
             ret (Redirect "inventory:sale-detail" (Sale.id object))
         | stock_errors => ret (FormInvalid stock_errors)
         end
     end).

(** [SaleDeleteView.delete]. *)
Definition SaleDeleteView_delete (pk : Z) : M response :=
  o <~ query (λ db, Sale.set_id pk <$> sales db !! pk) ;;
  match o with
  | None => ret NotFound
  | Some sale =>
      atomic
        (its <~ query (items_all pk) ;;
         for_each (λ item,
                     p <~ fetch_product (SaleItem.product item) ;;
                     Product_save
                       (Product.set_current_stock
                          (Product.current_stock p + SaleItem.qty item) p))
                  its ;;;
         Sale_delete sale ;;;
         ret (Redirect "inventory:sale-list" None))
  end.

(** [ProductDeleteView.delete]: refused while the product has sale items;
    otherwise the product goes, with its stock transactions (CASCADE). *)
Definition ProductDeleteView_delete (pk : Z) : M response :=
  o <~ query (Product_get pk) ;;
  match o with
  | None => ret NotFound
  | Some product =>
      sold <~ query (λ db, filter (λ kv, SaleItem.product_id kv.2 = pk) (sale_items db)) ;;
      match map_to_list sold with
      | _ :: _ => ret (Redirect "inventory:product-detail" (Some pk))
      | [] =>
          write (set_stock_transactions
                   (filter (λ kv, StockTransaction.product_id kv.2 ≠ pk))) ;;;
          write (set_products (delete pk)) ;;;
          ret (Redirect "inventory:product-list" None)
      end
  end.

(** [product_price_api]. *)
Definition product_price_api (product_id : Z) (db : DB) : response :=
  match Product_get product_id db with
  | Some product =>
      JsonResponse 200 [("price", JFloatOfCents (Product.selling_price product));
                        ("stock", JInt (Product.current_stock product))]
  | None => JsonResponse 404 [("error", JStr "Product not found")]
  end.

(** [product_stock_api]. *)
Definition product_stock_api (product_id : Z) (db : DB) : response :=
  match Product_get product_id db with
  | Some product => JsonResponse 200 [("stock", JInt (Product.current_stock product))]
  | None => JsonResponse 404 [("error", JStr "Product not found")]
  end.

(** ** Forms: [inventory/forms.py] *)

(** Truth value of an optional decimal or integer ([None] and zero are
    false). *)
Definition truthy_number (v : option Z) : bool :=
  match v with
  | Some n => negb (n =? 0)
  | None => false
  end.

Module ProductForm.
(** What [clean] reads of [cleaned_data]; a key is absent when its field
    did not validate. *)
Record cleaned_data : Type := mk {
  selling_price : option Z;
  buying_price : option Z
}.

(** [ProductForm.clean]. *)
Definition clean (cd : cleaned_data) : result cleaned_data :=
  if truthy_number (selling_price cd) && truthy_number (buying_price cd)
     && (default 0 (selling_price cd) <? default 0 (buying_price cd))
  then Raise (ValidationError "Selling price cannot be less than buying price.")
  else Ok cd.
End ProductForm.

Module SaleItemForm.
Record cleaned_data : Type := mk {
  product : option Product.t;
  quantity : option Z;
  unit_price : option Z
}.

(** [SaleItemForm.clean]. *)
Definition clean (cd : cleaned_data) : result cleaned_data :=
  match product cd with
  | Some p =>
      if truthy_number (quantity cd)
         && (Product.current_stock p <? default 0 (quantity cd))
      then Raise (ValidationError
                    ("Insufficient stock for " +:+ Product.name p
                     +:+ ". Available: " +:+ Py.str (Product.current_stock p)))
      else Ok cd
  | None => Ok cd
  end.
End SaleItemForm.

(** ** Lists and reports: [inventory/views.py]

    A queryset is modelled by the rows it selects.  The order of a list
    view (by name, in the database's collation) and its pagination are not
    modelled; [order_by('current_stock')] is, up to the order of products
    with equal stock, which the database does not fix. *)

(** The filter [current_stock__lte=F('min_stock_level')]. *)
Definition stock_lte_min (p : Product.t) : bool :=
  Product.current_stock p <=? Product.min_stock_level p.

Section ProductList.
(** [icontains field needle]: the database's case-insensitive containment
    test. *)
Variable icontains : string → string → bool.

(** [Q(name__icontains=q) | Q(sku__icontains=q) | Q(description__icontains=q)];
    a NULL sku matches nothing. *)
Definition matches_search (q : string) (p : Product.t) : bool :=
  icontains (Product.name p) q
  || match Product.sku p with Some s => icontains s q | None => false end
  || icontains (Product.description p) q.

(** [ProductListView.get_queryset]; the arguments are
    [request.GET.get('search')], [...('category')] and [...('low_stock')]. *)
Definition ProductListView_get_queryset
    (search_query category_filter low_stock : option string) (db : DB)
    : gmap Z Product.t :=
  let queryset := filter (λ kv, Product.is_active kv.2 = true) (products db) in
  let queryset :=
    if truthy_str search_query
    then filter (λ kv, matches_search (default "" search_query) kv.2 = true) queryset
    else queryset in
  let queryset :=
    if truthy_str category_filter
    then filter (λ kv, Product.category kv.2 = default "" category_filter) queryset
    else queryset in
  if truthy_str low_stock
  then filter (λ kv, stock_lte_min kv.2 = true) queryset
  else queryset.
End ProductList.

(** [low_stock_report]: the rows handed to the template, in order. *)
Definition by_stock (a b : Z * Product.t) : Prop :=
  Product.current_stock a.2 ≤ Product.current_stock b.2.

#[global] Instance by_stock_dec (a b : Z * Product.t) : Decision (by_stock a b) :=
  Z_le_dec (Product.current_stock a.2) (Product.current_stock b.2).

#[global] Instance by_stock_total : Total by_stock.
Proof. intros a b. unfold by_stock. lia. Qed.

#[global] Instance by_stock_trans : Transitive by_stock.
Proof. intros a b c. unfold by_stock. lia. Qed.

Definition low_stock_rows (db : DB) : gmap Z Product.t :=
  filter (λ kv, stock_lte_min kv.2 = true ∧ Product.is_active kv.2 = true)
         (products db).

Definition low_stock_report (db : DB) : list (Z * Product.t) :=
  merge_sort by_stock (map_to_list (low_stock_rows db)).

(** The counts of [dashboard]: [total_products] and [total_low_stock]. *)
Definition dashboard_total_products (db : DB) : nat :=
  size (filter (λ kv, Product.is_active kv.2 = true) (products db)).

Definition dashboard_total_low_stock (db : DB) : nat :=
  size (low_stock_rows db).

(** ** Clearing the data: [management/commands/populate_data.py] *)

(** [StockTransaction.objects.all().delete()]: nothing refers to a stock
    transaction. *)
Definition StockTransaction_objects_all_delete : M unit :=
  write (set_stock_transactions (λ _, ∅)).

(** [SaleItem.objects.all().delete()]. *)
Definition SaleItem_objects_all_delete : M unit :=
  write (set_sale_items (λ _, ∅)).

(** [Sale.objects.all().delete()]: refused while an item points to one of
    the sales ([SaleItem.sale] is [on_delete=PROTECT]). *)
Definition Sale_objects_all_delete : M unit :=
  held <~ query (λ db, filter (λ kv, is_Some (sales db !! SaleItem.sale_id kv.2))
                              (sale_items db)) ;;
  match map_to_list held with
  | [] => write (set_sales (λ _, ∅))
  | _ => raise (ProtectedError "SaleItem.sale")
  end.

(** [Product.objects.all().delete()]: refused while an item points to one
    of the products ([SaleItem.product] is [on_delete=PROTECT]); the stock
    transactions of the products go with them ([on_delete=CASCADE]). *)
Definition Product_objects_all_delete : M unit :=
  held <~ query (λ db, filter (λ kv, is_Some (products db !! SaleItem.product_id kv.2))
                              (sale_items db)) ;;
  match map_to_list held with
  | [] =>
      ps <~ query products ;;
      write (set_stock_transactions
               (filter (λ kv, ps !! StockTransaction.product_id kv.2 = None))) ;;;
      write (set_products (λ _, ∅))
  | _ => raise (ProtectedError "SaleItem.product")
  end.

(** [Command.clear_existing_data]. *)
Definition clear_existing_data : M unit :=
  StockTransaction_objects_all_delete ;;;
  SaleItem_objects_all_delete ;;;
  Sale_objects_all_delete ;;;
  Product_objects_all_delete.

(** * Vocabulary of the properties, and example states *)

(** The stored [current_stock] of product [k]. *)
Definition stock_of (k : Z) (db : DB) : option Z :=
  Product.current_stock <$> products db !! k.

(** Unfolds the plumbing of [M]. *)
Ltac run_monad :=
  unfold bind, ret, raise, lift, query, write in *; simpl in *.

(** [preserves I c]: whatever [c] returns or raises, the database it leaves
    satisfies [I] if the one it started from did. *)
Definition preserves {A} (I : DB → Prop) (c : M A) : Prop :=
  ∀ db, I db → I (c db).2.

(** No stored product has a negative stock. *)
Definition stock_nonneg (db : DB) : Prop :=
  map_Forall (λ _ p, 0 ≤ Product.current_stock p) (products db).

(** A shop with one product, ten in stock. *)
Definition widget : Product.t :=
  Product.mk (Some 1) "Widget" (Some "SKU-1") "" "" 100 150 10 5 true.

Definition shop : DB := mkDB {[ 1 := widget ]} ∅ ∅ ∅ (mkSequences 1 0 0 0).

(** The operations that write stock, and the database each leaves behind,
    whether it completes or raises. *)
Inductive operation : Type :=
  | SaveProduct (p : Product.t)
  | SaveStockTransaction (t : StockTransaction.t)
  | SaveSaleItem (i : SaleItem.t)
  | DeleteSale (pk : Z)
  | CreateSale (s : Sale.t) (instances deleted : list SaleItem.t)
  | UpdateSale (s : Sale.t) (instances deleted : list SaleItem.t).

Definition perform (o : operation) (db : DB) : DB :=
  match o with
  | SaveProduct p => (Product_save p db).2
  | SaveStockTransaction t => (StockTransaction_save t db).2
  | SaveSaleItem i => (SaleItem_save i db).2
  | DeleteSale pk => (SaleDeleteView_delete pk db).2
  | CreateSale s ins del => (SaleCreateView_form_valid s ins del db).2
  | UpdateSale s ins del => (SaleUpdateView_form_valid s ins del db).2
  end.

(** The database after a sequence of operations on an empty one. *)
Definition history (ops : list operation) : DB :=
  foldl (λ db o, perform o db) empty_db ops.

(** The number after the last "-" of a sale number, if it is one. *)
Definition suffix_number (s : Sale.t) : option Z :=
  Py.int (Py.last_item (Py.split "-" (Sale.sale_number s)) "").

(** The highest such number among the stored sales (0 when there is none). *)
Definition highest_suffix (db : DB) : Z :=
  foldr Z.max 0 (omap (λ kv, suffix_number kv.2) (map_to_list (sales db))).

(** A sale as the sale form builds it, and one with a number of its own. *)
Definition blank_sale : Sale.t := Sale.mk None "" 0 0 Sale.CASH "".

Definition numbered_sale (n : string) : Sale.t := Sale.mk None n 0 0 Sale.CASH "".

(** Two sales saved with numbers of their own, 9 first and then 3. *)
Definition two_sales : DB :=
  (Sale_save (numbered_sale "SALE-000003")
     (Sale_save (numbered_sale "SALE-000009") empty_db).2).2.

(** The sum over a sale's items of quantity times unit price. *)
Definition items_total (s : Z) (db : DB) : Z :=
  sum_lines (map_to_list (items_of s db)).

(** Every stored sale's [total_amount] is the sum over its items. *)
Definition total_matches (db : DB) : Prop :=
  map_Forall (λ k s, Sale.total_amount s = items_total k db) (sales db).

(** A sale opened in the shop, and four widgets to put on it. *)
Definition sale_open : DB := (Sale_save blank_sale shop).2.

Definition four_widgets : SaleItem.t :=
  SaleItem.mk None (Some 1) (Unfetched (Some 1)) 4 150.

(** Four widgets sold: the item saved on the open sale. *)
Definition four_sold : DB := (SaleItem_save four_widgets sale_open).2.

(** Eleven widgets asked of a shop that has ten. *)
Definition eleven_widgets : SaleItem.t :=
  SaleItem.mk None (Some 1) (Unfetched (Some 1)) 11 150.

(** What the instance knows of its product agrees with the stored stock. *)
Definition in_sync (r : related) (db : DB) : Prop :=
  match r with
  | Unfetched _ => True
  | Cached obj =>
      ∃ k, Product.id obj = Some k
           ∧ stock_of k db = Some (Product.current_stock obj)
  end.

(** A shop after a sale: six widgets left, five gadgets, and item 1 of
    sale 1 holding four widgets. *)
Definition widget6 : Product.t :=
  Product.mk (Some 1) "Widget" (Some "SKU-1") "" "" 100 150 6 5 true.

Definition gadget : Product.t :=
  Product.mk (Some 2) "Gadget" (Some "SKU-2") "" "" 200 250 5 5 true.

Definition sold_four : DB :=
  mkDB (<[2 := gadget]> {[ 1 := widget6 ]})
       {[ 1 := Sale.mk (Some 1) "SALE-000001" 0 600 Sale.CASH "" ]}
       {[ 1 := SaleItem.mkrow 1 1 4 150 ]}
       ∅
       (mkSequences 2 1 1 0).

(** Item 1 edited to three gadgets. *)
Definition three_gadgets : SaleItem.t :=
  SaleItem.mk (Some 1) (Some 1) (Unfetched (Some 2)) 3 250.

Definition moved : DB := (SaleItem_save three_gadgets sold_four).2.

(** The update view on that shop: sale 1 with its line edited to three
    gadgets at 2.50. *)
Definition sale_one : Sale.t := Sale.mk (Some 1) "SALE-000001" 0 600 Sale.CASH "".

Definition sale_updated : DB :=
  (SaleUpdateView_form_valid sale_one [three_gadgets] [] sold_four).2.

(** Item 1 edited to eight gadgets, with five in stock. *)
Definition eight_gadgets : SaleItem.t :=
  SaleItem.mk (Some 1) (Some 1) (Unfetched (Some 2)) 8 250.

(** Item 1 saved again as it is stored: four widgets. *)
Definition four_widgets_again : SaleItem.t :=
  SaleItem.mk (Some 1) (Some 1) (Unfetched (Some 1)) 4 150.

Definition resaved : DB := (SaleItem_save four_widgets_again sold_four).2.

(** Item 1 raised to eight widgets. *)
Definition eight_widgets : SaleItem.t :=
  SaleItem.mk (Some 1) (Some 1) (Unfetched (Some 1)) 8 150.

(** Two products saved without a SKU, the first one deleted, and a third
    one to save. *)
Definition nameless (n : string) : Product.t :=
  Product.mk None n None "" "" 100 150 10 5 true.

Definition one_deleted : DB :=
  (ProductDeleteView_delete 1
     (Product_save (nameless "B") (Product_save (nameless "A") empty_db).2).2).2.

(** Twenty widgets taken out of a shop that has ten. *)
Definition take_twenty : StockTransaction.t :=
  StockTransaction.mk None (Unfetched (Some 1)) "out" (-20) "OUT-0001" "".

Definition after_take_twenty : DB := (StockTransaction_save take_twenty shop).2.

(** Five widgets delivered. *)
Definition put_five : StockTransaction.t :=
  StockTransaction.mk None (Unfetched (Some 1)) "in" 5 "IN-0001" "".

(** A day in the shop. *)
Definition a_day : list operation :=
  [ SaveProduct (nameless "Widget");
    SaveStockTransaction put_five;
    CreateSale blank_sale [] [];
    SaveSaleItem four_widgets;
    SaveStockTransaction take_twenty ].

(** No two stored products share a SKU. *)
Definition sku_unique (db : DB) : Prop :=
  ∀ k1 k2 p1 p2 s,
    products db !! k1 = Some p1 → products db !! k2 = Some p2 →
    Product.sku p1 = Some s → Product.sku p2 = Some s → k1 = k2.

(** [Product.save] in one piece: the product as it goes to the table. *)
Definition sku_assigned (self : Product.t) (db : DB) : Product.t :=
  if truthy_str (Product.sku self) then self
  else Product.set_sku
         ("SKU-" +:+ Py.str (if truthy_pk (Product.id self)
                             then default 0 (Product.id self)
                             else Product_count db + 1))
         self.

(** The number that [Py.digits] reads from a decimal, after [acc]. *)
Fixpoint uint_value (acc : Z) (d : Decimal.uint) : Z :=
  match d with
  | Decimal.Nil => acc
  | Decimal.D0 l => uint_value (10 * acc + 0) l
  | Decimal.D1 l => uint_value (10 * acc + 1) l
  | Decimal.D2 l => uint_value (10 * acc + 2) l
  | Decimal.D3 l => uint_value (10 * acc + 3) l
  | Decimal.D4 l => uint_value (10 * acc + 4) l
  | Decimal.D5 l => uint_value (10 * acc + 5) l
  | Decimal.D6 l => uint_value (10 * acc + 6) l
  | Decimal.D7 l => uint_value (10 * acc + 7) l
  | Decimal.D8 l => uint_value (10 * acc + 8) l
  | Decimal.D9 l => uint_value (10 * acc + 9) l
  end.

Fixpoint all_digits (s : string) : bool :=
  match s with
  | EmptyString => true
  | String c r => bool_decide (is_Some (Py.digit_of c)) && all_digits r
  end.

(** The padding of [zfill]. *)
Definition zeros (k : nat) : string := String.concat "" (replicate k "0").

(** The database after saving the sales of [l] one after the other. *)
Definition save_sales (l : list Sale.t) (db : DB) : DB :=
  foldl (λ d s, (Sale_save s d).2) db l.

(** A sale that has neither a key nor a number yet. *)
Definition unsaved (s : Sale.t) : Prop :=
  Sale.id s = None ∧ Sale.sale_number s = "".

(** The sale [s] as stored when it is the [n]-th saved into an empty table
    that has held keys up to [b]: key [b + n], number [n]. *)
Definition numbered (b n : Z) (s : Sale.t) : Sale.t :=
  Sale.set_id (b + n) (Sale.set_sale_number ("SALE-" +:+ Py.format_06d n) s).

(** The table expected after saving [l] into such a table. *)
Definition expected_sale (b : Z) (l : list Sale.t) (k : Z) : option Sale.t :=
  if decide (b + 1 ≤ k)
  then numbered b (k - b) <$> l !! Z.to_nat (k - b - 1)
  else None.

(** The database after saving the products of [l] one after the other. *)
Definition save_products (l : list Product.t) (db : DB) : DB :=
  foldl (λ d p, (Product_save p d).2) db l.

(** A valid product that has neither a key nor a SKU yet. *)
Definition new_product (p : Product.t) : Prop :=
  Product.id p = None
  ∧ truthy_str (Product.sku p) = false
  ∧ Product.clean p = Ok tt
  ∧ 0 ≤ Product.min_stock_level p.

(** The product [p] as stored when it is the [n]-th saved into an empty
    table that has held keys up to [b]: key [b + n], SKU [n]. *)
Definition with_sku (b n : Z) (p : Product.t) : Product.t :=
  Product.set_id (b + n) (Product.set_sku ("SKU-" +:+ Py.str n) p).

(** The table expected after saving [l] into such a table. *)
Definition expected_product (b : Z) (l : list Product.t) (k : Z)
    : option Product.t :=
  if decide (b + 1 ≤ k)
  then with_sku b (k - b) <$> l !! Z.to_nat (k - b - 1)
  else None.

(** Two products and two sales saved, and the data cleared. *)
Definition cleared : DB :=
  (clear_existing_data
     (save_products [nameless "A"; nameless "B"]
        (save_sales [blank_sale; blank_sale] empty_db))).2.

(** The same four deletions with the sales and products first. *)
Definition clear_parents_first : M unit :=
  Sale_objects_all_delete ;;;
  Product_objects_all_delete ;;;
  SaleItem_objects_all_delete ;;;
  StockTransaction_objects_all_delete.

(** * Properties *)

(** ** Reading the database does not change it *)

Lemma fetch_product_db (r : related) (db : DB) :
  (fetch_product r db).2 = db.
Proof.
  destruct r as [[k|]|obj]; unfold fetch_product; run_monad; try reflexivity.
  destruct (Product_get k db); reflexivity.
Qed.

Lemma fetch_product_run (r : related) (db : DB) :
  fetch_product r db = ((fetch_product r db).1, db).
Proof.
  rewrite <- (fetch_product_db r db) at 3. apply surjective_pairing.
Qed.

Lemma SaleItemForm_init_stored (k : Z) (db : DB) :
  SaleItemForm_init (Some k) db
  = match sale_items db !! k with
    | Some row =>
        match products db !! SaleItem.product_id row with
        | Some _ => (Ok tt, db)
        | None => (Raise (DoesNotExist "Product"), db)
        end
    | None => (Ok tt, db)
    end.
Proof.
  unfold SaleItemForm_init, bind, query, SaleItem_get.
  destruct (sale_items db !! k) as [row|]; simpl; [|reflexivity].
  unfold bind, query, Product_get.
  destruct (products db !! SaleItem.product_id row); reflexivity.
Qed.

Lemma SaleItemForm_init_cases (stored : option Z) (db : DB) :
  SaleItemForm_init stored db = (Ok tt, db)
  ∨ ∃ e, SaleItemForm_init stored db = (Raise e, db)
         ∧ (e = RelatedObjectDoesNotExist "product" ∨ e = DoesNotExist "Product").
Proof.
  destruct stored as [k|]; [|right; eauto].
  rewrite SaleItemForm_init_stored.
  destruct (sale_items db !! k) as [row|]; [|left; reflexivity].
  destruct (products db !! SaleItem.product_id row); [left; reflexivity|].
  right. eauto.
Qed.

Lemma for_each_init_cases (stored : SaleItem.t → option Z)
    (lines : list SaleItem.t) (db : DB) :
  (∃ ys, for_each (λ line, SaleItemForm_init (stored line)) lines db = (Ok ys, db))
  ∨ ∃ e, for_each (λ line, SaleItemForm_init (stored line)) lines db = (Raise e, db)
         ∧ (e = RelatedObjectDoesNotExist "product" ∨ e = DoesNotExist "Product").
Proof.
  induction lines as [|x xs IH]; [left; eexists; reflexivity|].
  destruct (SaleItemForm_init_cases (stored x) db) as [Hx|(e & Hx & He)].
  - destruct IH as [(ys & Hys)|(e & Hys & He)].
    + left. exists (tt :: ys). simpl. unfold bind. rewrite Hx, Hys. reflexivity.
    + right. exists e. split; [|exact He].
      simpl. unfold bind. rewrite Hx, Hys. reflexivity.
  - right. exists e. split; [|exact He]. simpl. unfold bind. rewrite Hx. reflexivity.
Qed.

(** Building the forms either goes through or raises one of the two
    exceptions of a foreign-key read; it writes nothing. *)
Lemma build_forms_cases (stored : SaleItem.t → option Z) (lines : list SaleItem.t)
    (db : DB) :
  build_forms stored lines db = (Ok tt, db)
  ∨ ∃ e, build_forms stored lines db = (Raise e, db)
         ∧ (e = RelatedObjectDoesNotExist "product" ∨ e = DoesNotExist "Product").
Proof.
  destruct (for_each_init_cases stored lines db) as [(ys & Hys)|(e & Hys & He)].
  - left. unfold build_forms, bind. rewrite Hys. reflexivity.
  - right. exists e. split; [|exact He].
    unfold build_forms, bind. rewrite Hys. reflexivity.
Qed.

(** A line without a stored item stops the building of the forms. *)
Lemma build_forms_new_line (stored : SaleItem.t → option Z)
    (lines : list SaleItem.t) (db : DB) :
  (∃ line, line ∈ lines ∧ stored line = None) →
  ∃ e, build_forms stored lines db = (Raise e, db)
       ∧ (e = RelatedObjectDoesNotExist "product" ∨ e = DoesNotExist "Product").
Proof.
  intros (line & Hin & Hnew).
  destruct (build_forms_cases stored lines db) as [Hok|Hraise]; [|exact Hraise].
  exfalso. unfold build_forms, bind in Hok.
  induction lines as [|x xs IH]; [inversion Hin|].
  simpl in Hok. unfold bind at 1 in Hok.
  apply elem_of_cons in Hin. destruct Hin as [<-|Hin].
  - unfold SaleItemForm_init in Hok. rewrite Hnew in Hok. discriminate.
  - destruct (SaleItemForm_init_cases (stored x) db) as [Hx|(e & Hx & _)];
      rewrite Hx in Hok; [|discriminate].
    apply (IH Hin). unfold bind in Hok.
    destruct (for_each_init_cases stored xs db) as [(ys & Hys)|(e & Hys & _)];
      rewrite Hys in *; [reflexivity|discriminate].
Qed.

Lemma build_forms_blank (lines : list SaleItem.t) (db : DB) :
  lines ≠ [] →
  build_forms (λ _, None) lines db = (Raise (RelatedObjectDoesNotExist "product"), db).
Proof. destruct lines as [|x xs]; [congruence|]. reflexivity. Qed.

(** What runs after the forms are built starts from the same database. *)
Lemma after_build_forms {A} (stored : SaleItem.t → option Z)
    (lines : list SaleItem.t) (c : M A) (db db' : DB) (r : A) :
  (build_forms stored lines ;;; c) db = (Ok r, db') →
  build_forms stored lines db = (Ok tt, db) ∧ c db = (Ok r, db').
Proof.
  unfold bind at 1.
  destruct (build_forms_cases stored lines db) as [->|(e & -> & _)];
    [auto|discriminate].
Qed.

Lemma fetch_product_unfetched (k : Z) (db : DB) (p : Product.t) :
  products db !! k = Some p →
  fetch_product (Unfetched (Some k)) db = (Ok (Product.set_id k p), db).
Proof.
  intros Hk. unfold fetch_product. run_monad. unfold Product_get. rewrite Hk. reflexivity.
Qed.

(** ** C9: the two JSON endpoints *)

(** C9. For every product id, the price endpoint answers 200 with the keys
    [price] and [stock] and the stock endpoint answers 200 with the key
    [stock] exactly when a product with that id exists, whatever its
    [is_active] flag; otherwise both answer 404 with the key [error]. *)
Theorem product_api_found_iff_exists (db : DB) (product_id : Z) :
  (∀ p, products db !! product_id = Some p →
        product_price_api product_id db
        = JsonResponse 200 [("price", JFloatOfCents (Product.selling_price p));
                            ("stock", JInt (Product.current_stock p))]
        ∧ product_stock_api product_id db
          = JsonResponse 200 [("stock", JInt (Product.current_stock p))])
  ∧ (products db !! product_id = None →
        product_price_api product_id db
        = JsonResponse 404 [("error", JStr "Product not found")]
        ∧ product_stock_api product_id db
          = JsonResponse 404 [("error", JStr "Product not found")])
  ∧ (is_Some (products db !! product_id)
     ↔ status_of (product_price_api product_id db) = 200)
  ∧ (is_Some (products db !! product_id)
     ↔ status_of (product_stock_api product_id db) = 200).
Proof.
  unfold product_price_api, product_stock_api, Product_get.
  destruct (products db !! product_id) as [p|] eqn:Hp; simpl.
  - split; [|split; [|split]].
    + intros q [= <-]. split; reflexivity.
    + discriminate.
    + split; [reflexivity | eauto].
    + split; [reflexivity | eauto].
  - split; [|split; [|split]].
    + discriminate.
    + split; reflexivity.
    + split; [intros [q Hq]; discriminate | discriminate].
    + split; [intros [q Hq]; discriminate | discriminate].
Qed.

(** ** C3: a new sale item beyond the stock is rejected *)

(** C3. Saving a sale item that has no key yet, with a quantity above the
    [current_stock] of the product it refers to, raises a validation error
    and leaves the database as it was: no item is stored and no stock
    changes. *)
Theorem new_item_over_stock_rejected
    (db : DB) (self : SaleItem.t) (p : Product.t) :
  truthy_pk (SaleItem.pk self) = false →
  (fetch_product (SaleItem.product self) db).1 = Ok p →
  Product.current_stock p < SaleItem.qty self →
  ∃ msg, SaleItem_save self db = (Raise (ValidationError msg), db).
Proof.
  intros Hnew Hp Hover.
  unfold SaleItem_save, SaleItem_clean.
  unfold bind at 1. unfold bind at 1.
  rewrite fetch_product_run, Hp. cbn [SaleItem.qty SaleItem.price SaleItem.pk SaleItem.set_product].
  destruct (SaleItem.qty self <? 1) eqn:Hq1; [eexists; reflexivity|].
  destruct (SaleItem.price self <? 0) eqn:Hpr; [eexists; reflexivity|].
  apply Z.ltb_ge in Hq1.
  replace (SaleItem.qty self =? 0) with false by (symmetry; apply Z.eqb_neq; lia).
  rewrite Hnew. cbn [negb]. run_monad.
  replace (Product.current_stock p <? SaleItem.qty self) with true
    by (symmetry; apply Z.ltb_lt; lia).
  eexists; reflexivity.
Qed.

Lemma new_item_over_stock_rejected_eleven :
  ∃ msg, SaleItem_save eleven_widgets sale_open
         = (Raise (ValidationError msg), sale_open).
Proof.
  apply (new_item_over_stock_rejected sale_open eleven_widgets widget).
  - reflexivity.
  - vm_compute. reflexivity.
  - simpl. lia.
Defined.

(** ** Properties of the database that every step keeps *)

Section Preservation.
Variable I : DB → Prop.

Lemma preserves_ret {A} (a : A) : preserves I (ret a).
Proof. intros db H. exact H. Qed.

Lemma preserves_raise {A} (e : exn) : preserves I (raise (A:=A) e).
Proof. intros db H. exact H. Qed.

Lemma preserves_lift {A} (r : result A) : preserves I (lift r).
Proof. intros db H. exact H. Qed.

Lemma preserves_query {A} (f : DB → A) : preserves I (query f).
Proof. intros db H. exact H. Qed.

Lemma preserves_bind {A B} (c : M A) (k : A → M B) :
  preserves I c → (∀ a, preserves I (k a)) → preserves I (bind c k).
Proof.
  intros Hc Hk db H. unfold bind.
  specialize (Hc db H). destruct (c db) as [[a|e] db']; simpl in *.
  - apply Hk, Hc.
  - exact Hc.
Qed.

Lemma preserves_atomic {A} (c : M A) : preserves I c → preserves I (atomic c).
Proof.
  intros Hc db H. unfold atomic.
  specialize (Hc db H). destruct (c db) as [[a|e] db']; simpl in *; assumption.
Qed.

Lemma preserves_try_atomic (prefix : string) (c : M response) :
  preserves I c → preserves I (try_atomic prefix c).
Proof.
  intros Hc db H. unfold try_atomic.
  pose proof (preserves_atomic c Hc db H) as Ha.
  destruct (atomic c db) as [[a|e] db']; simpl in *; assumption.
Qed.

Lemma preserves_for_each {A B} (body : A → M B) (xs : list A) :
  (∀ x, preserves I (body x)) → preserves I (for_each body xs).
Proof.
  intros Hb. induction xs as [|x xs IH]; simpl.
  - apply preserves_ret.
  - apply preserves_bind; [apply Hb|]. intros y.
    apply preserves_bind; [apply IH|]. intros ys. apply preserves_ret.
Qed.

Lemma preserves_fetch_product (r : related) : preserves I (fetch_product r).
Proof. intros db H. rewrite fetch_product_db. exact H. Qed.

Lemma preserves_build_forms (stored : SaleItem.t → option Z) (lines : list SaleItem.t) :
  preserves I (build_forms stored lines).
Proof.
  intros db H.
  destruct (build_forms_cases stored lines db) as [->|(e & -> & _)]; exact H.
Qed.

(** The writes, one hypothesis per table. *)
Hypothesis I_product_row : ∀ db k p,
  I db → 0 ≤ Product.current_stock p → I (set_products (insert k p) db).
Hypothesis I_sale_items : ∀ db f, I db → I (set_sale_items f db).
Hypothesis I_stock_transactions : ∀ db f, I db → I (set_stock_transactions f db).
Hypothesis I_sales : ∀ db f, I db → I (set_sales f db).
Hypothesis I_sequences : ∀ db f, I db → I (set_sequences f db).

Lemma preserves_Model_save_Product (self : Product.t) :
  preserves I (Model_save_Product self).
Proof.
  intros db H. unfold Model_save_Product.
  destruct (sku_taken _ _ _); simpl; [exact H|].
  destruct (Product.current_stock self <? 0) eqn:Hs; simpl; [exact H|].
  destruct (Product.min_stock_level self <? 0); simpl; [exact H|].
  apply I_sequences, I_product_row; [exact H|].
  simpl. apply Z.ltb_ge in Hs. exact Hs.
Qed.

Lemma preserves_Product_save (self : Product.t) : preserves I (Product_save self).
Proof.
  unfold Product_save.
  apply preserves_bind; [apply preserves_lift|]. intros _.
  apply preserves_bind.
  - destruct (truthy_str _); [apply preserves_ret|].
    apply preserves_bind; [|intros; apply preserves_ret].
    destruct (truthy_pk _); [apply preserves_ret|].
    apply preserves_bind; [apply preserves_query|intros; apply preserves_ret].
  - intros p. apply preserves_Model_save_Product.
Qed.

Lemma preserves_Model_save_SaleItem (self : SaleItem.t) :
  preserves I (Model_save_SaleItem self).
Proof.
  intros db H. unfold Model_save_SaleItem.
  destruct (unsaved_related _); simpl; [exact H|].
  destruct (SaleItem.sale self); [|exact H].
  destruct (related_id _); [|exact H].
  match goal with |- context [if ?b then _ else _] => destruct b end; simpl;
    [exact H | apply I_sequences, I_sale_items, H].
Qed.

Lemma preserves_Model_save_StockTransaction (self : StockTransaction.t) :
  preserves I (Model_save_StockTransaction self).
Proof.
  intros db H. unfold Model_save_StockTransaction.
  destruct (unsaved_related _); simpl; [exact H|].
  destruct (related_id _); [|exact H].
  match goal with |- context [if ?b then _ else _] => destruct b end; simpl;
    [exact H | apply I_sequences, I_stock_transactions, H].
Qed.

Lemma preserves_Model_save_Sale (self : Sale.t) :
  preserves I (Model_save_Sale self).
Proof.
  intros db H. unfold Model_save_Sale.
  destruct (sale_number_taken _ _ _); simpl;
    [exact H | apply I_sequences, I_sales, H].
Qed.

Lemma preserves_SaleItem_clean (self : SaleItem.t) :
  preserves I (SaleItem_clean self).
Proof.
  unfold SaleItem_clean.
  apply preserves_bind; [apply preserves_fetch_product|]. intros p. simpl.
  destruct (_ <? 1); [apply preserves_raise|].
  destruct (_ <? 0); [apply preserves_raise|].
  destruct (negb _); [|apply preserves_ret].
  apply preserves_bind.
  - destruct (truthy_pk _); [|apply preserves_ret].
    apply preserves_bind; [apply preserves_query|].
    intros [o|]; apply preserves_ret.
  - intros a. destruct (_ <? _); [apply preserves_raise|apply preserves_ret].
Qed.

Lemma preserves_restore_original_stock (self : SaleItem.t) :
  preserves I (restore_original_stock self).
Proof.
  unfold restore_original_stock.
  destruct (truthy_pk _); [|apply preserves_ret].
  apply preserves_bind; [apply preserves_query|].
  intros [o|]; [|apply preserves_ret].
  apply preserves_bind; [apply preserves_fetch_product|]. intros op.
  apply preserves_bind; [apply preserves_Product_save|]. intros _.
  apply preserves_ret.
Qed.

Lemma preserves_SaleItem_save (self : SaleItem.t) :
  preserves I (SaleItem_save self).
Proof.
  unfold SaleItem_save.
  apply preserves_bind; [apply preserves_SaleItem_clean|]. intros s1.
  apply preserves_bind; [apply preserves_restore_original_stock|]. intros _.
  apply preserves_bind; [apply preserves_Model_save_SaleItem|]. intros s2.
  apply preserves_bind; [apply preserves_fetch_product|]. intros p.
  apply preserves_bind; [apply preserves_Product_save|]. intros p'.
  apply preserves_ret.
Qed.

Lemma preserves_StockTransaction_save (self : StockTransaction.t) :
  preserves I (StockTransaction_save self).
Proof.
  unfold StockTransaction_save.
  apply preserves_bind; [apply preserves_Model_save_StockTransaction|]. intros s1.
  apply preserves_bind; [apply preserves_fetch_product|]. intros p.
  apply preserves_bind; [apply preserves_Product_save|]. intros p'.
  apply preserves_ret.
Qed.

Lemma preserves_Sale_save (self : Sale.t) : preserves I (Sale_save self).
Proof.
  unfold Sale_save.
  apply preserves_bind; [|intros; apply preserves_Model_save_Sale].
  destruct (String.eqb _ _); [|apply preserves_ret].
  apply preserves_bind; [apply preserves_query|]. intros r.
  apply preserves_bind; [apply preserves_lift|]. intros n. apply preserves_ret.
Qed.

Lemma preserves_Sale_update_total (self : Sale.t) :
  preserves I (Sale_update_total self).
Proof.
  unfold Sale_update_total. destruct (Sale.id self); [|apply preserves_raise].
  apply preserves_bind; [apply preserves_query|]. intros t.
  apply preserves_Sale_save.
Qed.

Lemma preserves_SaleItem_delete (self : SaleItem.t) :
  preserves I (SaleItem_delete self).
Proof.
  unfold SaleItem_delete. destruct (SaleItem.pk self); [|apply preserves_raise].
  intros db H. apply I_sale_items, H.
Qed.

Lemma preserves_Sale_delete (self : Sale.t) : preserves I (Sale_delete self).
Proof.
  unfold Sale_delete. destruct (Sale.id self); [|apply preserves_raise].
  apply preserves_bind; [apply preserves_query|]. intros its.
  destruct (map_to_list its); [|apply preserves_raise].
  intros db H. apply I_sales, H.
Qed.

Lemma preserves_SaleDeleteView_delete (pk : Z) :
  preserves I (SaleDeleteView_delete pk).
Proof.
  unfold SaleDeleteView_delete.
  apply preserves_bind; [apply preserves_query|].
  intros [sale|]; [|apply preserves_ret].
  apply preserves_atomic.
  apply preserves_bind; [apply preserves_query|]. intros its.
  apply preserves_bind.
  - apply preserves_for_each. intros item.
    apply preserves_bind; [apply preserves_fetch_product|]. intros p.
    apply preserves_Product_save.
  - intros _. apply preserves_bind; [apply preserves_Sale_delete|].
    intros _. apply preserves_ret.
Qed.

Lemma preserves_SaleCreateView_form_valid
    (form_sale : Sale.t) (instances deleted : list SaleItem.t) :
  preserves I (SaleCreateView_form_valid form_sale instances deleted).
Proof.
  unfold SaleCreateView_form_valid.
  apply preserves_bind; [apply preserves_build_forms|]. intros _.
  apply preserves_try_atomic.
  apply preserves_bind; [apply preserves_Sale_save|]. intros object.
  apply preserves_bind.
  { apply preserves_for_each. intros instance.
    apply preserves_bind; [apply preserves_fetch_product|]. intros p.
    apply preserves_SaleItem_save. }
  intros _. apply preserves_bind.
  { apply preserves_for_each. intros instance. apply preserves_SaleItem_delete. }
  intros _. apply preserves_bind; [apply preserves_Sale_update_total|].
  intros object'. apply preserves_ret.
Qed.

Lemma preserves_SaleUpdateView_form_valid
    (form_sale : Sale.t) (instances deleted : list SaleItem.t) :
  preserves I (SaleUpdateView_form_valid form_sale instances deleted).
Proof.
  unfold SaleUpdateView_form_valid.
  apply preserves_bind; [apply preserves_build_forms|]. intros _.
  apply preserves_try_atomic.
  destruct (Sale.id form_sale); [|apply preserves_raise].
  apply preserves_bind; [apply preserves_query|]. intros oq.
  apply preserves_bind.
  { apply preserves_for_each. intros [i instance]. unfold check_stock.
    apply preserves_bind; [apply preserves_fetch_product|]. intros p.
    apply preserves_ret. }
  intros checked. destruct (omap snd checked); [|apply preserves_ret].
  apply preserves_bind; [apply preserves_Sale_save|]. intros object.
  apply preserves_bind.
  { apply preserves_for_each. intros instance. apply preserves_SaleItem_save. }
  intros _. apply preserves_bind.
  { apply preserves_for_each. intros instance. apply preserves_SaleItem_delete. }
  intros _. apply preserves_bind; [apply preserves_Sale_update_total|].
  intros object'. apply preserves_ret.
Qed.

End Preservation.

(** ** C4: stock never goes negative *)

Lemma stock_nonneg_product_row (db : DB) (k : Z) (p : Product.t) :
  stock_nonneg db → 0 ≤ Product.current_stock p →
  stock_nonneg (set_products (insert k p) db).
Proof.
  unfold stock_nonneg. simpl. intros H Hp. apply map_Forall_insert_2; assumption.
Qed.

Lemma stock_nonneg_sale_items (db : DB) f :
  stock_nonneg db → stock_nonneg (set_sale_items f db).
Proof. intros H. exact H. Qed.

Lemma stock_nonneg_stock_transactions (db : DB) f :
  stock_nonneg db → stock_nonneg (set_stock_transactions f db).
Proof. intros H. exact H. Qed.

Lemma stock_nonneg_sales (db : DB) f :
  stock_nonneg db → stock_nonneg (set_sales f db).
Proof. intros H. exact H. Qed.

Lemma stock_nonneg_sequences (db : DB) f :
  stock_nonneg db → stock_nonneg (set_sequences f db).
Proof. intros H. exact H. Qed.

Lemma stock_nonneg_shop : stock_nonneg shop.
Proof.
  unfold stock_nonneg, shop. simpl. apply map_Forall_singleton. simpl. lia.
Qed.

Lemma stock_nonneg_perform (o : operation) (db : DB) :
  stock_nonneg db → stock_nonneg (perform o db).
Proof.
  intros H. destruct o; simpl.
  - apply (preserves_Product_save stock_nonneg stock_nonneg_product_row
             stock_nonneg_sequences), H.
  - apply (preserves_StockTransaction_save stock_nonneg
             stock_nonneg_product_row stock_nonneg_stock_transactions
             stock_nonneg_sequences), H.
  - apply (preserves_SaleItem_save stock_nonneg
             stock_nonneg_product_row stock_nonneg_sale_items
             stock_nonneg_sequences), H.
  - apply (preserves_SaleDeleteView_delete stock_nonneg
             stock_nonneg_product_row stock_nonneg_sales
             stock_nonneg_sequences), H.
  - apply (preserves_SaleCreateView_form_valid stock_nonneg
             stock_nonneg_product_row stock_nonneg_sale_items stock_nonneg_sales
             stock_nonneg_sequences), H.
  - apply (preserves_SaleUpdateView_form_valid stock_nonneg
             stock_nonneg_product_row stock_nonneg_sale_items stock_nonneg_sales
             stock_nonneg_sequences), H.
Qed.

Lemma stock_nonneg_run (ops : list operation) (db : DB) :
  stock_nonneg db → stock_nonneg (foldl (λ d o, perform o d) db ops).
Proof.
  revert db. induction ops as [|o ops IH]; intros db H; simpl.
  - exact H.
  - apply IH, stock_nonneg_perform, H.
Qed.

(** C4. No operation drives a stock negative: if no product has a negative
    [current_stock], none has one after a product save, a stock transaction
    write, a sale item save (creation or update), a sale deletion, or a
    sale creation or update through the views, whether the operation
    completes or raises.  So after any sequence of these operations on an
    empty database every product has a [current_stock] of at least zero. *)
Theorem stock_never_negative :
  (∀ o db, stock_nonneg db → stock_nonneg (perform o db))
  ∧ (∀ ops k p, products (history ops) !! k = Some p →
                0 ≤ Product.current_stock p).
Proof.
  split.
  - apply stock_nonneg_perform.
  - intros ops k p Hk.
    assert (stock_nonneg (history ops)) as H.
    { unfold history. apply stock_nonneg_run.
      unfold stock_nonneg, empty_db. simpl. apply map_Forall_empty. }
    apply (H k p Hk).
Qed.

(** A product saved with ten in stock, then a delivery of five, a sale of
    four and a refused withdrawal of twenty: fifteen, then eleven remain. *)
Lemma stock_never_negative_day :
  ∃ p, products (history a_day) !! 1 = Some p
       ∧ Product.current_stock p = 11
       ∧ 0 ≤ Product.current_stock p.
Proof.
  eexists. split; [vm_compute; reflexivity|]. split; [reflexivity|].
  apply (proj2 stock_never_negative a_day 1). vm_compute. reflexivity.
Defined.

(** ** C7: sale numbers *)

Lemma foldr_later_of_spec {A} (l : list (Z * A)) :
  match foldr later_of None l with
  | None => l = []
  | Some kv => kv ∈ l ∧ ∀ kv', kv' ∈ l → kv'.1 ≤ kv.1
  end.
Proof.
  induction l as [|x l IH]; simpl; [reflexivity|].
  destruct (foldr later_of None l) as [best|]; simpl.
  - destruct IH as [Hin Hmax].
    destruct (best.1 <? x.1) eqn:Hlt.
    + apply Z.ltb_lt in Hlt. split; [left|].
      intros kv' [->|Hin']%elem_of_cons; [lia|]. specialize (Hmax _ Hin'). lia.
    + apply Z.ltb_ge in Hlt. split; [right; exact Hin|].
      intros kv' [->|Hin']%elem_of_cons; [lia|]. apply Hmax, Hin'.
  - subst l. split; [left|].
    intros kv' [->|Hin']%elem_of_cons; [lia|]. inversion Hin'.
Qed.

Lemma last_by_id_None {A} (m : gmap Z A) : last_by_id m = None → m = ∅.
Proof.
  unfold last_by_id. intros H.
  pose proof (foldr_later_of_spec (map_to_list m)) as S. rewrite H in S.
  apply map_to_list_empty_iff, S.
Qed.

Lemma last_by_id_Some {A} (m : gmap Z A) (k : Z) (v : A) :
  last_by_id m = Some (k, v) →
  m !! k = Some v ∧ ∀ k', is_Some (m !! k') → k' ≤ k.
Proof.
  unfold last_by_id. intros H.
  pose proof (foldr_later_of_spec (map_to_list m)) as S. rewrite H in S.
  destruct S as [Hin Hmax]. split.
  - apply elem_of_map_to_list in Hin. exact Hin.
  - intros k' [v' Hk']. apply elem_of_map_to_list in Hk'.
    apply (Hmax (k', v')), Hk'.
Qed.

(** C7 as stated fails: with sales 1 ("SALE-000009") and 2
    ("SALE-000003") stored, the highest suffix is 9, and a new sale is
    numbered after sale 2, "SALE-000004", not "SALE-000010". *)
Lemma sale_number_not_after_highest_suffix :
  (Sale.sale_number <$> sales two_sales !! 1) = Some "SALE-000009"
  ∧ (Sale.sale_number <$> sales two_sales !! 2) = Some "SALE-000003"
  ∧ highest_suffix two_sales = 9
  ∧ ∃ saved db',
      Sale_save blank_sale two_sales = (Ok saved, db')
      ∧ Sale.sale_number saved = "SALE-000004"
      ∧ Sale.sale_number saved
        ≠ "SALE-" +:+ Py.format_06d (highest_suffix two_sales + 1).
Proof.
  split; [vm_compute; reflexivity|].
  split; [vm_compute; reflexivity|].
  split; [vm_compute; reflexivity|].
  eexists _, _. split; [vm_compute; reflexivity|].
  split; [reflexivity|]. vm_compute. discriminate.
Qed.

(** Past 999999 the number has seven digits. *)
Example sale_number_seven_digits :
  ∃ saved db',
    Sale_save blank_sale (Sale_save (numbered_sale "SALE-999999") empty_db).2
    = (Ok saved, db')
    ∧ Sale.sale_number saved = "SALE-1000000".
Proof. eexists _, _. split; vm_compute; reflexivity. Qed.

Lemma Model_save_Sale_Ok (self saved : Sale.t) (db db' : DB) :
  Model_save_Sale self db = (Ok saved, db') →
  Sale.sale_number saved = Sale.sale_number self
  ∧ Sale.total_amount saved = Sale.total_amount self
  ∧ ∃ k, Sale.id saved = Some k
         ∧ k = pk_or_fresh (Sale.id self) (sale_seq (sequences db)) (sales db)
         ∧ db' = note_sale_key k (set_sales (insert k saved) db).
Proof.
  unfold Model_save_Sale. destruct (sale_number_taken _ _ _); [discriminate|].
  intros [= <- <-]. simpl. eauto 10.
Qed.

(** C7 (amended). A successful [Sale.save] keeps a sale number that is
    already set.  A sale saved without one gets "SALE-" followed by [n + 1]
    zero-padded to at least six digits, where [n] is the number after the
    last "-" in the sale number of the stored sale with the highest id, and
    0 when no sale is stored.  The saved sale is stored under its id with
    that number. *)
Theorem sale_number_assigned_once
    (self saved : Sale.t) (db db' : DB) :
  Sale_save self db = (Ok saved, db') →
  (Sale.sale_number self ≠ "" → Sale.sale_number saved = Sale.sale_number self)
  ∧ (Sale.sale_number self = "" →
     match last_by_id (sales db) with
     | None =>
         sales db = ∅ ∧ Sale.sale_number saved = "SALE-000001"
     | Some (k, last_sale) =>
         sales db !! k = Some last_sale
         ∧ (∀ k', is_Some (sales db !! k') → k' ≤ k)
         ∧ ∃ n, suffix_number last_sale = Some n
                ∧ Sale.sale_number saved = "SALE-" +:+ Py.format_06d (n + 1)
     end)
  ∧ Sale.sale_number saved ≠ ""
  ∧ ∃ k, Sale.id saved = Some k ∧ sales db' !! k = Some saved.
Proof.
  unfold Sale_save. unfold bind at 1.
  destruct (String.eqb (Sale.sale_number self) "") eqn:Hempty.
  - apply String.eqb_eq in Hempty.
    unfold bind at 1, query at 1. unfold bind at 1, lift at 1, ret at 1.
    unfold last_number, suffix_number.
    destruct (last_by_id (sales db)) as [[k last_sale]|] eqn:Hlast.
    + destruct (Py.int _) as [n|] eqn:Hn; [|discriminate].
      intros Hsave. apply Model_save_Sale_Ok in Hsave.
      destruct Hsave as (Hnum & _ & k' & Hid & _ & ->). simpl in Hnum.
      apply last_by_id_Some in Hlast. destruct Hlast as [Hk Hmax].
      split; [intros Hne; contradiction|].
      split; [intros _; repeat split; eauto|].
      split; [rewrite Hnum; discriminate|].
      exists k'. split; [exact Hid|]. simpl. apply lookup_insert_eq.
    + intros Hsave. apply Model_save_Sale_Ok in Hsave.
      destruct Hsave as (Hnum & _ & k' & Hid & _ & ->). simpl in Hnum.
      apply last_by_id_None in Hlast.
      split; [intros Hne; contradiction|].
      split; [intros _; split; [exact Hlast | exact Hnum]|].
      split; [rewrite Hnum; discriminate|].
      exists k'. split; [exact Hid|]. simpl. apply lookup_insert_eq.
  - apply String.eqb_neq in Hempty. unfold ret at 1.
    intros Hsave. apply Model_save_Sale_Ok in Hsave.
    destruct Hsave as (Hnum & _ & k' & Hid & _ & ->).
    split; [intros _; exact Hnum|].
    split; [intros He; contradiction|].
    split; [rewrite Hnum; exact Hempty|].
    exists k'. split; [exact Hid|]. simpl. apply lookup_insert_eq.
Qed.

Lemma sale_number_assigned_once_two_sales :
  let saved := Sale.mk (Some 3) "SALE-000004" 0 0 Sale.CASH "" in
  let db' := note_sale_key 3 (set_sales (insert 3 saved) two_sales) in
  Sale.sale_number saved ≠ ""
  ∧ ∃ k, Sale.id saved = Some k ∧ sales db' !! k = Some saved.
Proof.
  intros saved db'.
  apply (sale_number_assigned_once blank_sale saved two_sales db').
  vm_compute. reflexivity.
Defined.

(** ** Inversion of successful runs *)

Lemma bind_Ok {A B} (c : M A) (k : A → M B) (db db' : DB) (b : B) :
  bind c k db = (Ok b, db') →
  ∃ a db1, c db = (Ok a, db1) ∧ k a db1 = (Ok b, db').
Proof.
  unfold bind. destruct (c db) as [[a|e] db1]; [eauto|discriminate].
Qed.

Lemma atomic_Ok {A} (c : M A) (db db' : DB) (a : A) :
  atomic c db = (Ok a, db') → c db = (Ok a, db').
Proof.
  unfold atomic. destruct (c db) as [[a'|e] db1]; [tauto|discriminate].
Qed.

Lemma atomic_Raise {A} (c : M A) (db db' : DB) (e : exn) :
  atomic c db = (Raise e, db') → db' = db.
Proof.
  unfold atomic. destruct (c db) as [[a'|e'] db1]; [discriminate|congruence].
Qed.

Lemma try_atomic_Redirect (prefix : string) (c : M response) (db db' : DB)
    (url : string) (pk : option Z) :
  try_atomic prefix c db = (Ok (Redirect url pk), db') →
  c db = (Ok (Redirect url pk), db').
Proof.
  unfold try_atomic. destruct (atomic c db) as [[r|e] db1] eqn:Ha.
  - intros [= -> ->]. apply atomic_Ok, Ha.
  - discriminate.
Qed.

Lemma Sale_save_Ok (self saved : Sale.t) (db db' : DB) :
  Sale_save self db = (Ok saved, db') →
  Sale.total_amount saved = Sale.total_amount self
  ∧ ∃ k, Sale.id saved = Some k
         ∧ k = pk_or_fresh (Sale.id self) (sale_seq (sequences db)) (sales db)
         ∧ db' = note_sale_key k (set_sales (insert k saved) db).
Proof.
  unfold Sale_save. intros H. apply bind_Ok in H.
  destruct H as (s1 & db1 & H1 & H2).
  assert (db1 = db ∧ Sale.total_amount s1 = Sale.total_amount self
          ∧ Sale.id s1 = Sale.id self) as (-> & Ht & Hi).
  { destruct (String.eqb _ _).
    - apply bind_Ok in H1. destruct H1 as (r & dbr & Hq & H1).
      injection Hq as <- <-.
      apply bind_Ok in H1. destruct H1 as (n & dbn & Hl & H1).
      unfold lift in Hl. injection Hl as _ <-.
      injection H1 as <- <-. auto.
    - injection H1 as <- <-. auto. }
  apply Model_save_Sale_Ok in H2. destruct H2 as (_ & Ht' & k & Hid & Hk & ->).
  split; [congruence|]. exists k. rewrite <- Hi. auto.
Qed.

(** ** C5: the sale total *)

Lemma aggregate_total_or_0 (s : Z) (db : DB) :
  default 0 (aggregate_total (items_of s db)) = items_total s db.
Proof.
  unfold aggregate_total, items_total.
  destruct (map_to_list (items_of s db)); reflexivity.
Qed.

Lemma Sale_update_total_Ok (self saved : Sale.t) (db db' : DB) :
  Sale_update_total self db = (Ok saved, db') →
  ∃ k, Sale.id self = Some k ∧ Sale.id saved = Some k
       ∧ sales db' !! k = Some saved
       ∧ Sale.total_amount saved = items_total k db'.
Proof.
  unfold Sale_update_total. destruct (Sale.id self) as [k|] eqn:Hid; [|discriminate].
  intros H. apply bind_Ok in H. destruct H as (t & db1 & Hq & H).
  injection Hq as <- <-.
  apply Sale_save_Ok in H. destruct H as (Ht & k' & Hid' & Hk' & ->).
  simpl in Hk'. rewrite Hid in Hk'. simpl in Hk'. subst k'.
  exists k. split; [reflexivity|]. split; [exact Hid'|].
  split; [simpl; apply lookup_insert_eq|].
  rewrite Ht. simpl. rewrite aggregate_total_or_0. reflexivity.
Qed.

Lemma SaleItem_save_sales (item : SaleItem.t) (db : DB) :
  sales (SaleItem_save item db).2 = sales db.
Proof.
  apply (preserves_SaleItem_save (λ d, sales d = sales db)); auto.
Qed.

(** C5 as stated fails: saving an item on a sale whose total is 0
    stores the item and takes the stock, and the sale's total is still 0
    while its items add up to 600. *)
Lemma item_save_leaves_total_stale :
  total_matches sale_open
  ∧ ∃ saved db',
      SaleItem_save four_widgets sale_open = (Ok saved, db')
      ∧ SaleItem.pk saved = Some 1
      ∧ (Sale.total_amount <$> sales db' !! 1) = Some 0
      ∧ items_total 1 db' = 600
      ∧ ¬ total_matches db'.
Proof.
  split.
  { assert (sales sale_open
            = {[ 1 := Sale.mk (Some 1) "SALE-000001" 0 0 Sale.CASH "" ]}) as E
      by (vm_compute; reflexivity).
    unfold total_matches. rewrite E. apply map_Forall_singleton.
    vm_compute. reflexivity. }
  eexists _, _. split; [vm_compute; reflexivity|].
  split; [reflexivity|].
  split; [vm_compute; reflexivity|].
  split; [vm_compute; reflexivity|].
  intros H. specialize (H 1 (Sale.mk (Some 1) "SALE-000001" 0 0 Sale.CASH "")).
  assert (0 = 600) as Habs; [|discriminate].
  apply H. vm_compute. reflexivity.
Qed.

Lemma SaleCreateView_total
    (s : Sale.t) (ins del : list SaleItem.t) (db db' : DB)
    (url : string) (pk : option Z) :
  SaleCreateView_form_valid s ins del db = (Ok (Redirect url pk), db') →
  ∃ k saved, pk = Some k ∧ sales db' !! k = Some saved
             ∧ Sale.total_amount saved = items_total k db'.
Proof.
  unfold SaleCreateView_form_valid. intros H.
  apply after_build_forms in H. destruct H as [_ H].
  apply try_atomic_Redirect in H.
  apply bind_Ok in H. destruct H as (object & db1 & _ & H).
  apply bind_Ok in H. destruct H as (? & db2 & _ & H).
  apply bind_Ok in H. destruct H as (? & db3 & _ & H).
  apply bind_Ok in H. destruct H as (object' & db4 & Hu & H).
  injection H as _ <- <-.
  apply Sale_update_total_Ok in Hu. destruct Hu as (k & _ & Hid & Hk & Ht).
  exists k, object'. auto.
Qed.

Lemma SaleUpdateView_total
    (s : Sale.t) (ins del : list SaleItem.t) (db db' : DB)
    (url : string) (pk : option Z) :
  SaleUpdateView_form_valid s ins del db = (Ok (Redirect url pk), db') →
  ∃ k saved, pk = Some k ∧ sales db' !! k = Some saved
             ∧ Sale.total_amount saved = items_total k db'.
Proof.
  unfold SaleUpdateView_form_valid. intros H.
  apply after_build_forms in H. destruct H as [_ H].
  apply try_atomic_Redirect in H.
  destruct (Sale.id s) as [k0|]; [|discriminate].
  apply bind_Ok in H. destruct H as (oq & db0 & _ & H).
  apply bind_Ok in H. destruct H as (checked & db1 & _ & H).
  destruct (omap snd checked); [|discriminate].
  apply bind_Ok in H. destruct H as (object & db2 & _ & H).
  apply bind_Ok in H. destruct H as (? & db3 & _ & H).
  apply bind_Ok in H. destruct H as (? & db4 & _ & H).
  apply bind_Ok in H. destruct H as (object' & db5 & Hu & H).
  injection H as _ <- <-.
  apply Sale_update_total_Ok in Hu. destruct Hu as (k & _ & Hid & Hk & Ht).
  exists k, object'. auto.
Qed.

(** C5 (amended). When [Sale.update_total] completes, the stored sale's
    [total_amount] is the sum over its items of quantity times unit price,
    0 when it has none.  [SaleItem.save] by itself leaves every sale row,
    and so every [total_amount], as it was.  The sale create and update
    views end their atomic block with [update_total], so the sale they
    redirect to has a [total_amount] equal to that sum. *)
Theorem total_amount_after_update_total :
  (∀ self saved db db',
     Sale_update_total self db = (Ok saved, db') →
     ∃ k, Sale.id saved = Some k ∧ sales db' !! k = Some saved
          ∧ Sale.total_amount saved = items_total k db')
  ∧ (∀ item db, sales (SaleItem_save item db).2 = sales db)
  ∧ (∀ s ins del db db' url pk,
       SaleCreateView_form_valid s ins del db = (Ok (Redirect url pk), db') →
       ∃ k saved, pk = Some k ∧ sales db' !! k = Some saved
                  ∧ Sale.total_amount saved = items_total k db')
  ∧ (∀ s ins del db db' url pk,
       SaleUpdateView_form_valid s ins del db = (Ok (Redirect url pk), db') →
       ∃ k saved, pk = Some k ∧ sales db' !! k = Some saved
                  ∧ Sale.total_amount saved = items_total k db').
Proof.
  split; [|split; [|split]].
  - intros self saved db db' H. apply Sale_update_total_Ok in H.
    destruct H as (k & _ & Hid & Hk & Ht). eauto.
  - apply SaleItem_save_sales.
  - intros. eapply SaleCreateView_total; eassumption.
  - intros. eapply SaleUpdateView_total; eassumption.
Qed.

Lemma total_amount_after_update_view :
  ∃ saved, sales sale_updated !! 1 = Some saved
           ∧ Sale.total_amount saved = 750
           ∧ items_total 1 sale_updated = 750.
Proof.
  destruct (proj2 (proj2 (proj2 total_amount_after_update_total))
              sale_one [three_gadgets] [] sold_four sale_updated
              "inventory:sale-detail" (Some 1))
    as (k & saved & Hk & Hs & Ht).
  { vm_compute. reflexivity. }
  injection Hk as <-. exists saved. split; [exact Hs|].
  assert (items_total 1 sale_updated = 750) as E by (vm_compute; reflexivity).
  split; [rewrite Ht; exact E | exact E].
Defined.

(** ** What a successful save wrote *)

Lemma Model_save_Product_Ok (self saved : Product.t) (db db' : DB) :
  Model_save_Product self db = (Ok saved, db') →
  saved = Product.set_id (pk_or_fresh (Product.id self) (product_seq (sequences db)) (products db)) self
  ∧ db' = note_product_key
            (pk_or_fresh (Product.id self) (product_seq (sequences db)) (products db))
            (set_products
               (insert (pk_or_fresh (Product.id self) (product_seq (sequences db))
                                    (products db)) saved) db)
  ∧ sku_taken (pk_or_fresh (Product.id self) (product_seq (sequences db)) (products db))
              (Product.sku self) (products db) = false.
Proof.
  unfold Model_save_Product.
  destruct (sku_taken _ _ _); simpl; [discriminate|].
  destruct (_ <? 0); simpl; [discriminate|].
  destruct (_ <? 0); simpl; [discriminate|].
  intros [= <- <-]. auto.
Qed.

Lemma Product_save_Ok (self saved : Product.t) (db db' : DB) :
  Product_save self db = (Ok saved, db') →
  0 ≤ Product.current_stock self
  ∧ Product.current_stock saved = Product.current_stock self
  ∧ ∃ k, Product.id saved = Some k
         ∧ k = pk_or_fresh (Product.id self) (product_seq (sequences db)) (products db)
         ∧ db' = note_product_key k (set_products (insert k saved) db).
Proof.
  unfold Product_save. intros H.
  apply bind_Ok in H. destruct H as ([] & db1 & Hc & H).
  unfold lift in Hc. injection Hc as Hc <-.
  apply bind_Ok in H. destruct H as (p1 & db1 & H1 & H).
  assert (db1 = db ∧ Product.current_stock p1 = Product.current_stock self
          ∧ Product.id p1 = Product.id self) as (-> & Hs & Hi).
  { destruct (truthy_str _).
    - injection H1 as <- <-. auto.
    - apply bind_Ok in H1. destruct H1 as (n & dbn & Hn & H1).
      injection H1 as <- <-.
      destruct (truthy_pk _).
      + injection Hn as _ <-. auto.
      + apply bind_Ok in Hn. destruct Hn as (c & dbc & Hq & Hn).
        injection Hq as _ <-. injection Hn as _ <-. auto. }
  apply Model_save_Product_Ok in H. destruct H as (-> & -> & _).
  split.
  { unfold Product.clean in Hc.
    destruct (_ <? _); [discriminate|].
    destruct (Product.current_stock self <? 0) eqn:E; [discriminate|].
    apply Z.ltb_ge, E. }
  split; [exact Hs|].
  rewrite Hi. eexists. split; [reflexivity|]. split; reflexivity.
Qed.

Lemma SaleItem_clean_Ok (self cleaned : SaleItem.t) (db db' : DB) :
  SaleItem_clean self db = (Ok cleaned, db') →
  db' = db
  ∧ ∃ p, (fetch_product (SaleItem.product self) db).1 = Ok p
         ∧ cleaned = SaleItem.set_product (Cached p) self.
Proof.
  intros H. split.
  { pose proof (preserves_SaleItem_clean (λ d, d = db) self db eq_refl) as E.
    rewrite H in E. exact E. }
  unfold SaleItem_clean in H. apply bind_Ok in H.
  destruct H as (p & db1 & Hf & H). exists p. split; [rewrite Hf; reflexivity|].
  simpl in H.
  destruct (_ <? 1); [discriminate|].
  destruct (_ <? 0); [discriminate|].
  destruct (negb _).
  - apply bind_Ok in H. destruct H as (a & db2 & _ & H).
    destruct (_ <? _); [discriminate|]. injection H as <- _. reflexivity.
  - injection H as <- _. reflexivity.
Qed.

Lemma Model_save_SaleItem_Ok (self saved : SaleItem.t) (db db' : DB) :
  Model_save_SaleItem self db = (Ok saved, db') →
  products db' = products db
  ∧ SaleItem.product saved = SaleItem.product self
  ∧ SaleItem.qty saved = SaleItem.qty self
  ∧ ∃ s p, SaleItem.sale self = Some s
           ∧ related_id (SaleItem.product self) = Some p
           ∧ sale_items db'
             = <[pk_or_fresh (SaleItem.pk self) (sale_item_seq (sequences db)) (sale_items db)
                 := SaleItem.mkrow s p (SaleItem.qty self) (SaleItem.price self)]>
                 (sale_items db).
Proof.
  unfold Model_save_SaleItem.
  destruct (unsaved_related _); [discriminate|].
  destruct (SaleItem.sale self) as [s|]; [|discriminate].
  destruct (related_id _) as [p|]; [|discriminate].
  match goal with |- context [if ?b then _ else _] => destruct b end;
    [discriminate|].
  intros [= <- <-]. simpl. eauto 10.
Qed.

Lemma fetch_product_in_sync (r : related) (db : DB) (p : Product.t) (b : Z) :
  related_id r = Some b → in_sync r db →
  (fetch_product r db).1 = Ok p →
  Product.id p = Some b ∧ stock_of b db = Some (Product.current_stock p).
Proof.
  destruct r as [fk|obj]; simpl.
  - intros -> _. unfold fetch_product, bind, query, Product_get, stock_of.
    destruct (products db !! b) as [pb|]; simpl; [|discriminate].
    intros [= <-]. auto.
  - intros Hid (k & Hk & Hs) [= <-]. rewrite Hid in Hk. injection Hk as <-. auto.
Qed.

(** The update branch of [SaleItem.save], step by step: the product [a] of
    the stored row is credited with the stored quantity and written, then
    the product [b] held by the instance is debited with the new quantity,
    from the stock the instance holds, and written. *)
Lemma SaleItem_save_update_Ok
    (self saved : SaleItem.t) (db db' : DB) (k a b : Z) (orig : SaleItem.row) :
  SaleItem.pk self = Some k → k ≠ 0 →
  sale_items db !! k = Some orig →
  SaleItem.product_id orig = a →
  related_id (SaleItem.product self) = Some b →
  in_sync (SaleItem.product self) db →
  SaleItem_save self db = (Ok saved, db') →
  ∃ sa sb pa pb,
    stock_of a db = Some sa ∧ stock_of b db = Some sb
    ∧ Product.current_stock pa = sa + SaleItem.quantity orig
    ∧ Product.current_stock pb = sb - SaleItem.qty self
    ∧ products db' = <[b := pb]> (<[a := pa]> (products db)).
Proof.
  intros Hpk Hk0 Horig Ha Hb Hsync H.
  unfold SaleItem_save in H.
  apply bind_Ok in H. destruct H as (s1 & db1 & Hclean & H).
  apply SaleItem_clean_Ok in Hclean. destruct Hclean as (-> & p & Hp & ->).
  destruct (fetch_product_in_sync _ _ _ _ Hb Hsync Hp) as [Hpid Hpstock].
  apply bind_Ok in H. destruct H as ([] & db2 & Hrestore & H).
  unfold restore_original_stock in Hrestore. simpl in Hrestore.
  rewrite Hpk in Hrestore. simpl in Hrestore.
  replace (k =? 0) with false in Hrestore by (symmetry; apply Z.eqb_neq, Hk0).
  simpl in Hrestore.
  apply bind_Ok in Hrestore. destruct Hrestore as (o & dbq & Hq & Hrestore).
  unfold query, SaleItem_get in Hq. rewrite Horig in Hq. injection Hq as <- <-.
  simpl in Hrestore.
  apply bind_Ok in Hrestore. destruct Hrestore as (op & dbf & Hf & Hrestore).
  rewrite Ha in Hf.
  assert (∃ pa0, products db !! a = Some pa0 ∧ op = Product.set_id a pa0 ∧ dbf = db)
    as (pa0 & Hpa0 & -> & ->).
  { unfold fetch_product, bind, query, Product_get in Hf.
    destruct (products db !! a) as [pa0|]; simpl in Hf; [|discriminate].
    injection Hf as <- <-. eauto. }
  apply bind_Ok in Hrestore. destruct Hrestore as (pa & db2' & Hsa & Hret).
  injection Hret as <-.
  apply Product_save_Ok in Hsa. destruct Hsa as (_ & Hsa & ka & _ & Hka & ->).
  simpl in Hka, Hsa. subst ka.
  apply bind_Ok in H. destruct H as (s2 & db3 & Hms & H).
  apply Model_save_SaleItem_Ok in Hms.
  destruct Hms as (Hprod3 & Hs2p & Hs2q & _). simpl in Hprod3, Hs2p.
  apply bind_Ok in H. destruct H as (p2 & db4 & Hf2 & H).
  rewrite Hs2p in Hf2. injection Hf2 as <- <-.
  apply bind_Ok in H. destruct H as (pb & db5 & Hsb & H).
  injection H as _ <-.
  apply Product_save_Ok in Hsb. destruct Hsb as (_ & Hsb & kb & _ & Hkb & ->).
  simpl in Hkb, Hsb. rewrite Hpid in Hkb. simpl in Hkb. subst kb.
  exists (Product.current_stock pa0), (Product.current_stock p), pa, pb.
  split; [unfold stock_of; rewrite Hpa0; reflexivity|].
  split; [exact Hpstock|].
  split; [exact Hsa|].
  split; [rewrite Hsb, Hs2q; reflexivity|].
  simpl. rewrite Hprod3. reflexivity.
Qed.

(** ** C10: an item moved to another product *)

Lemma Product_save_negative (q : Product.t) (db : DB) :
  Product.current_stock q < 0 → ∃ msg, Product_save q db = (Raise (ValidationError msg), db).
Proof.
  intros Hneg. unfold Product_save, bind, lift, Product.clean.
  destruct (Product.selling_price q <? Product.buying_price q); [eauto|].
  replace (Product.current_stock q <? 0) with true
    by (symmetry; apply Z.ltb_lt; exact Hneg).
  eauto.
Qed.

Lemma restore_original_stock_Ok
    (self : SaleItem.t) (db db1 : DB) (k : Z) (orig : SaleItem.row) :
  SaleItem.pk self = Some k → k ≠ 0 →
  sale_items db !! k = Some orig →
  restore_original_stock self db = (Ok tt, db1) →
  ∃ pa credited,
    products db !! SaleItem.product_id orig = Some pa
    ∧ Product.current_stock credited
      = Product.current_stock pa + SaleItem.quantity orig
    ∧ products db1 = <[SaleItem.product_id orig := credited]> (products db)
    ∧ sales db1 = sales db
    ∧ sale_items db1 = sale_items db.
Proof.
  intros Hpk Hk0 Horig Hrestore.
  unfold restore_original_stock in Hrestore. rewrite Hpk in Hrestore.
  simpl in Hrestore.
  replace (k =? 0) with false in Hrestore by (symmetry; apply Z.eqb_neq, Hk0).
  simpl in Hrestore.
  apply bind_Ok in Hrestore. destruct Hrestore as (o & dbq & Hq & Hrestore).
  unfold query, SaleItem_get in Hq. rewrite Horig in Hq. injection Hq as <- <-.
  simpl in Hrestore.
  apply bind_Ok in Hrestore. destruct Hrestore as (op & dbf & Hf & Hrestore).
  set (a := SaleItem.product_id orig) in *.
  assert (∃ pa0, products db !! a = Some pa0 ∧ op = Product.set_id a pa0 ∧ dbf = db)
    as (pa0 & Hpa0 & -> & ->).
  { unfold fetch_product, bind, query, Product_get in Hf.
    destruct (products db !! a) as [pa0|]; simpl in Hf; [|discriminate].
    injection Hf as <- <-. eauto. }
  apply bind_Ok in Hrestore. destruct Hrestore as (pa & db2' & Hsa & Hret).
  injection Hret as <-.
  apply Product_save_Ok in Hsa. destruct Hsa as (_ & Hsa & ka & _ & Hka & ->).
  simpl in Hka, Hsa. subst ka.
  exists pa0, pa. auto.
Qed.

(** C10 (what the code does). A stored sale item is saved with another
    product [b] than the stored one, [a], and with a quantity above the
    stock of [b] but within that stock plus the stored quantity.  [clean]
    accepts it, because it adds the stored quantity to the stock of the new
    product.  The save then credits the stored quantity to [a] and rewrites
    the item row to [b] with the new quantity, and the debit of [b] is
    refused: the save raises, the stock of [b] is what it was, and the
    credit and the row stay.  The credit of [a] and the write of the row
    are taken to be accepted. *)
Theorem item_move_debit_refused
    (self : SaleItem.t) (db db1 : DB) (k a b s sb : Z) (orig : SaleItem.row) :
  SaleItem.pk self = Some k → k ≠ 0 →
  sale_items db !! k = Some orig →
  SaleItem.product_id orig = a →
  SaleItem.sale self = Some s →
  related_id (SaleItem.product self) = Some b →
  a ≠ b →
  in_sync (SaleItem.product self) db →
  stock_of b db = Some sb →
  1 ≤ SaleItem.qty self → 0 ≤ SaleItem.price self →
  sb < SaleItem.qty self ≤ sb + SaleItem.quantity orig →
  restore_original_stock self db = (Ok tt, db1) →
  is_Some (sales db !! s) →
  pair_taken k s b (sale_items db) = false →
  ∃ msg sa,
    (SaleItem_save self db).1 = Raise (ValidationError msg)
    ∧ stock_of a db = Some sa
    ∧ stock_of a (SaleItem_save self db).2 = Some (sa + SaleItem.quantity orig)
    ∧ stock_of b (SaleItem_save self db).2 = Some sb
    ∧ sale_items (SaleItem_save self db).2 !! k
      = Some (SaleItem.mkrow s b (SaleItem.qty self) (SaleItem.price self)).
Proof.
  intros Hpk Hk0 Horig Ha Hsale Hb Hab Hsync Hsb Hq1 Hpr Hrange Hrestore Hs Hpair.
  assert (∃ p, fetch_product (SaleItem.product self) db = (Ok p, db)
               ∧ Product.id p = Some b ∧ Product.current_stock p = sb)
    as (p & Hp & Hpid & Hpst).
  { destruct (SaleItem.product self) as [fk|obj] eqn:Hr; simpl in Hb.
    - subst fk. unfold stock_of in Hsb.
      destruct (products db !! b) as [pb|] eqn:Hpb; [|discriminate].
      injection Hsb as Hsb. exists (Product.set_id b pb).
      rewrite (fetch_product_unfetched b db pb Hpb). auto.
    - destruct Hsync as (k' & Hk' & Hst). rewrite Hb in Hk'. injection Hk' as <-.
      rewrite Hsb in Hst. injection Hst as Hst.
      exists obj. split; [reflexivity|]. auto. }
  set (self1 := SaleItem.set_product (Cached p) self).
  assert (SaleItem_clean self db = (Ok self1, db)) as Hclean.
  { unfold SaleItem_clean. unfold bind at 1. rewrite Hp.
    cbn [SaleItem.qty SaleItem.price SaleItem.pk SaleItem.set_product].
    replace (SaleItem.qty self <? 1) with false by (symmetry; apply Z.ltb_ge; lia).
    replace (SaleItem.price self <? 0) with false by (symmetry; apply Z.ltb_ge; lia).
    replace (SaleItem.qty self =? 0) with false by (symmetry; apply Z.eqb_neq; lia).
    rewrite Hpk. cbn [negb truthy_pk default].
    replace (k =? 0) with false by (symmetry; apply Z.eqb_neq, Hk0).
    cbn [negb]. unfold bind, query, SaleItem_get. change (id k) with k.
    rewrite Horig. simpl.
    rewrite Hpst.
    replace (sb + SaleItem.quantity orig <? SaleItem.qty self) with false
      by (symmetry; apply Z.ltb_ge; lia).
    reflexivity. }
  destruct (restore_original_stock_Ok self db db1 k orig Hpk Hk0 Horig Hrestore)
    as (pa & credited & Hpa & Hcred & Hprod1 & Hsales1 & Hitems1).
  rewrite Ha in Hpa, Hprod1.
  set (row := SaleItem.mkrow s b (SaleItem.qty self) (SaleItem.price self)).
  set (db2 := note_sale_item_key k (set_sale_items (insert k row) db1)).
  assert (Model_save_SaleItem self1 db1 = (Ok (SaleItem.set_pk k self1), db2))
    as Hms.
  { unfold Model_save_SaleItem. simpl. rewrite Hpid, Hsale, Hpk. simpl.
    rewrite Hsales1, Hprod1, Hitems1, Hpair.
    rewrite (bool_decide_eq_true_2 _ Hs).
    rewrite bool_decide_eq_true_2.
    2: { rewrite lookup_insert_ne by exact Hab.
         unfold stock_of in Hsb. destruct (products db !! b); [eauto|discriminate]. }
    replace (SaleItem.qty self <? 0) with false by (symmetry; apply Z.ltb_ge; lia).
    reflexivity. }
  destruct (Product_save_negative
              (Product.set_current_stock
                 (Product.current_stock p - SaleItem.qty self) p) db2)
    as [msg Hdebit]; [simpl; lia|].
  assert (SaleItem_save self db = (Raise (ValidationError msg), db2)) as Hrun.
  { unfold SaleItem_save. unfold bind at 1. rewrite Hclean.
    unfold bind at 1.
    change (restore_original_stock self1 db) with (restore_original_stock self db).
    rewrite Hrestore.
    unfold bind at 1. rewrite Hms.
    unfold bind at 1. simpl.
    unfold bind at 1. rewrite Hdebit. reflexivity. }
  rewrite Hrun. subst db2. simpl.
  exists msg, (Product.current_stock pa).
  split; [reflexivity|].
  split; [unfold stock_of; rewrite Hpa; reflexivity|].
  unfold stock_of. simpl. rewrite Hprod1.
  split; [rewrite lookup_insert_eq; simpl; rewrite Hcred; reflexivity|].
  split; [rewrite lookup_insert_ne by exact Hab; exact Hsb|].
  apply lookup_insert_eq.
Qed.

Lemma item_move_debit_refused_gadgets :
  ∃ msg sa,
    (SaleItem_save eight_gadgets sold_four).1 = Raise (ValidationError msg)
    ∧ stock_of 1 sold_four = Some sa
    ∧ stock_of 1 (SaleItem_save eight_gadgets sold_four).2 = Some (sa + 4)
    ∧ stock_of 2 (SaleItem_save eight_gadgets sold_four).2 = Some 5
    ∧ sale_items (SaleItem_save eight_gadgets sold_four).2 !! 1
      = Some (SaleItem.mkrow 1 2 8 250).
Proof.
  apply (item_move_debit_refused eight_gadgets sold_four
           (restore_original_stock eight_gadgets sold_four).2
           1 1 2 1 5 (SaleItem.mkrow 1 1 4 150)).
  - reflexivity.
  - lia.
  - reflexivity.
  - reflexivity.
  - reflexivity.
  - reflexivity.
  - lia.
  - simpl. exact I.
  - reflexivity.
  - simpl. lia.
  - simpl. lia.
  - simpl. lia.
  - vm_compute. reflexivity.
  - vm_compute. eauto.
  - vm_compute. reflexivity.
Defined.

(** Item 1, four widgets, moved to eight gadgets with five gadgets in
    stock: the widgets go from six to ten, the row says eight gadgets, and
    the gadgets stay at five. *)
Example moved_beyond_stock :
  (SaleItem_save eight_gadgets sold_four).1
  = Raise (ValidationError "Stock cannot be negative.")
  ∧ stock_of 1 (SaleItem_save eight_gadgets sold_four).2 = Some 10
  ∧ stock_of 2 (SaleItem_save eight_gadgets sold_four).2 = Some 5
  ∧ sale_items (SaleItem_save eight_gadgets sold_four).2 !! 1
    = Some (SaleItem.mkrow 1 2 8 250).
Proof. repeat split; vm_compute; reflexivity. Qed.

(** X20. When a stored sale item (with a non-zero key) is saved with another
    product than the stored one, and the instance's copy of the new
    product, if it holds one, carries the stored stock, then a save that
    completes adds the stored quantity to the stock of the product the item
    had, takes the new quantity from the stock of the product it now has,
    and leaves every other product row as it was. *)
Theorem item_moved_to_other_product
    (self saved : SaleItem.t) (db db' : DB) (k a b : Z) (orig : SaleItem.row) :
  SaleItem.pk self = Some k → k ≠ 0 →
  sale_items db !! k = Some orig →
  SaleItem.product_id orig = a →
  related_id (SaleItem.product self) = Some b →
  a ≠ b →
  in_sync (SaleItem.product self) db →
  SaleItem_save self db = (Ok saved, db') →
  ∃ sa sb,
    stock_of a db = Some sa ∧ stock_of b db = Some sb
    ∧ stock_of a db' = Some (sa + SaleItem.quantity orig)
    ∧ stock_of b db' = Some (sb - SaleItem.qty self)
    ∧ ∀ j, j ≠ a → j ≠ b → products db' !! j = products db !! j.
Proof.
  intros Hpk Hk0 Horig Ha Hb Hab Hsync H.
  destruct (SaleItem_save_update_Ok _ _ _ _ _ _ _ _ Hpk Hk0 Horig Ha Hb Hsync H)
    as (sa & sb & pa & pb & Hsa & Hsb & Hpa & Hpb & Hdb).
  exists sa, sb. split; [exact Hsa|]. split; [exact Hsb|].
  unfold stock_of. rewrite Hdb. split; [|split].
  - rewrite lookup_insert_ne by congruence. rewrite lookup_insert_eq.
    simpl. rewrite Hpa. reflexivity.
  - rewrite lookup_insert_eq. simpl. rewrite Hpb. reflexivity.
  - intros j Hja Hjb. rewrite !lookup_insert_ne by congruence. reflexivity.
Qed.

Lemma item_moved_to_other_product_gadgets :
  ∃ sa sb,
    stock_of 1 sold_four = Some sa ∧ stock_of 2 sold_four = Some sb
    ∧ stock_of 1 moved = Some (sa + 4)
    ∧ stock_of 2 moved = Some (sb - 3)
    ∧ ∀ j, j ≠ 1 → j ≠ 2 → products moved !! j = products sold_four !! j.
Proof.
  eapply (item_moved_to_other_product three_gadgets _ sold_four moved 1 1 2
            (SaleItem.mkrow 1 1 4 150)).
  - reflexivity.
  - lia.
  - reflexivity.
  - reflexivity.
  - reflexivity.
  - lia.
  - simpl. exact I.
  - vm_compute. reflexivity.
Defined.

(** ** C1: an item updated on the same product *)

(** C1 (what the code does). When a stored sale item is saved again on the
    product it already has, the credit of the stored quantity is written to
    the product row and then overwritten: the second write starts from the
    stock that the instance read before the credit.  After a successful
    save the product's stock is the stock before the save minus the new
    quantity, instead of that plus the stored quantity. *)
Theorem item_update_overwrites_restored_stock
    (self saved : SaleItem.t) (db db' : DB) (k a : Z) (orig : SaleItem.row) :
  SaleItem.pk self = Some k → k ≠ 0 →
  sale_items db !! k = Some orig →
  SaleItem.product_id orig = a →
  related_id (SaleItem.product self) = Some a →
  in_sync (SaleItem.product self) db →
  SaleItem_save self db = (Ok saved, db') →
  ∃ s, stock_of a db = Some s
       ∧ stock_of a db' = Some (s - SaleItem.qty self).
Proof.
  intros Hpk Hk0 Horig Ha Hb Hsync H.
  destruct (SaleItem_save_update_Ok _ _ _ _ _ _ _ _ Hpk Hk0 Horig Ha Hb Hsync H)
    as (sa & sb & pa & pb & Hsa & Hsb & Hpa & Hpb & Hdb).
  exists sb. split; [exact Hsb|].
  unfold stock_of. rewrite Hdb, lookup_insert_eq. simpl. rewrite Hpb. reflexivity.
Qed.

Lemma item_update_overwrites_restored_stock_widgets :
  ∃ s, stock_of 1 sold_four = Some s ∧ stock_of 1 resaved = Some (s - 4).
Proof.
  eapply (item_update_overwrites_restored_stock four_widgets_again _ sold_four
            resaved 1 1 (SaleItem.mkrow 1 1 4 150)).
  - reflexivity.
  - lia.
  - reflexivity.
  - reflexivity.
  - reflexivity.
  - simpl. exact I.
  - vm_compute. reflexivity.
Defined.

(** Six widgets in stock and four on the item: saving the item unchanged
    should leave six (6 + 4 - 4) and leaves two. *)
Example resaved_stock :
  stock_of 1 sold_four = Some 6 ∧ stock_of 1 resaved = Some 2.
Proof. split; vm_compute; reflexivity. Qed.

(** Item 1 raised from four widgets to eight, with six in stock: the edit
    passes the check in [clean] (8 <= 6 + 4), the four are credited and the
    item row is rewritten, and then the debit from the stock read earlier
    (6 - 8) is refused.  Outside an atomic block the stock is left at ten
    with eight on the item. *)
Example item_update_within_stock_refused :
  (SaleItem_save eight_widgets sold_four).1
  = Raise (ValidationError "Stock cannot be negative.")
  ∧ stock_of 1 (SaleItem_save eight_widgets sold_four).2 = Some 10
  ∧ (SaleItem.quantity <$> sale_items (SaleItem_save eight_widgets sold_four).2 !! 1)
    = Some 8.
Proof. repeat split; vm_compute; reflexivity. Qed.

(** ** C2: deleting a sale *)

Lemma items_of_nonempty (pk k : Z) (row : SaleItem.row) (db : DB) :
  sale_items db !! k = Some row → SaleItem.sale_id row = pk →
  map_to_list (items_of pk db) ≠ [].
Proof.
  intros Hk Hs Hnil. apply map_to_list_empty_iff in Hnil.
  assert (items_of pk db !! k = Some row) as Hin.
  { unfold items_of. apply map_lookup_filter_Some. split; [exact Hk|exact Hs]. }
  rewrite Hnil in Hin. rewrite lookup_empty in Hin. discriminate.
Qed.

Lemma Sale_delete_protected (sale : Sale.t) (pk k : Z) (row : SaleItem.row) (db : DB) :
  Sale.id sale = Some pk →
  sale_items db !! k = Some row → SaleItem.sale_id row = pk →
  Sale_delete sale db = (Raise (ProtectedError "SaleItem.sale"), db).
Proof.
  intros Hid Hk Hs. unfold Sale_delete. rewrite Hid.
  unfold bind, query.
  pose proof (items_of_nonempty pk k row db Hk Hs) as Hne.
  destruct (map_to_list (items_of pk db)); [contradiction|reflexivity].
Qed.

Lemma Product_save_sale_items (p : Product.t) (db : DB) :
  sale_items (Product_save p db).2 = sale_items db.
Proof.
  apply (preserves_Product_save (λ d, sale_items d = sale_items db)); auto.
Qed.

Lemma credit_loop_sale_items (its : list SaleItem.t) (db : DB) :
  sale_items
    (for_each (λ item,
                 p <~ fetch_product (SaleItem.product item) ;;
                 Product_save
                   (Product.set_current_stock
                      (Product.current_stock p + SaleItem.qty item) p))
              its db).2
  = sale_items db.
Proof.
  apply (preserves_for_each (λ d, sale_items d = sale_items db)); [|reflexivity].
  intros item. apply preserves_bind; [apply preserves_fetch_product|].
  intros p d Hd. rewrite Product_save_sale_items. exact Hd.
Qed.

(** C2 (what the code does). Deleting a sale that has at least one item
    never succeeds: the stock is credited inside the atomic block, then
    [sale.delete()] is refused because [SaleItem.sale] is declared
    [on_delete=PROTECT], and the exception rolls the credits back.  The
    database is left exactly as it was: the sale and its items still
    exist and no stock is restored. *)
Theorem sale_with_items_cannot_be_deleted
    (db : DB) (pk k : Z) (sale : Sale.t) (row : SaleItem.row) :
  sales db !! pk = Some sale →
  sale_items db !! k = Some row → SaleItem.sale_id row = pk →
  ∃ e, SaleDeleteView_delete pk db = (Raise e, db).
Proof.
  intros Hsale Hk Hs. unfold SaleDeleteView_delete.
  unfold bind at 1, query at 1. rewrite Hsale. simpl.
  match goal with |- ∃ e, atomic ?c db = _ => set (body := c) end.
  assert (∃ e db1, body db = (Raise e, db1)) as (e & db1 & Hbody).
  { subst body. unfold bind at 1, query at 1.
    match goal with |- ∃ e db1, bind ?loop _ _ = _ => set (restore := loop) end.
    pose proof (credit_loop_sale_items (items_all pk db) db) as Hitems.
    fold restore in Hitems.
    unfold bind at 1. destruct (restore db) as [[ys|e] db1]; [|eauto].
    simpl in Hitems. unfold bind at 1.
    rewrite (Sale_delete_protected _ pk k row db1); [eauto|reflexivity| |exact Hs].
    rewrite Hitems. exact Hk. }
  exists e. unfold atomic. rewrite Hbody. reflexivity.
Qed.

Lemma sale_with_items_cannot_be_deleted_sold_four :
  ∃ e, SaleDeleteView_delete 1 sold_four = (Raise e, sold_four).
Proof.
  apply (sale_with_items_cannot_be_deleted sold_four 1 1
           (Sale.mk (Some 1) "SALE-000001" 0 600 Sale.CASH "")
           (SaleItem.mkrow 1 1 4 150)); reflexivity.
Defined.

(** Ten widgets, four sold, six left; deleting the sale raises and six are
    left. *)
Example delete_sale_keeps_stock :
  stock_of 1 shop = Some 10
  ∧ stock_of 1 four_sold = Some 6
  ∧ (SaleDeleteView_delete 1 four_sold).1 = Raise (ProtectedError "SaleItem.sale")
  ∧ stock_of 1 (SaleDeleteView_delete 1 four_sold).2 = Some 6
  ∧ is_Some (sales (SaleDeleteView_delete 1 four_sold).2 !! 1).
Proof.
  split; [reflexivity|].
  split; [vm_compute; reflexivity|].
  split; [vm_compute; reflexivity|].
  split; [vm_compute; reflexivity|].
  vm_compute. eauto.
Qed.

(** ** Fresh keys *)

Lemma fresh_pk_above {A} (seq : Z) (m : gmap Z A) (k : Z) :
  is_Some (m !! k) → k < fresh_pk seq m.
Proof.
  intros Hk. unfold fresh_pk.
  destruct (last_by_id m) as [[kmax v]|] eqn:Hlast.
  - apply last_by_id_Some in Hlast. destruct Hlast as [_ Hmax].
    specialize (Hmax k Hk). lia.
  - apply last_by_id_None in Hlast. subst m.
    destruct Hk as [v Hv]. rewrite lookup_empty in Hv. discriminate.
Qed.

Lemma fresh_pk_None {A} (seq : Z) (m : gmap Z A) : m !! fresh_pk seq m = None.
Proof.
  destruct (m !! fresh_pk seq m) as [v|] eqn:E; [|reflexivity].
  assert (fresh_pk seq m < fresh_pk seq m) by (apply fresh_pk_above; eauto). lia.
Qed.

(** ** C8: the SKU given to a product that has none *)

Lemma sku_taken_true (k k' : Z) (s : string) (p : Product.t) (m : gmap Z Product.t) :
  m !! k' = Some p → Product.sku p = Some s → k' ≠ k →
  sku_taken k (Some s) m = true.
Proof.
  intros Hk' Hs Hne. unfold sku_taken. apply existsb_exists.
  exists (k', p). split.
  - apply list_elem_of_In, elem_of_map_to_list, Hk'.
  - simpl. apply andb_true_intro. split.
    + apply negb_true_iff, Z.eqb_neq, Hne.
    + apply bool_decide_eq_true, Hs.
Qed.

(** C8 (what the code does). A new product saved without a SKU is given
    "SKU-" followed by the number of stored products plus one.  When a
    stored product already has that SKU, the save is refused by the UNIQUE
    constraint: it raises an integrity error and stores nothing. *)
Theorem new_product_sku_can_collide
    (self : Product.t) (db : DB) (k : Z) (p : Product.t) :
  Product.id self = None →
  truthy_str (Product.sku self) = false →
  Product.clean self = Ok tt →
  products db !! k = Some p →
  Product.sku p = Some ("SKU-" +:+ Py.str (Product_count db + 1)) →
  Product_save self db = (Raise IntegrityError, db).
Proof.
  intros Hid Hsku Hclean Hk Hp.
  unfold Product_save. unfold bind at 1, lift at 1. rewrite Hclean.
  rewrite Hsku, Hid. simpl. unfold bind, query, ret. simpl.
  unfold Model_save_Product. simpl. rewrite Hid. simpl.
  assert (k < fresh_pk (product_seq (sequences db)) (products db)) as Hfresh
    by (apply fresh_pk_above; eauto).
  pose proof (sku_taken_true (fresh_pk (product_seq (sequences db)) (products db))
                k _ p _ Hk Hp
                ltac:(lia)) as Htaken.
  unfold sku_taken in Htaken. rewrite Htaken. reflexivity.
Qed.

Lemma new_product_sku_can_collide_one_deleted :
  Product_save (nameless "C") one_deleted = (Raise IntegrityError, one_deleted).
Proof.
  apply (new_product_sku_can_collide (nameless "C") one_deleted 2
           (Product.mk (Some 2) "B" (Some "SKU-2") "" "" 100 150 10 5 true)).
  - reflexivity.
  - reflexivity.
  - reflexivity.
  - vm_compute. reflexivity.
  - vm_compute. reflexivity.
Defined.

(** The second product holds "SKU-2"; one product is stored. *)
Example one_deleted_state :
  Product_count one_deleted = 1
  ∧ (Product.sku <$> products one_deleted !! 2) = Some (Some "SKU-2")
  ∧ products one_deleted !! 1 = None.
Proof. repeat split; vm_compute; reflexivity. Qed.

(** ** C6: stock transactions *)

Lemma Model_save_StockTransaction_Ok
    (self saved : StockTransaction.t) (db db' : DB) :
  Model_save_StockTransaction self db = (Ok saved, db') →
  products db' = products db
  ∧ StockTransaction.product saved = StockTransaction.product self
  ∧ StockTransaction.qty saved = StockTransaction.qty self
  ∧ ∃ p, related_id (StockTransaction.product self) = Some p
         ∧ is_Some (products db !! p)
         ∧ stock_transactions db'
           = <[pk_or_fresh (StockTransaction.pk self) (stock_transaction_seq (sequences db)) (stock_transactions db)
               := StockTransaction.mkrow p
                    (StockTransaction.ttype self) (StockTransaction.qty self)
                    (StockTransaction.ref self) (StockTransaction.note self)]>
               (stock_transactions db).
Proof.
  unfold Model_save_StockTransaction.
  destruct (unsaved_related _); [discriminate|].
  destruct (related_id _) as [p|]; [|discriminate].
  destruct (bool_decide (is_Some (products db !! p))) eqn:Hp; simpl;
    [|discriminate].
  intros [= <- <-]. simpl. apply bool_decide_eq_true in Hp. eauto 10.
Qed.

(** X1. After a successful [StockTransaction.save] the stock of its product
    has grown by exactly the signed quantity, and no other product row has
    changed. *)
Lemma stock_transaction_adds_delta
    (self saved : StockTransaction.t) (db db' : DB) (b : Z) :
  related_id (StockTransaction.product self) = Some b →
  in_sync (StockTransaction.product self) db →
  StockTransaction_save self db = (Ok saved, db') →
  ∃ s, stock_of b db = Some s
       ∧ stock_of b db' = Some (s + StockTransaction.qty self)
       ∧ ∀ j, j ≠ b → products db' !! j = products db !! j.
Proof.
  intros Hb Hsync H. unfold StockTransaction_save in H.
  apply bind_Ok in H. destruct H as (s1 & db1 & Hms & H).
  apply Model_save_StockTransaction_Ok in Hms.
  destruct Hms as (Hprod & Hs1p & Hs1q & _).
  apply bind_Ok in H. destruct H as (p & db2 & Hf & H).
  rewrite Hs1p in Hf.
  assert (in_sync (StockTransaction.product self) db1) as Hsync1.
  { destruct (StockTransaction.product self); [exact I|].
    unfold in_sync, stock_of in *. rewrite Hprod. exact Hsync. }
  pose proof (fetch_product_db (StockTransaction.product self) db1) as Hdb2.
  rewrite Hf in Hdb2. simpl in Hdb2. subst db2.
  assert ((fetch_product (StockTransaction.product self) db1).1 = Ok p) as Hp
    by (rewrite Hf; reflexivity).
  destruct (fetch_product_in_sync _ _ _ _ Hb Hsync1 Hp) as [Hpid Hpstock].
  apply bind_Ok in H. destruct H as (p' & db3 & Hsave & H).
  injection H as _ <-.
  apply Product_save_Ok in Hsave. destruct Hsave as (_ & Hst & kb & _ & Hkb & ->).
  simpl in Hkb, Hst. rewrite Hpid in Hkb. simpl in Hkb. subst kb.
  exists (Product.current_stock p). unfold stock_of in *.
  rewrite Hprod in Hpstock. split; [exact Hpstock|]. simpl. rewrite Hprod.
  split.
  - rewrite lookup_insert_eq. simpl. rewrite Hst, Hs1q. reflexivity.
  - intros j Hj. rewrite lookup_insert_ne by congruence. reflexivity.
Qed.

(** X2. [StockTransaction.save] fails, and stores nothing, when the product
    does not exist. *)
Lemma stock_transaction_needs_product (self : StockTransaction.t) (db : DB) :
  (∀ b, related_id (StockTransaction.product self) = Some b →
        products db !! b = None) →
  ∃ e, StockTransaction_save self db = (Raise e, db).
Proof.
  intros Hmissing. unfold StockTransaction_save, bind at 1.
  unfold Model_save_StockTransaction.
  destruct (unsaved_related _); [eauto|].
  destruct (related_id _) as [b|]; [|eauto].
  rewrite (Hmissing b eq_refl).
  rewrite bool_decide_eq_false_2; [simpl; eauto|].
  intros [v Hv]. discriminate.
Qed.

(** C6 (what the code does). [StockTransaction.save] writes the record
    first and the product second, with no transaction around the two.  When
    the new transaction's delta would make the stock negative, the product
    save raises a validation error after the record has been written: the
    save fails, the record is in the table and the stock is what it was. *)
Theorem stock_transaction_record_without_adjustment
    (self : StockTransaction.t) (db : DB) (b : Z) (p : Product.t) :
  StockTransaction.pk self = None →
  StockTransaction.product self = Unfetched (Some b) →
  products db !! b = Some p →
  Product.current_stock p + StockTransaction.qty self < 0 →
  ∃ msg k row db',
    StockTransaction_save self db = (Raise (ValidationError msg), db')
    ∧ stock_transactions db !! k = None
    ∧ stock_transactions db' !! k = Some row
    ∧ StockTransaction.product_id row = b
    ∧ StockTransaction.quantity row = StockTransaction.qty self
    ∧ products db' = products db.
Proof.
  intros Hpk Hprod Hb Hneg.
  unfold StockTransaction_save, bind at 1. unfold Model_save_StockTransaction.
  rewrite Hprod, Hpk. simpl. rewrite Hb.
  rewrite bool_decide_eq_true_2 by eauto. simpl.
  unfold bind at 1. rewrite Hprod.
  rewrite (fetch_product_unfetched b _ p) by exact Hb.
  unfold bind at 1, Product_save, bind at 1, lift at 1.
  unfold Product.clean. simpl.
  set (db' := note_stock_transaction_key _ (set_stock_transactions _ db)).
  assert (∃ msg, (if Product.selling_price p <? Product.buying_price p
                  then Raise (ValidationError
                                "Selling price cannot be less than buying price.")
                  else if Product.current_stock p + StockTransaction.qty self <? 0
                       then Raise (ValidationError "Stock cannot be negative.")
                       else Ok tt) = Raise (ValidationError msg)) as [msg Hmsg].
  { destruct (_ <? _); [eauto|].
    replace (_ <? 0) with true by (symmetry; apply Z.ltb_lt; exact Hneg). eauto. }
  rewrite Hmsg.
  exists msg, (fresh_pk (stock_transaction_seq (sequences db))
                         (stock_transactions db)),
    (StockTransaction.mkrow b (StockTransaction.ttype self) (StockTransaction.qty self)
       (StockTransaction.ref self) (StockTransaction.note self)), db'.
  split; [reflexivity|].
  split; [apply fresh_pk_None|].
  split; [subst db'; simpl; apply lookup_insert_eq|].
  auto.
Qed.

Lemma stock_transaction_record_without_adjustment_shop :
  ∃ msg k row db',
    StockTransaction_save take_twenty shop = (Raise (ValidationError msg), db')
    ∧ stock_transactions shop !! k = None
    ∧ stock_transactions db' !! k = Some row
    ∧ StockTransaction.product_id row = 1
    ∧ StockTransaction.quantity row = -20
    ∧ products db' = products shop.
Proof.
  apply (stock_transaction_record_without_adjustment take_twenty shop 1 widget).
  - reflexivity.
  - reflexivity.
  - reflexivity.
  - simpl. lia.
Defined.

(** The record of the refused transaction is stored and ten widgets remain. *)
Example take_twenty_state :
  (StockTransaction_save take_twenty shop).1
  = Raise (ValidationError "Stock cannot be negative.")
  ∧ (StockTransaction.quantity <$> stock_transactions after_take_twenty !! 1)
    = Some (-20)
  ∧ stock_of 1 after_take_twenty = Some 10.
Proof. repeat split; vm_compute; reflexivity. Qed.

(** The same through the update view: item 1 of the sale, edited from four
    widgets to five.  Six widgets are in stock before; one is left, not
    five (6 + 4 - 5). *)
Example update_view_overwrites_restored_stock :
  stock_of 1 four_sold = Some 6
  ∧ (SaleUpdateView_form_valid
       (Sale.mk (Some 1) "SALE-000001" 0 0 Sale.CASH "")
       [SaleItem.mk (Some 1) (Some 1) (Unfetched (Some 1)) 5 150] [] four_sold).1
    = Ok (Redirect "inventory:sale-detail" (Some 1))
  ∧ stock_of 1
      (SaleUpdateView_form_valid
         (Sale.mk (Some 1) "SALE-000001" 0 0 Sale.CASH "")
         [SaleItem.mk (Some 1) (Some 1) (Unfetched (Some 1)) 5 150] [] four_sold).2
    = Some 1.
Proof. repeat split; vm_compute; reflexivity. Qed.

(** ** SKUs stay unique *)

Lemma sku_taken_false (k : Z) (s : string) (m : gmap Z Product.t) :
  sku_taken k (Some s) m = false →
  ∀ k' p, m !! k' = Some p → Product.sku p = Some s → k' = k.
Proof.
  intros Hfree k' p Hk' Hs.
  destruct (decide (k' = k)) as [|Hne]; [assumption|].
  rewrite (sku_taken_true k k' s p m Hk' Hs Hne) in Hfree. discriminate.
Qed.

Lemma Product_save_unfold (self : Product.t) (db : DB) :
  Product_save self db
  = match Product.clean self with
    | Ok _ => Model_save_Product (sku_assigned self db) db
    | Raise e => (Raise e, db)
    end.
Proof.
  unfold Product_save, sku_assigned, bind, lift, query, ret.
  destruct (Product.clean self); [|reflexivity].
  destruct (truthy_str _); [reflexivity|].
  destruct (truthy_pk _); reflexivity.
Qed.

(** X3. Whatever [Product.save] does, no two stored products share a SKU
    afterwards if none did before. *)
Lemma Product_save_sku_unique (self : Product.t) (db : DB) :
  sku_unique db → sku_unique (Product_save self db).2.
Proof.
  intros Huniq. rewrite Product_save_unfold.
  destruct (Product.clean self); [|exact Huniq].
  destruct (Model_save_Product (sku_assigned self db) db) as [[saved|e] db'] eqn:H.
  - apply Model_save_Product_Ok in H. destruct H as (-> & -> & Hfree).
    set (p1 := sku_assigned self db) in *.
    set (k := pk_or_fresh (Product.id p1) (product_seq (sequences db)) (products db)) in *.
    intros k1 k2 q1 q2 s Hk1 Hk2 Hs1 Hs2. simpl in Hk1, Hk2.
    destruct (decide (k1 = k)) as [->|Hn1], (decide (k2 = k)) as [->|Hn2].
    + reflexivity.
    + rewrite lookup_insert_eq in Hk1. rewrite lookup_insert_ne in Hk2 by congruence.
      injection Hk1 as <-. simpl in Hs1. rewrite Hs1 in Hfree.
      symmetry. apply (sku_taken_false _ _ _ Hfree k2 q2 Hk2 Hs2).
    + rewrite lookup_insert_eq in Hk2. rewrite lookup_insert_ne in Hk1 by congruence.
      injection Hk2 as <-. simpl in Hs2. rewrite Hs2 in Hfree.
      apply (sku_taken_false _ _ _ Hfree k1 q1 Hk1 Hs1).
    + rewrite lookup_insert_ne in Hk1 by congruence.
      rewrite lookup_insert_ne in Hk2 by congruence.
      apply (Huniq k1 k2 q1 q2 s); assumption.
  - unfold Model_save_Product in H.
    match type of H with
    | context [if ?b then _ else _] => destruct b
    end; [injection H as _ <-; exact Huniq | discriminate].
Qed.

(** ** Further properties of the save hooks *)

Lemma stock_transaction_adds_delta_shop :
  ∃ s, stock_of 1 shop = Some s
       ∧ stock_of 1 (StockTransaction_save put_five shop).2 = Some (s + 5)
       ∧ ∀ j, j ≠ 1 →
              products (StockTransaction_save put_five shop).2 !! j
              = products shop !! j.
Proof.
  eapply (stock_transaction_adds_delta put_five _ shop _ 1).
  - reflexivity.
  - simpl. exact I.
  - vm_compute. reflexivity.
Defined.

Lemma stock_transaction_needs_product_empty :
  ∃ e, StockTransaction_save put_five empty_db = (Raise e, empty_db).
Proof.
  apply (stock_transaction_needs_product put_five empty_db).
  intros b _. apply lookup_empty.
Defined.

Lemma Product_save_sku_unique_shop :
  sku_unique (Product_save (nameless "B") shop).2.
Proof.
  apply (Product_save_sku_unique (nameless "B") shop).
  intros k1 k2 p1 p2 s H1 H2 _ _. unfold shop in H1, H2. simpl in H1, H2.
  apply lookup_singleton_Some in H1. apply lookup_singleton_Some in H2.
  destruct H1 as [<- _], H2 as [<- _]. reflexivity.
Defined.

(** X4. A new sale item whose copy of its product, if it holds one, carries
    the stored stock: a save that completes takes exactly the item's
    quantity from the stock of its product, which had at least that much,
    and stores the item with that quantity; no other product row
    changes. *)
Lemma new_item_takes_stock
    (self saved : SaleItem.t) (db db' : DB) (b : Z) :
  truthy_pk (SaleItem.pk self) = false →
  related_id (SaleItem.product self) = Some b →
  in_sync (SaleItem.product self) db →
  SaleItem_save self db = (Ok saved, db') →
  ∃ s, stock_of b db = Some s
       ∧ 1 ≤ SaleItem.qty self ≤ s
       ∧ stock_of b db' = Some (s - SaleItem.qty self)
       ∧ (∀ j, j ≠ b → products db' !! j = products db !! j)
       ∧ ∃ k row, SaleItem.pk saved = Some k
                  ∧ sale_items db' !! k = Some row
                  ∧ SaleItem.product_id row = b
                  ∧ SaleItem.quantity row = SaleItem.qty self.
Proof.
  intros Hnew Hb Hsync H. unfold SaleItem_save in H.
  apply bind_Ok in H. destruct H as (s1 & db1 & Hclean & H).
  assert (1 ≤ SaleItem.qty self
          ∧ ∀ p, (fetch_product (SaleItem.product self) db).1 = Ok p →
                 SaleItem.qty self ≤ Product.current_stock p) as [Hq1 Hle].
  { unfold SaleItem_clean in Hclean.
    apply bind_Ok in Hclean. destruct Hclean as (p0 & db0 & Hf & Hc).
    simpl in Hc. rewrite Hnew in Hc.
    destruct (SaleItem.qty self <? 1) eqn:E1; [discriminate|].
    apply Z.ltb_ge in E1. split; [exact E1|].
    destruct (_ <? 0); [discriminate|].
    replace (SaleItem.qty self =? 0) with false in Hc
      by (symmetry; apply Z.eqb_neq; lia).
    simpl in Hc. unfold bind, ret in Hc.
    destruct (Product.current_stock p0 <? SaleItem.qty self) eqn:E2;
      [discriminate|].
    apply Z.ltb_ge in E2. intros p Hp. rewrite Hf in Hp. injection Hp as <-.
    exact E2. }
  apply SaleItem_clean_Ok in Hclean. destruct Hclean as (-> & p & Hp & ->).
  destruct (fetch_product_in_sync _ _ _ _ Hb Hsync Hp) as [Hpid Hpstock].
  specialize (Hle p Hp).
  apply bind_Ok in H. destruct H as ([] & db2 & Hrestore & H).
  unfold restore_original_stock in Hrestore. simpl in Hrestore.
  rewrite Hnew in Hrestore. injection Hrestore as <-.
  apply bind_Ok in H. destruct H as (s2 & db3 & Hms & H).
  pose proof Hms as Hms'. unfold Model_save_SaleItem in Hms'.
  apply Model_save_SaleItem_Ok in Hms.
  destruct Hms as (Hprod3 & Hs2p & Hs2q & sl & pid & _ & Hpid' & Hitems).
  simpl in Hs2p, Hs2q, Hpid', Hitems. rewrite Hpid in Hpid'. injection Hpid' as <-.
  assert (SaleItem.pk s2
          = Some (pk_or_fresh (SaleItem.pk self) (sale_item_seq (sequences db)) (sale_items db))) as Hs2k.
  { simpl in Hms'.
    destruct (negb _); [discriminate|].
    destruct (SaleItem.sale self); [|discriminate]. rewrite Hpid in Hms'.
    match type of Hms' with
    | context [if ?c then _ else _] => destruct c
    end; [discriminate|].
    injection Hms' as <- _. reflexivity. }
  apply bind_Ok in H. destruct H as (p2 & db4 & Hf2 & H).
  rewrite Hs2p in Hf2. injection Hf2 as <- <-.
  apply bind_Ok in H. destruct H as (pb & db5 & Hsb & H).
  injection H as <- <-.
  apply Product_save_Ok in Hsb. destruct Hsb as (_ & Hsb & kb & _ & Hkb & ->).
  simpl in Hkb, Hsb. rewrite Hpid in Hkb. simpl in Hkb. subst kb.
  exists (Product.current_stock p).
  split; [exact Hpstock|]. split; [lia|].
  unfold stock_of. simpl. rewrite Hprod3.
  split; [rewrite lookup_insert_eq; simpl; rewrite Hsb, Hs2q; reflexivity|].
  split; [intros j Hj; rewrite lookup_insert_ne by congruence; reflexivity|].
  eexists _, _. split; [exact Hs2k|]. rewrite Hitems.
  split; [apply lookup_insert_eq|]. split; reflexivity.
Qed.

Lemma new_item_takes_stock_widgets :
  ∃ s, stock_of 1 sale_open = Some s
       ∧ 1 ≤ 4 ≤ s
       ∧ stock_of 1 (SaleItem_save four_widgets sale_open).2 = Some (s - 4)
       ∧ (∀ j, j ≠ 1 →
               products (SaleItem_save four_widgets sale_open).2 !! j
               = products sale_open !! j)
       ∧ ∃ k row,
           SaleItem.pk (SaleItem.mk (Some 1) (Some 1)
                          (Cached widget6) 4 150) = Some k
           ∧ sale_items (SaleItem_save four_widgets sale_open).2 !! k = Some row
           ∧ SaleItem.product_id row = 1
           ∧ SaleItem.quantity row = 4.
Proof.
  eapply (new_item_takes_stock four_widgets _ sale_open _ 1).
  - reflexivity.
  - reflexivity.
  - simpl. exact I.
  - vm_compute. reflexivity.
Defined.

(** X5. A product that [Product.save] has stored sells for no less than it
    costs, and has no negative stock. *)
Lemma saved_product_price_order (self saved : Product.t) (db db' : DB) :
  Product_save self db = (Ok saved, db') →
  Product.buying_price saved ≤ Product.selling_price saved
  ∧ 0 ≤ Product.current_stock saved
  ∧ ∃ k, Product.id saved = Some k ∧ products db' !! k = Some saved.
Proof.
  intros H. rewrite Product_save_unfold in H.
  unfold Product.clean in H.
  destruct (Product.selling_price self <? Product.buying_price self) eqn:Hp;
    [discriminate|].
  destruct (Product.current_stock self <? 0) eqn:Hs; [discriminate|].
  apply Z.ltb_ge in Hp, Hs.
  apply Model_save_Product_Ok in H. destruct H as (-> & -> & _).
  assert (Product.buying_price (sku_assigned self db) = Product.buying_price self
          ∧ Product.selling_price (sku_assigned self db) = Product.selling_price self
          ∧ Product.current_stock (sku_assigned self db) = Product.current_stock self)
    as (Eb & Es & Ec).
  { unfold sku_assigned. destruct (truthy_str _); auto. }
  simpl. rewrite Eb, Es, Ec.
  split; [exact Hp|]. split; [exact Hs|].
  eexists. split; [reflexivity|]. apply lookup_insert_eq.
Qed.

Lemma saved_product_price_order_nameless :
  let saved := Product.mk (Some 1) "A" (Some "SKU-1") "" "" 100 150 10 5 true in
  Product.buying_price saved ≤ Product.selling_price saved
  ∧ 0 ≤ Product.current_stock saved
  ∧ ∃ k, Product.id saved = Some k
         ∧ products (Product_save (nameless "A") empty_db).2 !! k = Some saved.
Proof.
  intros saved.
  apply (saved_product_price_order (nameless "A") saved empty_db).
  vm_compute. reflexivity.
Defined.

(** ** The sale views write all or nothing *)

Lemma check_stock_loop_db (oq : gmap Z Z) (xs : list (nat * SaleItem.t)) (db : DB) :
  (for_each (check_stock oq) xs db).2 = db.
Proof.
  apply (preserves_for_each (λ d, d = db)); [|reflexivity].
  intros [i instance]. unfold check_stock.
  apply preserves_bind; [apply preserves_fetch_product|].
  intros p. apply preserves_ret.
Qed.

Lemma try_atomic_cases (prefix : string) (c : M response) (db : DB) :
  (∃ r, c db = (Ok r, (c db).2) ∧ try_atomic prefix c db = (Ok r, (c db).2))
  ∨ (∃ e, try_atomic prefix c db = (Ok (FormInvalid [Caught prefix e]), db)).
Proof.
  unfold try_atomic, atomic.
  destruct (c db) as [[r|e] db1]; simpl; [left|right]; eauto.
Qed.

Lemma view_cases (stored : SaleItem.t → option Z) (lines : list SaleItem.t)
    (prefix : string) (c : M response) (db : DB) :
  (∃ r, c db = (Ok r, (c db).2)
        ∧ (build_forms stored lines ;;; try_atomic prefix c) db = (Ok r, (c db).2))
  ∨ (∃ e, (build_forms stored lines ;;; try_atomic prefix c) db
          = (Ok (FormInvalid [Caught prefix e]), db))
  ∨ (∃ e, (build_forms stored lines ;;; try_atomic prefix c) db = (Raise e, db)).
Proof.
  unfold bind.
  destruct (build_forms_cases stored lines db) as [->|(e & -> & _)];
    [|right; right; eauto].
  destruct (try_atomic_cases prefix c db) as [(r & Hc & Ht)|(e & Ht)]; rewrite Ht.
  - left. eauto.
  - right. left. eauto.
Qed.

(** X6. [SaleCreateView.form_valid] and [SaleUpdateView.form_valid] have
    three outcomes: a redirect to the saved sale; the form rendered again
    with at least one error message; or an exception that leaves the view,
    raised while the forms of the lines are built, before the [try].  In
    the last two the database is exactly as it was: a failure after some
    of the writes undoes them all. *)
Theorem sale_views_all_or_nothing
    (s : Sale.t) (ins del : list SaleItem.t) (db : DB) :
  ((∃ pk, (SaleCreateView_form_valid s ins del db).1
          = Ok (Redirect "inventory:sale-detail" (Some pk)))
   ∨ ((∃ e, (SaleCreateView_form_valid s ins del db).1
            = Ok (FormInvalid [Caught "Error creating sale: " e]))
      ∧ (SaleCreateView_form_valid s ins del db).2 = db)
   ∨ ((∃ e, (SaleCreateView_form_valid s ins del db).1 = Raise e)
      ∧ (SaleCreateView_form_valid s ins del db).2 = db))
  ∧ ((∃ pk, (SaleUpdateView_form_valid s ins del db).1
            = Ok (Redirect "inventory:sale-detail" (Some pk)))
     ∨ ((∃ m msgs, (SaleUpdateView_form_valid s ins del db).1
                   = Ok (FormInvalid (m :: msgs)))
        ∧ (SaleUpdateView_form_valid s ins del db).2 = db)
     ∨ ((∃ e, (SaleUpdateView_form_valid s ins del db).1 = Raise e)
        ∧ (SaleUpdateView_form_valid s ins del db).2 = db)).
Proof.
  split.
  - unfold SaleCreateView_form_valid.
    match goal with |- context [(build_forms ?f ?l ;;; try_atomic ?p ?c) db] =>
      destruct (view_cases f l p c db) as [(r & Hc & Ht)|[(e & Ht)|(e & Ht)]];
      rewrite Ht; simpl
    end; [|right; left; eauto|right; right; eauto].
    left.
    apply bind_Ok in Hc. destruct Hc as (object & db1 & _ & H).
    apply bind_Ok in H. destruct H as (? & db2 & _ & H).
    apply bind_Ok in H. destruct H as (? & db3 & _ & H).
    apply bind_Ok in H. destruct H as (object' & db4 & Hu & H).
    injection H as <- _.
    apply Sale_update_total_Ok in Hu. destruct Hu as (k & _ & Hid & _).
    exists k. rewrite Hid. reflexivity.
  - unfold SaleUpdateView_form_valid.
    match goal with |- context [(build_forms ?f ?l ;;; try_atomic ?p ?c) db] =>
      destruct (view_cases f l p c db) as [(r & Hc & Ht)|[(e & Ht)|(e & Ht)]];
      rewrite Ht; simpl
    end; [| |right; right; eauto].
    2: { right. left. split; [|reflexivity]. eauto. }
    destruct (Sale.id s) as [k0|]; [|discriminate].
    apply bind_Ok in Hc. destruct Hc as (oq & db0 & Hq & H).
    injection Hq as _ <-.
    apply bind_Ok in H. destruct H as (checked & db1 & Hloop & H).
    pose proof (check_stock_loop_db oq (zip (seq 0 (length ins)) ins) db) as Hdb1.
    rewrite Hloop in Hdb1. simpl in Hdb1. subst db1.
    destruct (omap snd checked) as [|m ms].
    + left.
      apply bind_Ok in H. destruct H as (object & db2 & _ & H).
      apply bind_Ok in H. destruct H as (? & db3 & _ & H).
      apply bind_Ok in H. destruct H as (? & db4 & _ & H).
      apply bind_Ok in H. destruct H as (object' & db5 & Hu & H).
      injection H as <- _.
      apply Sale_update_total_Ok in Hu. destruct Hu as (k & _ & Hid & _).
      exists k. rewrite Hid. reflexivity.
    + right. left. injection H as <- <-. eauto.
Qed.

(** ** Deleting a sale that has no item *)

Lemma items_of_empty (pk : Z) (db : DB) :
  (∀ k row, sale_items db !! k = Some row → SaleItem.sale_id row ≠ pk) →
  items_of pk db = ∅.
Proof.
  intros Hnone. unfold items_of. apply map_eq. intros k.
  rewrite lookup_empty. apply map_lookup_filter_None. right.
  intros row Hk. simpl. apply (Hnone k row Hk).
Qed.

(** X7. [SaleDeleteView.delete] answers 404 and changes nothing when the
    sale does not exist; for a stored sale that no item points to, it
    removes the sale row, changes nothing else and redirects to the sale
    list. *)
Theorem sale_without_items_is_deleted (db : DB) (pk : Z) :
  (∀ k row, sale_items db !! k = Some row → SaleItem.sale_id row ≠ pk) →
  SaleDeleteView_delete pk db
  = match sales db !! pk with
    | Some _ => (Ok (Redirect "inventory:sale-list" None), set_sales (delete pk) db)
    | None => (Ok NotFound, db)
    end.
Proof.
  intros Hnone. unfold SaleDeleteView_delete.
  unfold bind at 1, query at 1.
  destruct (sales db !! pk) as [sale|]; simpl; [|reflexivity].
  unfold atomic, bind, query, items_all, Sale_delete. simpl.
  rewrite (items_of_empty pk db Hnone), map_to_list_empty. simpl.
  unfold bind, query, ret. rewrite (items_of_empty pk db Hnone), map_to_list_empty.
  reflexivity.
Qed.

Lemma sale_without_items_is_deleted_sale_open :
  SaleDeleteView_delete 1 sale_open
  = match sales sale_open !! 1 with
    | Some _ => (Ok (Redirect "inventory:sale-list" None),
                 set_sales (delete 1) sale_open)
    | None => (Ok NotFound, sale_open)
    end.
Proof.
  apply (sale_without_items_is_deleted sale_open 1).
  intros k row Hk. vm_compute in Hk. discriminate.
Defined.

(** ** Deleting a product *)

(** X8. [ProductDeleteView.delete] never removes a product that a sale item
    points to: it redirects to the product's page and the database is
    unchanged.  A stored product without sale items is removed together
    with its stock transactions; every other product and stock transaction,
    and all sales and sale items, stay as they were. *)
Theorem product_delete_respects_sale_history
    (db : DB) (pk : Z) (p : Product.t) :
  products db !! pk = Some p →
  ((∃ k row, sale_items db !! k = Some row ∧ SaleItem.product_id row = pk) →
   ProductDeleteView_delete pk db
   = (Ok (Redirect "inventory:product-detail" (Some pk)), db))
  ∧ ((∀ k row, sale_items db !! k = Some row → SaleItem.product_id row ≠ pk) →
     ∃ db',
       ProductDeleteView_delete pk db
       = (Ok (Redirect "inventory:product-list" None), db')
       ∧ products db' !! pk = None
       ∧ (∀ j, j ≠ pk → products db' !! j = products db !! j)
       ∧ (∀ k t, stock_transactions db' !! k = Some t
                 ↔ stock_transactions db !! k = Some t
                   ∧ StockTransaction.product_id t ≠ pk)
       ∧ sales db' = sales db
       ∧ sale_items db' = sale_items db).
Proof.
  intros Hp.
  assert (ProductDeleteView_delete pk db
          = match map_to_list
                    (filter (λ kv, SaleItem.product_id kv.2 = pk) (sale_items db)) with
            | _ :: _ => (Ok (Redirect "inventory:product-detail" (Some pk)), db)
            | [] =>
                (Ok (Redirect "inventory:product-list" None),
                 set_products (delete pk)
                   (set_stock_transactions
                      (filter (λ kv, StockTransaction.product_id kv.2 ≠ pk)) db))
            end) as Hrun.
  { unfold ProductDeleteView_delete, bind, query, write, ret, Product_get.
    rewrite Hp. simpl.
    destruct (map_to_list _); reflexivity. }
  rewrite Hrun. clear Hrun.
  set (sold := filter (λ kv, SaleItem.product_id kv.2 = pk) (sale_items db)).
  split.
  - intros (k & row & Hk & Hrow).
    assert (sold !! k = Some row) as Hin
      by (apply map_lookup_filter_Some; split; [exact Hk | exact Hrow]).
    destruct (map_to_list sold) as [|kv l] eqn:Hl; [|reflexivity].
    apply map_to_list_empty_iff in Hl. rewrite Hl, lookup_empty in Hin.
    discriminate.
  - intros Hnone.
    assert (sold = ∅) as Hsold.
    { apply map_eq. intros k. rewrite lookup_empty.
      apply map_lookup_filter_None. right. intros row Hk. simpl.
      apply (Hnone k row Hk). }
    rewrite Hsold, map_to_list_empty.
    eexists. split; [reflexivity|]. simpl.
    split; [apply lookup_delete_eq|].
    split; [intros j Hj; apply lookup_delete_ne; congruence|].
    split; [|split; reflexivity].
    intros k t. rewrite map_lookup_filter_Some. simpl. reflexivity.
Qed.

Lemma product_delete_respects_sale_history_widget :
  ((∃ k row, sale_items sold_four !! k = Some row ∧ SaleItem.product_id row = 1) →
   ProductDeleteView_delete 1 sold_four
   = (Ok (Redirect "inventory:product-detail" (Some 1)), sold_four))
  ∧ ((∀ k row, sale_items sold_four !! k = Some row → SaleItem.product_id row ≠ 1) →
     ∃ db',
       ProductDeleteView_delete 1 sold_four
       = (Ok (Redirect "inventory:product-list" None), db')
       ∧ products db' !! 1 = None
       ∧ (∀ j, j ≠ 1 → products db' !! j = products sold_four !! j)
       ∧ (∀ k t, stock_transactions db' !! k = Some t
                 ↔ stock_transactions sold_four !! k = Some t
                   ∧ StockTransaction.product_id t ≠ 1)
       ∧ sales db' = sales sold_four
       ∧ sale_items db' = sale_items sold_four).
Proof.
  apply (product_delete_respects_sale_history sold_four 1 widget6).
  reflexivity.
Defined.

(** ** Lines removed in the update view *)

Lemma preserves_bind_ret {A B} (I : DB → Prop) (a : A) (k : A → M B) :
  preserves I (k a) → preserves I (bind (ret a) k).
Proof. intros H db Hd. exact (H db Hd). Qed.

Lemma delete_loop_products (deleted : list SaleItem.t) (db : DB) :
  products (for_each SaleItem_delete deleted db).2 = products db.
Proof.
  apply (preserves_for_each (λ d, products d = products db)); [|reflexivity].
  intros item. apply preserves_SaleItem_delete. auto.
Qed.

Lemma delete_loop_gone (deleted : list SaleItem.t) (db db' : DB) (r : list unit) (k : Z) :
  for_each SaleItem_delete deleted db = (Ok r, db') →
  (sale_items db !! k = None ∨ ∃ i, i ∈ deleted ∧ SaleItem.pk i = Some k) →
  sale_items db' !! k = None.
Proof.
  revert db r. induction deleted as [|x xs IH]; intros db r H Hk; simpl in H.
  - injection H as _ <-. destruct Hk as [Hk|(i & Hi & _)]; [exact Hk|].
    inversion Hi.
  - apply bind_Ok in H. destruct H as ([] & db1 & Hx & H).
    apply bind_Ok in H. destruct H as (ys & db2 & Hxs & H).
    injection H as _ <-.
    apply (IH db1 ys Hxs).
    unfold SaleItem_delete in Hx.
    destruct (SaleItem.pk x) as [kx|] eqn:Hpkx; [|discriminate].
    injection Hx as <-. simpl.
    destruct (decide (kx = k)) as [->|Hne]; [left; apply lookup_delete_eq|].
    destruct Hk as [Hk|(i & Hi & Hpk)].
    + left. rewrite lookup_delete_ne by congruence. exact Hk.
    + apply elem_of_cons in Hi. destruct Hi as [->|Hi].
      * congruence.
      * right. eauto.
Qed.

(** X9. When [SaleUpdateView.form_valid] only removes lines (no line is
    added or changed), whatever happens no product row changes: the stock
    held by a removed line is not given back.  On success every removed
    line is gone from the table. *)
Theorem removed_lines_keep_stock
    (s : Sale.t) (deleted : list SaleItem.t) (db : DB) :
  products (SaleUpdateView_form_valid s [] deleted db).2 = products db
  ∧ (∀ url pk, (SaleUpdateView_form_valid s [] deleted db).1
               = Ok (Redirect url pk) →
               ∀ i k, i ∈ deleted → SaleItem.pk i = Some k →
                      sale_items (SaleUpdateView_form_valid s [] deleted db).2 !! k
                      = None).
Proof.
  split.
  - unfold SaleUpdateView_form_valid.
    apply (preserves_bind (λ d, products d = products db)); [| |reflexivity].
    { apply preserves_build_forms. }
    intros _. apply preserves_try_atomic.
    destruct (Sale.id s); [|apply preserves_raise].
    apply preserves_bind; [apply preserves_query|]. intros oq. simpl.
    apply preserves_bind_ret. simpl.
    apply preserves_bind; [apply preserves_Sale_save; auto|]. intros object.
    apply preserves_bind_ret.
    apply preserves_bind.
    { apply preserves_for_each. intros. apply preserves_SaleItem_delete. auto. }
    intros _. apply preserves_bind; [apply preserves_Sale_update_total; auto|].
    intros. apply preserves_ret.
  - intros url pk Hr i k Hi Hpk.
    destruct (SaleUpdateView_form_valid s [] deleted db) as [r db'] eqn:Hrun.
    simpl in Hr. subst r. simpl.
    unfold SaleUpdateView_form_valid in Hrun.
    apply after_build_forms in Hrun. destruct Hrun as [_ Hrun].
    apply try_atomic_Redirect in Hrun.
    destruct (Sale.id s) as [k0|]; [|discriminate].
    apply bind_Ok in Hrun. destruct Hrun as (oq & db0 & Hq & H).
    injection Hq as _ <-. simpl in H.
    apply bind_Ok in H. destruct H as (checked & db1 & Hc & H).
    injection Hc as <- <-. simpl in H.
    apply bind_Ok in H. destruct H as (object & db2 & Hs & H).
    apply bind_Ok in H. destruct H as (? & db3 & Hl & H).
    injection Hl as _ <-.
    apply bind_Ok in H. destruct H as (ds & db4 & Hd & H).
    apply bind_Ok in H. destruct H as (object' & db5 & Hu & H).
    injection H as _ _ Hdb. rewrite <- Hdb. clear Hdb.
    assert (sale_items db5 = sale_items db4) as ->.
    { pose proof (preserves_Sale_update_total
                    (λ d, sale_items d = sale_items db4)
                    (λ _ _ H, H) (λ _ _ H, H) object db4 eq_refl) as E.
      rewrite Hu in E. exact E. }
    apply (delete_loop_gone deleted db2 db4 ds k Hd). right. eauto.
Qed.

(** ** New lines in the sale views *)

(** X10. The form of a new line cannot be built: [SaleItemForm.__init__]
    reads the product of the blank item and the read raises, before the
    [try] of the view.  So [SaleCreateView.form_valid] raises
    [RelatedObjectDoesNotExist] and writes nothing as soon as the formset
    has a line, and [SaleUpdateView.form_valid] raises and writes nothing as
    soon as one of its lines is new.  A sale that the create view redirects
    to was made without lines: no product row and no sale item has
    changed. *)
Theorem new_lines_stop_sale_views
    (s : Sale.t) (ins del : list SaleItem.t) (db : DB) :
  ((ins ++ del)%list ≠ [] →
   SaleCreateView_form_valid s ins del db
   = (Raise (RelatedObjectDoesNotExist "product"), db))
  ∧ ((∃ i, i ∈ ins ∧ SaleItem.pk i = None) →
     ∃ e, SaleUpdateView_form_valid s ins del db = (Raise e, db)
          ∧ (e = RelatedObjectDoesNotExist "product" ∨ e = DoesNotExist "Product"))
  ∧ (∀ url pk db',
       SaleCreateView_form_valid s ins del db = (Ok (Redirect url pk), db') →
       ins = [] ∧ del = []
       ∧ products db' = products db ∧ sale_items db' = sale_items db).
Proof.
  assert ((ins ++ del)%list ≠ [] →
          SaleCreateView_form_valid s ins del db
          = (Raise (RelatedObjectDoesNotExist "product"), db)) as Hblank.
  { intros Hne. unfold SaleCreateView_form_valid, bind.
    rewrite build_forms_blank by exact Hne. reflexivity. }
  split; [exact Hblank|]. split.
  - intros (i & Hi & Hpk).
    destruct (build_forms_new_line SaleItem.pk (ins ++ del) db) as (e & He & Hd).
    { exists i. split; [apply elem_of_app; left; exact Hi | exact Hpk]. }
    exists e. split; [|exact Hd].
    unfold SaleUpdateView_form_valid, bind. rewrite He. reflexivity.
  - intros url pk db' H.
    destruct ins as [|i ins].
    2: { rewrite Hblank in H by discriminate. discriminate. }
    destruct del as [|d del].
    2: { rewrite Hblank in H by discriminate. discriminate. }
    split; [reflexivity|]. split; [reflexivity|].
    unfold SaleCreateView_form_valid in H.
    apply after_build_forms in H. destruct H as [_ H].
    apply try_atomic_Redirect in H.
    apply bind_Ok in H. destruct H as (object & db1 & Hs & H). simpl in H.
    apply bind_Ok in H. destruct H as (? & db2 & Hl & H). injection Hl as _ <-.
    apply bind_Ok in H. destruct H as (? & db3 & Hl & H). injection Hl as _ <-.
    apply bind_Ok in H. destruct H as (object' & db4 & Hu & H).
    injection H as _ _ <-.
    pose (I := λ d, products d = products db ∧ sale_items d = sale_items db).
    assert (I db1) as H1.
    { pose proof (preserves_Sale_save I (λ _ _ H, H) (λ _ _ H, H) s db
                    (conj eq_refl eq_refl)) as E.
      rewrite Hs in E. exact E. }
    pose proof (preserves_Sale_update_total I (λ _ _ H, H) (λ _ _ H, H)
                  object db1 H1) as E.
    rewrite Hu in E. exact E.
Qed.

(** Four widgets put on a new sale in the create view: the view raises and
    the ten widgets stay; with no line the sale is made. *)
Example create_view_new_line_raises :
  SaleCreateView_form_valid blank_sale [four_widgets] [] shop
  = (Raise (RelatedObjectDoesNotExist "product"), shop)
  ∧ (SaleCreateView_form_valid blank_sale [] [] shop).1
    = Ok (Redirect "inventory:sale-detail" (Some 1)).
Proof. split; vm_compute; reflexivity. Qed.

(** ** Numbers written and read back *)

Lemma digits_string_of_uint (d : Decimal.uint) (acc : Z) :
  Py.digits acc true (NilEmpty.string_of_uint d) = Some (uint_value acc d).
Proof.
  revert acc. induction d; intros acc; simpl; try reflexivity; apply IHd.
Qed.

Lemma uint_value_acc (d : Decimal.uint) (acc : positive) :
  uint_value (Z.pos acc) d = Z.pos (Pos.of_uint_acc d acc).
Proof.
  revert acc. induction d; intros acc; simpl; try reflexivity;
    match goal with
    | |- uint_value ?a _ = Z.pos (Pos.of_uint_acc _ ?b) =>
        replace a with (Z.pos b) by lia; apply IHd
    end.
Qed.

Lemma uint_value_0 (d : Decimal.uint) :
  uint_value 0 d = Z.of_N (Pos.of_uint d).
Proof.
  induction d; simpl; try reflexivity; try exact IHd;
    match goal with
    | |- uint_value ?a _ = _ => exact (uint_value_acc _ _)
    end.
Qed.

Lemma all_digits_string_of_uint (d : Decimal.uint) :
  all_digits (NilEmpty.string_of_uint d) = true.
Proof. induction d; simpl; auto. Qed.

Lemma zeros_S (k : nat) : zeros (S k) = String "0" (zeros k).
Proof. unfold zeros. destruct k; reflexivity. Qed.

Lemma all_digits_zeros (k : nat) (s : string) :
  all_digits (zeros k +:+ s) = all_digits s.
Proof.
  induction k as [|k IH]; [reflexivity|]. rewrite zeros_S. simpl. exact IH.
Qed.

Lemma digits_zeros (k : nat) (d : Decimal.uint) :
  d ≠ Decimal.Nil →
  Py.digits 0 false (zeros k +:+ NilEmpty.string_of_uint d) = Some (uint_value 0 d).
Proof.
  intros Hd.
  assert (∀ b, Py.digits 0 b (NilEmpty.string_of_uint d) = Some (uint_value 0 d)) as H0.
  { intros [|]; [apply digits_string_of_uint|].
    destruct d; [contradiction| ..]; simpl; apply digits_string_of_uint. }
  destruct k as [|k]; [apply H0|].
  rewrite zeros_S. simpl.
  induction k as [|k IH]; [apply H0|]. rewrite zeros_S. simpl. exact IH.
Qed.

Lemma str_nonneg (n : Z) :
  0 ≤ n →
  ∃ d, d ≠ Decimal.Nil ∧ Py.str n = NilEmpty.string_of_uint d ∧ uint_value 0 d = n.
Proof.
  intros Hn. destruct n as [|p|p]; [| |lia].
  - exists (Decimal.D0 Decimal.Nil). split; [discriminate|]. split; reflexivity.
  - exists (Pos.to_uint p).
    pose proof (DecimalPos.Unsigned.to_uint_nonnil p) as Hnn.
    split; [exact Hnn|]. split.
    + unfold Py.str. simpl. unfold NilZero.string_of_uint.
      destruct (Pos.to_uint p); [contradiction| ..]; reflexivity.
    + rewrite uint_value_0, DecimalPos.Unsigned.of_to. reflexivity.
Qed.

Lemma format_06d_nonneg (n : Z) :
  0 ≤ n →
  ∃ k d, d ≠ Decimal.Nil
         ∧ Py.format_06d n = zeros k +:+ NilEmpty.string_of_uint d
         ∧ uint_value 0 d = n.
Proof.
  intros Hn. destruct (str_nonneg n Hn) as (d & Hd & Hs & Hv).
  exists (6 - String.length (Py.str n))%nat, d.
  split; [exact Hd|]. split; [|exact Hv].
  unfold Py.format_06d, Py.zfill.
  replace (n <? 0) with false by (symmetry; apply Z.ltb_ge; lia).
  rewrite Hs. reflexivity.
Qed.

Lemma digit_not_space (c : ascii) :
  is_Some (Py.digit_of c) → Py.is_space c = false.
Proof.
  unfold Py.digit_of, Py.is_space. intros [v Hv].
  destruct ((48 <=? N_of_ascii c)%N && (N_of_ascii c <=? 57)%N) eqn:E;
    [|discriminate].
  apply andb_true_iff in E. destruct E as [E1 E2].
  apply N.leb_le in E1, E2.
  apply orb_false_iff. split; apply andb_false_iff.
  - right. apply N.leb_gt. lia.
  - right. apply N.leb_gt. lia.
Qed.

Lemma digit_not_dash (c : ascii) :
  is_Some (Py.digit_of c) → Ascii.eqb c "-" = false.
Proof.
  intros H. apply Ascii.eqb_neq. intros ->. destruct H as [v Hv]. discriminate.
Qed.

Lemma rstrip_digits (s : string) : all_digits s = true → Py.rstrip s = s.
Proof.
  induction s as [|c r IH]; [reflexivity|]. simpl.
  intros H. apply andb_true_iff in H. destruct H as [Hc Hr].
  apply bool_decide_eq_true in Hc. rewrite (IH Hr).
  destruct r; [|reflexivity]. rewrite (digit_not_space c Hc). reflexivity.
Qed.

Lemma lstrip_digits (s : string) : all_digits s = true → Py.lstrip s = s.
Proof.
  destruct s as [|c r]; [reflexivity|]. simpl.
  intros H. apply andb_true_iff in H. destruct H as [Hc Hr].
  apply bool_decide_eq_true in Hc. rewrite (digit_not_space c Hc). reflexivity.
Qed.

Lemma int_digits (s : string) :
  all_digits s = true → Py.int s = Py.digits 0 false s.
Proof.
  intros H. unfold Py.int. rewrite (rstrip_digits s H), (lstrip_digits s H).
  destruct s as [|c r]; [reflexivity|].
  simpl in H. apply andb_true_iff in H. destruct H as [Hc _].
  apply bool_decide_eq_true in Hc.
  destruct c as [[|] [|] [|] [|] [|] [|] [|] [|]];
    try reflexivity; destruct Hc as [v Hv]; discriminate.
Qed.

Lemma append_String (cur : string) (c : ascii) (r : string) :
  (cur +:+ String c EmptyString) +:+ r = cur +:+ String c r.
Proof.
  induction cur as [|a cur IH]; [reflexivity|].
  change (String a ((cur +:+ String c EmptyString) +:+ r)
          = String a (cur +:+ String c r)).
  rewrite IH. reflexivity.
Qed.

Lemma append_empty (cur : string) : cur +:+ EmptyString = cur.
Proof.
  induction cur as [|a cur IH]; [reflexivity|].
  change (String a (cur +:+ EmptyString) = String a cur).
  rewrite IH. reflexivity.
Qed.

Lemma split_go_digits (s cur : string) :
  all_digits s = true → Py.split_go "-" cur s = [cur +:+ s].
Proof.
  revert cur. induction s as [|c r IH]; intros cur H; simpl.
  - rewrite append_empty. reflexivity.
  - simpl in H. apply andb_true_iff in H. destruct H as [Hc Hr].
    apply bool_decide_eq_true in Hc. rewrite (digit_not_dash c Hc).
    rewrite (IH _ Hr), append_String. reflexivity.
Qed.

(** The number written by [Sale.save] is the number it reads back. *)
Lemma sale_number_read_back (n : Z) :
  0 ≤ n →
  Py.int (Py.last_item (Py.split "-" ("SALE-" +:+ Py.format_06d n)) "") = Some n.
Proof.
  intros Hn. destruct (format_06d_nonneg n Hn) as (k & d & Hd & Hf & Hv).
  rewrite Hf.
  assert (all_digits (zeros k +:+ NilEmpty.string_of_uint d) = true) as Hall
    by (rewrite all_digits_zeros; apply all_digits_string_of_uint).
  unfold Py.split. simpl. rewrite (split_go_digits _ _ Hall). simpl.
  change ("" +:+ zeros k +:+ NilEmpty.string_of_uint d)
    with (zeros k +:+ NilEmpty.string_of_uint d).
  rewrite (int_digits _ Hall), (digits_zeros k d Hd), Hv. reflexivity.
Qed.

(** ** Sales saved in a row *)

Lemma numbered_number (b n : Z) (s : Sale.t) :
  Sale.sale_number (numbered b n s) = "SALE-" +:+ Py.format_06d n.
Proof. reflexivity. Qed.

Lemma sale_number_inj (a b : Z) :
  0 ≤ a → 0 ≤ b →
  "SALE-" +:+ Py.format_06d a = "SALE-" +:+ Py.format_06d b → a = b.
Proof.
  intros Ha Hb E.
  pose proof (sale_number_read_back a Ha) as Ra.
  rewrite E, (sale_number_read_back b Hb) in Ra. congruence.
Qed.

Lemma expected_sale_Some (b : Z) (l : list Sale.t) (k : Z) (v : Sale.t) :
  expected_sale b l k = Some v →
  b + 1 ≤ k ≤ b + Z.of_nat (length l)
  ∧ ∃ s, l !! Z.to_nat (k - b - 1) = Some s ∧ v = numbered b (k - b) s.
Proof.
  unfold expected_sale. destruct (decide (b + 1 ≤ k)) as [Hk|]; [|discriminate].
  destruct (l !! Z.to_nat (k - b - 1)) as [s|] eqn:Hs; [|discriminate].
  intros [= <-]. apply lookup_lt_Some in Hs. split; [lia|eauto].
Qed.

Lemma expected_sale_last (b : Z) (l : list Sale.t) :
  l ≠ [] → is_Some (expected_sale b l (b + Z.of_nat (length l))).
Proof.
  intros Hl. unfold expected_sale.
  assert (0 < length l)%nat by (destruct l; [contradiction|simpl; lia]).
  destruct (decide (b + 1 ≤ b + Z.of_nat (length l))); [|lia].
  destruct (lookup_lt_is_Some_2 l (Z.to_nat (b + Z.of_nat (length l) - b - 1)))
    as [s Hs]; [lia|].
  rewrite Hs. simpl. eauto.
Qed.

Lemma Sale_save_next (b : Z) (l : list Sale.t) (s : Sale.t) (db : DB) :
  0 ≤ b →
  (∀ k, sales db !! k = expected_sale b l k) →
  Z.max (sale_seq (sequences db)) 0 = b + Z.of_nat (length l) →
  unsaved s →
  let n := Z.of_nat (length l) + 1 in
  Sale_save s db
  = (Ok (numbered b n s),
     note_sale_key (b + n) (set_sales (insert (b + n) (numbered b n s)) db)).
Proof.
  intros Hb Hinv Hseq [Hid Hnum] n.
  assert (last_number db = Ok (Z.of_nat (length l))
          ∧ fresh_pk (sale_seq (sequences db)) (sales db) = b + n)
    as [Hlast Hfresh].
  { unfold last_number, fresh_pk.
    destruct (last_by_id (sales db)) as [[kmax v]|] eqn:Hl.
    - apply last_by_id_Some in Hl. destruct Hl as [Hv Hmax].
      rewrite Hinv in Hv. apply expected_sale_Some in Hv.
      destruct Hv as (Hrange & s0 & Hs0 & ->).
      assert (l ≠ []) as Hne by (intros ->; simpl in Hrange; lia).
      pose proof (expected_sale_last b l Hne) as Hm. rewrite <- Hinv in Hm.
      specialize (Hmax _ Hm).
      assert (kmax = b + Z.of_nat (length l)) as -> by lia.
      rewrite numbered_number.
      replace (b + Z.of_nat (length l) - b) with (Z.of_nat (length l)) by lia.
      rewrite sale_number_read_back by lia.
      split; [reflexivity|]. subst n. lia.
    - apply last_by_id_None in Hl.
      assert (l = []) as ->.
      { destruct l as [|x l]; [reflexivity|].
        assert (x :: l ≠ []) as Hne by discriminate.
        pose proof (expected_sale_last b _ Hne) as Hm. rewrite <- Hinv, Hl in Hm.
        destruct Hm as [v Hv]. rewrite lookup_empty in Hv. discriminate. }
      split; [reflexivity|]. subst n. simpl in *. lia. }
  unfold Sale_save. rewrite Hnum. simpl.
  unfold bind at 1. unfold bind at 1, query at 1. rewrite Hlast.
  unfold bind, lift, ret. unfold Model_save_Sale. simpl.
  rewrite Hid. simpl. rewrite Hfresh.
  fold n.
  destruct (sale_number_taken (b + n) ("SALE-" +:+ Py.format_06d n) (sales db))
    eqn:Htaken.
  - exfalso. unfold sale_number_taken in Htaken.
    apply existsb_exists in Htaken. destruct Htaken as ([k' v] & Hin & Hkv).
    apply list_elem_of_In, elem_of_map_to_list in Hin. simpl in Hkv.
    apply andb_true_iff in Hkv. destruct Hkv as [_ Heq].
    apply String.eqb_eq in Heq.
    rewrite Hinv in Hin. apply expected_sale_Some in Hin.
    destruct Hin as (Hrange & s0 & _ & ->). rewrite numbered_number in Heq.
    apply sale_number_inj in Heq; subst n; lia.
  - reflexivity.
Qed.

Lemma save_sales_table (l : list Sale.t) (db : DB) :
  sales db = ∅ →
  Forall unsaved l →
  let b := Z.max (sale_seq (sequences db)) 0 in
  (∀ k, sales (save_sales l db) !! k = expected_sale b l k)
  ∧ Z.max (sale_seq (sequences (save_sales l db))) 0 = b + Z.of_nat (length l).
Proof.
  intros Hempty Hall b.
  induction l as [|s l IH] using rev_ind.
  - split; [|simpl; lia]. intros k. simpl. rewrite Hempty, lookup_empty.
    unfold expected_sale. destruct (decide (b + 1 ≤ k)); reflexivity.
  - apply Forall_app in Hall. destruct Hall as [Hl Hs].
    apply (proj1 (Forall_singleton _ _)) in Hs.
    destruct (IH Hl) as [IHt IHq].
    unfold save_sales. rewrite foldl_app. simpl. fold (save_sales l db).
    rewrite (Sale_save_next b l s _ ltac:(lia) IHt IHq Hs). simpl. split.
    + intros k. unfold expected_sale.
      destruct (decide (k = b + (Z.of_nat (length l) + 1))) as [->|Hne].
      * rewrite lookup_insert_eq.
        destruct (decide (b + 1 ≤ b + (Z.of_nat (length l) + 1))); [|lia].
        replace (Z.to_nat (b + (Z.of_nat (length l) + 1) - b - 1))
          with (length l) by lia.
        rewrite list_lookup_middle by reflexivity. simpl.
        replace (b + (Z.of_nat (length l) + 1) - b)
          with (Z.of_nat (length l) + 1) by lia.
        reflexivity.
      * rewrite lookup_insert_ne by congruence. rewrite IHt. unfold expected_sale.
        destruct (decide (b + 1 ≤ k)); [|reflexivity].
        destruct (decide (Z.to_nat (k - b - 1) < length l)%nat) as [Hlt|Hge].
        -- rewrite lookup_app_l by exact Hlt. reflexivity.
        -- rewrite (lookup_ge_None_2 l) by lia.
           rewrite lookup_ge_None_2; [reflexivity|].
           rewrite length_app. simpl. lia.
    + rewrite length_app. simpl. lia.
Qed.

(** X11. When the stored sale with the highest id carries a number that
    [Sale.save] wrote for [n], a sale saved without a number gets the
    number written for [n + 1]: what [save] writes, it reads back. *)
Theorem next_sale_number
    (self saved last_sale : Sale.t) (db db' : DB) (k n : Z) :
  0 ≤ n →
  last_by_id (sales db) = Some (k, last_sale) →
  Sale.sale_number last_sale = "SALE-" +:+ Py.format_06d n →
  Sale.sale_number self = "" →
  Sale_save self db = (Ok saved, db') →
  Sale.sale_number saved = "SALE-" +:+ Py.format_06d (n + 1)
  ∧ suffix_number saved = Some (n + 1).
Proof.
  intros Hn Hlast Hnum Hblank H.
  unfold Sale_save in H. rewrite Hblank in H. simpl in H.
  apply bind_Ok in H. destruct H as (s1 & db1 & H1 & H).
  apply bind_Ok in H1. destruct H1 as (r & dbr & Hq & H1).
  injection Hq as <- <-.
  unfold last_number in H1. rewrite Hlast, Hnum in H1.
  rewrite (sale_number_read_back n Hn) in H1.
  unfold bind, lift, ret in H1. injection H1 as <- <-.
  apply Model_save_Sale_Ok in H. destruct H as (Hs & _).
  assert (Sale.sale_number saved = "SALE-" +:+ Py.format_06d (n + 1)) as E
    by exact Hs.
  split; [exact E|].
  unfold suffix_number. rewrite E. apply sale_number_read_back. lia.
Qed.

Lemma next_sale_number_two_sales :
  let saved := Sale.mk (Some 3) "SALE-000004" 0 0 Sale.CASH "" in
  Sale.sale_number saved = "SALE-" +:+ Py.format_06d (3 + 1)
  ∧ suffix_number saved = Some (3 + 1).
Proof.
  intros saved.
  apply (next_sale_number blank_sale saved
           (Sale.mk (Some 2) "SALE-000003" 0 0 Sale.CASH "")
           two_sales (note_sale_key 3 (set_sales (insert 3 saved) two_sales)) 2 3).
  - lia.
  - vm_compute. reflexivity.
  - reflexivity.
  - reflexivity.
  - vm_compute. reflexivity.
Defined.

(** X12. Sales saved one after the other into an empty sale table, each
    without a key and without a number, are all stored, and the table
    holds nothing else.  The [i]-th gets the number "SALE-" followed by [i]
    zero-padded to six digits, and the key [b + i], where [b] is the
    highest key the table has held before (0 for a table that never held a
    row): numbers start again at 1 in an emptied table, keys do not. *)
Theorem sales_numbered_in_sequence (l : list Sale.t) (db : DB) :
  sales db = ∅ →
  Forall unsaved l →
  let b := Z.max (sale_seq (sequences db)) 0 in
  (∀ i s, l !! i = Some s →
          sales (save_sales l db) !! (b + (Z.of_nat i + 1))
          = Some (numbered b (Z.of_nat i + 1) s))
  ∧ (∀ k v, sales (save_sales l db) !! k = Some v →
            b + 1 ≤ k ≤ b + Z.of_nat (length l)).
Proof.
  intros Hempty Hall b.
  destruct (save_sales_table l db Hempty Hall) as [Ht _]. fold b in Ht. split.
  - intros i s Hi. rewrite Ht. unfold expected_sale.
    destruct (decide (b + 1 ≤ b + (Z.of_nat i + 1))); [|lia].
    replace (Z.to_nat (b + (Z.of_nat i + 1) - b - 1)) with i by lia.
    rewrite Hi. simpl.
    replace (b + (Z.of_nat i + 1) - b) with (Z.of_nat i + 1) by lia.
    reflexivity.
  - intros k v Hk. rewrite Ht in Hk.
    apply expected_sale_Some in Hk. tauto.
Qed.

Lemma sales_numbered_in_sequence_cleared :
  let l := [blank_sale; Sale.mk None "" 7 0 Sale.CARD "later"] in
  let b := Z.max (sale_seq (sequences cleared)) 0 in
  (∀ i s, l !! i = Some s →
          sales (save_sales l cleared) !! (b + (Z.of_nat i + 1))
          = Some (numbered b (Z.of_nat i + 1) s))
  ∧ (∀ k v, sales (save_sales l cleared) !! k = Some v →
            b + 1 ≤ k ≤ b + Z.of_nat (length l)).
Proof.
  intros l.
  apply (sales_numbered_in_sequence l cleared).
  - vm_compute. reflexivity.
  - repeat constructor.
Defined.

(** Two sales saved after two were saved and cleared: keys 3 and 4, numbers
    1 and 2. *)
Example sales_after_clearing :
  (Sale.sale_number <$>
     sales (save_sales [blank_sale; blank_sale] cleared) !! 3) = Some "SALE-000001"
  ∧ (Sale.sale_number <$>
       sales (save_sales [blank_sale; blank_sale] cleared) !! 4) = Some "SALE-000002"
  ∧ sales (save_sales [blank_sale; blank_sale] cleared) !! 1 = None.
Proof. repeat split; vm_compute; reflexivity. Qed.

(** ** Products saved in a row *)

Lemma str_read_back (n : Z) : 0 ≤ n → Py.int (Py.str n) = Some n.
Proof.
  intros Hn. destruct (str_nonneg n Hn) as (d & Hd & Hs & Hv).
  rewrite Hs, int_digits by apply all_digits_string_of_uint.
  change (NilEmpty.string_of_uint d) with (zeros 0 +:+ NilEmpty.string_of_uint d).
  rewrite (digits_zeros 0 d Hd), Hv. reflexivity.
Qed.

Lemma sku_inj (a b : Z) :
  0 ≤ a → 0 ≤ b → "SKU-" +:+ Py.str a = "SKU-" +:+ Py.str b → a = b.
Proof.
  intros Ha Hb E.
  assert (Py.str a = Py.str b) as E' by (injection E; auto).
  pose proof (str_read_back a Ha) as Ra.
  rewrite E', (str_read_back b Hb) in Ra. congruence.
Qed.

Lemma expected_product_Some (b : Z) (l : list Product.t) (k : Z) (v : Product.t) :
  expected_product b l k = Some v →
  b + 1 ≤ k ≤ b + Z.of_nat (length l)
  ∧ ∃ p, l !! Z.to_nat (k - b - 1) = Some p ∧ v = with_sku b (k - b) p.
Proof.
  unfold expected_product. destruct (decide (b + 1 ≤ k)) as [Hk|]; [|discriminate].
  destruct (l !! Z.to_nat (k - b - 1)) as [s|] eqn:Hs; [|discriminate].
  intros [= <-]. apply lookup_lt_Some in Hs. split; [lia|eauto].
Qed.

Lemma expected_product_last (b : Z) (l : list Product.t) :
  l ≠ [] → is_Some (expected_product b l (b + Z.of_nat (length l))).
Proof.
  intros Hl. unfold expected_product.
  assert (0 < length l)%nat by (destruct l; [contradiction|simpl; lia]).
  destruct (decide (b + 1 ≤ b + Z.of_nat (length l))); [|lia].
  destruct (lookup_lt_is_Some_2 l (Z.to_nat (b + Z.of_nat (length l) - b - 1)))
    as [s Hs]; [lia|].
  rewrite Hs. simpl. eauto.
Qed.

Lemma Product_save_next (b : Z) (l : list Product.t) (p : Product.t) (db : DB) :
  0 ≤ b →
  (∀ k, products db !! k = expected_product b l k) →
  size (products db) = length l →
  Z.max (product_seq (sequences db)) 0 = b + Z.of_nat (length l) →
  new_product p →
  let n := Z.of_nat (length l) + 1 in
  Product_save p db
  = (Ok (with_sku b n p),
     note_product_key (b + n) (set_products (insert (b + n) (with_sku b n p)) db)).
Proof.
  intros Hb Hinv Hsize Hseq (Hid & Hsku & Hclean & Hmin) n.
  assert (fresh_pk (product_seq (sequences db)) (products db) = b + n) as Hfresh.
  { unfold fresh_pk.
    destruct (last_by_id (products db)) as [[kmax v]|] eqn:Hl.
    - apply last_by_id_Some in Hl. destruct Hl as [Hv Hmax].
      rewrite Hinv in Hv. apply expected_product_Some in Hv.
      destruct Hv as (Hrange & _).
      assert (l ≠ []) as Hne by (intros ->; simpl in Hrange; lia).
      pose proof (expected_product_last b l Hne) as Hm. rewrite <- Hinv in Hm.
      specialize (Hmax _ Hm). subst n. lia.
    - apply last_by_id_None in Hl. rewrite Hl, map_size_empty in Hsize.
      subst n. rewrite <- Hsize in *. simpl in *. lia. }
  rewrite Product_save_unfold, Hclean.
  assert (sku_assigned p db = Product.set_sku ("SKU-" +:+ Py.str n) p) as ->.
  { unfold sku_assigned, Product_count. rewrite Hsku, Hid, Hsize. reflexivity. }
  unfold Model_save_Product. simpl. rewrite Hid. simpl. rewrite Hfresh.
  assert ((Product.current_stock p <? 0) = false) as ->.
  { unfold Product.clean in Hclean. destruct (_ <? _); [discriminate|].
    destruct (Product.current_stock p <? 0); [discriminate|reflexivity]. }
  replace (Product.min_stock_level p <? 0) with false
    by (symmetry; apply Z.ltb_ge; exact Hmin).
  destruct (existsb _ _) eqn:Htaken; [|reflexivity].
  exfalso. apply existsb_exists in Htaken. destruct Htaken as ([k' v] & Hin & Hkv).
  apply list_elem_of_In, elem_of_map_to_list in Hin. simpl in Hkv.
  apply andb_true_iff in Hkv. destruct Hkv as [_ Heq].
  apply bool_decide_eq_true in Heq.
  rewrite Hinv in Hin. apply expected_product_Some in Hin.
  destruct Hin as (Hrange & p0 & _ & ->).
  assert (Some ("SKU-" +:+ Py.str (k' - b)) = Some ("SKU-" +:+ Py.str n)) as E
    by exact Heq.
  apply (inj Some) in E. apply sku_inj in E; subst n; lia.
Qed.

Lemma save_products_table (l : list Product.t) (db : DB) :
  products db = ∅ →
  Forall new_product l →
  let b := Z.max (product_seq (sequences db)) 0 in
  (∀ k, products (save_products l db) !! k = expected_product b l k)
  ∧ size (products (save_products l db)) = length l
  ∧ Z.max (product_seq (sequences (save_products l db))) 0
    = b + Z.of_nat (length l).
Proof.
  intros Hempty Hall b.
  induction l as [|p l IH] using rev_ind.
  - split; [|split; [simpl; rewrite Hempty; reflexivity | simpl; lia]].
    intros k. simpl. rewrite Hempty, lookup_empty.
    unfold expected_product. destruct (decide (b + 1 ≤ k)); reflexivity.
  - apply Forall_app in Hall. destruct Hall as [Hl Hp].
    apply (proj1 (Forall_singleton _ _)) in Hp.
    destruct (IH Hl) as (IHt & IHs & IHq).
    unfold save_products. rewrite foldl_app. simpl. fold (save_products l db).
    rewrite (Product_save_next b l p _ ltac:(lia) IHt IHs IHq Hp). simpl.
    split; [|split].
    + intros k. unfold expected_product.
      destruct (decide (k = b + (Z.of_nat (length l) + 1))) as [->|Hne].
      * rewrite lookup_insert_eq.
        destruct (decide (b + 1 ≤ b + (Z.of_nat (length l) + 1))); [|lia].
        replace (Z.to_nat (b + (Z.of_nat (length l) + 1) - b - 1))
          with (length l) by lia.
        rewrite list_lookup_middle by reflexivity. simpl.
        replace (b + (Z.of_nat (length l) + 1) - b)
          with (Z.of_nat (length l) + 1) by lia.
        reflexivity.
      * rewrite lookup_insert_ne by congruence. rewrite IHt.
        unfold expected_product.
        destruct (decide (b + 1 ≤ k)); [|reflexivity].
        destruct (decide (Z.to_nat (k - b - 1) < length l)%nat) as [Hlt|Hge].
        -- rewrite lookup_app_l by exact Hlt. reflexivity.
        -- rewrite (lookup_ge_None_2 l) by lia.
           rewrite lookup_ge_None_2; [reflexivity|].
           rewrite length_app. simpl. lia.
    + rewrite map_size_insert_None.
      * rewrite IHs, length_app. simpl. lia.
      * rewrite IHt. unfold expected_product.
        destruct (decide (b + 1 ≤ b + (Z.of_nat (length l) + 1))); [|reflexivity].
        rewrite lookup_ge_None_2; [reflexivity|lia].
    + rewrite length_app. simpl. lia.
Qed.

(** X13. Valid products saved one after the other into an empty product
    table, each without a key and without a SKU, are all stored, and the
    table holds nothing else.  The [i]-th gets the SKU "SKU-" followed by
    [i], and the key [b + i], where [b] is the highest key the table has
    held before (0 for a table that never held a row).  While no product is
    deleted in between, the SKUs never collide. *)
Theorem products_get_skus_in_sequence (l : list Product.t) (db : DB) :
  products db = ∅ →
  Forall new_product l →
  let b := Z.max (product_seq (sequences db)) 0 in
  (∀ i p, l !! i = Some p →
          products (save_products l db) !! (b + (Z.of_nat i + 1))
          = Some (with_sku b (Z.of_nat i + 1) p))
  ∧ (∀ k v, products (save_products l db) !! k = Some v →
            b + 1 ≤ k ≤ b + Z.of_nat (length l)).
Proof.
  intros Hempty Hall b.
  destruct (save_products_table l db Hempty Hall) as (Ht & _). fold b in Ht. split.
  - intros i p Hi. rewrite Ht. unfold expected_product.
    destruct (decide (b + 1 ≤ b + (Z.of_nat i + 1))); [|lia].
    replace (Z.to_nat (b + (Z.of_nat i + 1) - b - 1)) with i by lia.
    rewrite Hi. simpl.
    replace (b + (Z.of_nat i + 1) - b) with (Z.of_nat i + 1) by lia.
    reflexivity.
  - intros k v Hk. rewrite Ht in Hk.
    apply expected_product_Some in Hk. tauto.
Qed.

Lemma products_get_skus_in_sequence_cleared :
  let l := [nameless "C"; nameless "D"] in
  let b := Z.max (product_seq (sequences cleared)) 0 in
  (∀ i p, l !! i = Some p →
          products (save_products l cleared) !! (b + (Z.of_nat i + 1))
          = Some (with_sku b (Z.of_nat i + 1) p))
  ∧ (∀ k v, products (save_products l cleared) !! k = Some v →
            b + 1 ≤ k ≤ b + Z.of_nat (length l)).
Proof.
  intros l.
  apply (products_get_skus_in_sequence l cleared).
  - vm_compute. reflexivity.
  - repeat constructor; simpl; lia.
Defined.

(** Two products saved after two were saved and cleared: keys 3 and 4, SKUs
    1 and 2. *)
Example products_after_clearing :
  (Product.sku <$>
     products (save_products [nameless "C"; nameless "D"] cleared) !! 3)
  = Some (Some "SKU-1")
  ∧ (Product.sku <$>
       products (save_products [nameless "C"; nameless "D"] cleared) !! 4)
    = Some (Some "SKU-2")
  ∧ products (save_products [nameless "C"; nameless "D"] cleared) !! 1 = None.
Proof. repeat split; vm_compute; reflexivity. Qed.

(** ** Forms *)

(** X14. [ProductForm.clean] refuses a selling price below the buying price
    only when neither price is zero: what it refuses [Product.clean]
    refuses too, with the same message, but a zero selling price below the
    buying price passes the form's own check and is refused by
    [Product.clean] alone. *)
Theorem product_form_clean_skips_zero (p : Product.t) :
  let cd := ProductForm.mk (Some (Product.selling_price p))
                           (Some (Product.buying_price p)) in
  (ProductForm.clean cd = Ok cd
   ↔ Product.buying_price p ≤ Product.selling_price p
     ∨ Product.selling_price p = 0 ∨ Product.buying_price p = 0)
  ∧ (∀ e, ProductForm.clean cd = Raise e → Product.clean p = Raise e)
  ∧ (Product.selling_price p = 0 → 0 < Product.buying_price p →
     ProductForm.clean cd = Ok cd
     ∧ Product.clean p
       = Raise (ValidationError "Selling price cannot be less than buying price.")).
Proof.
  intros cd. unfold ProductForm.clean, Product.clean, cd. simpl.
  set (s := Product.selling_price p). set (b := Product.buying_price p).
  destruct (negb (s =? 0) && negb (b =? 0) && (s <? b)) eqn:E.
  - apply andb_true_iff in E. destruct E as [E Hlt].
    apply andb_true_iff in E. destruct E as [Hs Hb].
    apply negb_true_iff, Z.eqb_neq in Hs, Hb. apply Z.ltb_lt in Hlt.
    split; [|split].
    + split; [discriminate | lia].
    + intros e [= <-]. replace (s <? b) with true by (symmetry; apply Z.ltb_lt; lia).
      reflexivity.
    + intros. lia.
  - split; [|split].
    + split; [intros _ | reflexivity].
      destruct (Z.eqb_spec s 0); [auto|]. destruct (Z.eqb_spec b 0); [auto|].
      simpl in E. apply Z.ltb_ge in E. auto.
    + discriminate.
    + intros Hs Hb. split; [reflexivity|].
      replace (s <? b) with true by (symmetry; apply Z.ltb_lt; lia). reflexivity.
Qed.

Lemma SaleItem_clean_cached
    (pk sale : option Z) (p : Product.t) (q price : Z) (db : DB) :
  1 ≤ q → 0 ≤ price →
  let self := SaleItem.mk pk sale (Cached p) q price in
  let available :=
    Product.current_stock p
    + (if truthy_pk pk
       then default 0 (SaleItem.quantity <$> sale_items db !! default 0 pk)
       else 0) in
  SaleItem_clean self db
  = if available <? q then (Raise (insufficient_stock available q), db)
    else (Ok self, db).
Proof.
  intros Hq Hprice self available.
  unfold SaleItem_clean, fetch_product, bind at 1, ret at 1. simpl.
  replace (q <? 1) with false by (symmetry; apply Z.ltb_ge; lia).
  replace (price <? 0) with false by (symmetry; apply Z.ltb_ge; lia).
  replace (q =? 0) with false by (symmetry; apply Z.eqb_neq; lia).
  simpl. subst available.
  destruct (truthy_pk pk).
  - unfold bind, query, ret, raise, SaleItem_get.
    destruct (sale_items db !! default 0 pk) as [row|]; simpl.
    + destruct (_ <? q); reflexivity.
    + rewrite Z.add_0_r. destruct (_ <? q); reflexivity.
  - unfold bind, ret, raise. rewrite Z.add_0_r.
    destruct (_ <? q); reflexivity.
Qed.

(** X15. [SaleItemForm.clean] compares the quantity with the product's
    stock alone, [SaleItem.clean] with the stock plus what the stored line
    already holds.  For a line with a quantity of at least 1 and a unit
    price of at least 0, when no stored quantity is negative: a line that
    the form accepts passes [SaleItem.clean]; for a new line the two agree;
    and raising a stored line beyond the stock, within what the line holds,
    is accepted by [SaleItem.clean] and refused by the form. *)
Theorem sale_item_form_is_stricter
    (pk sale : option Z) (p : Product.t) (q price : Z) (db : DB) :
  1 ≤ q → 0 ≤ price →
  map_Forall (λ _ row, 0 ≤ SaleItem.quantity row) (sale_items db) →
  let cd := SaleItemForm.mk (Some p) (Some q) (Some price) in
  let self := SaleItem.mk pk sale (Cached p) q price in
  (SaleItemForm.clean cd = Ok cd → SaleItem_clean self db = (Ok self, db))
  ∧ (truthy_pk pk = false →
     SaleItem_clean self db = (Ok self, db) → SaleItemForm.clean cd = Ok cd)
  ∧ (∀ k row, pk = Some k → k ≠ 0 → sale_items db !! k = Some row →
              Product.current_stock p < q
              ≤ Product.current_stock p + SaleItem.quantity row →
              SaleItem_clean self db = (Ok self, db)
              ∧ ∃ e, SaleItemForm.clean cd = Raise e).
Proof.
  intros Hq Hprice Hrows cd self.
  pose proof (SaleItem_clean_cached pk sale p q price db Hq Hprice) as Hclean.
  simpl in Hclean. fold self in Hclean.
  assert (SaleItemForm.clean cd
          = if Product.current_stock p <? q
            then Raise (ValidationError
                          ("Insufficient stock for " +:+ Product.name p
                           +:+ ". Available: " +:+ Py.str (Product.current_stock p)))
            else Ok cd) as Hform.
  { unfold SaleItemForm.clean, cd. simpl.
    replace (q =? 0) with false by (symmetry; apply Z.eqb_neq; lia).
    reflexivity. }
  assert (0 ≤ (if truthy_pk pk
               then default 0 (SaleItem.quantity <$> sale_items db !! default 0 pk)
               else 0)) as Hextra.
  { destruct (truthy_pk pk); [|lia].
    destruct (sale_items db !! default 0 pk) as [row|] eqn:Hrow; simpl; [|lia].
    apply (Hrows (default 0 pk) row Hrow). }
  split; [|split].
  - rewrite Hform, Hclean.
    destruct (Z.ltb_spec (Product.current_stock p) q); [discriminate|].
    intros _.
    match goal with |- context [?a <? q] => destruct (Z.ltb_spec a q) end;
      [lia|reflexivity].
  - intros Hnew. rewrite Hform, Hclean, Hnew, Z.add_0_r.
    destruct (Z.ltb_spec (Product.current_stock p) q); [discriminate|reflexivity].
  - intros k row -> Hk Hrow [Hlt Hle]. rewrite Hform, Hclean. simpl.
    replace (k =? 0) with false by (symmetry; apply Z.eqb_neq; exact Hk).
    simpl. rewrite Hrow. simpl.
    destruct (Z.ltb_spec (Product.current_stock p + SaleItem.quantity row) q); [lia|].
    split; [reflexivity|].
    destruct (Z.ltb_spec (Product.current_stock p) q); [eauto|lia].
Qed.

Lemma sale_item_form_is_stricter_eight :
  let cd := SaleItemForm.mk (Some widget6) (Some 8) (Some 150) in
  let self := SaleItem.mk (Some 1) (Some 1) (Cached widget6) 8 150 in
  (SaleItemForm.clean cd = Ok cd → SaleItem_clean self sold_four = (Ok self, sold_four))
  ∧ (truthy_pk (Some 1) = false →
     SaleItem_clean self sold_four = (Ok self, sold_four) →
     SaleItemForm.clean cd = Ok cd)
  ∧ (∀ k row, Some 1 = Some k → k ≠ 0 → sale_items sold_four !! k = Some row →
              Product.current_stock widget6 < 8
              ≤ Product.current_stock widget6 + SaleItem.quantity row →
              SaleItem_clean self sold_four = (Ok self, sold_four)
              ∧ ∃ e, SaleItemForm.clean cd = Raise e).
Proof.
  apply (sale_item_form_is_stricter (Some 1) (Some 1) widget6 8 150 sold_four).
  - lia.
  - lia.
  - unfold sold_four. simpl. apply map_Forall_singleton. simpl. lia.
Defined.

(** ** Lists and reports *)

Section ProductListRows.
Variable icontains : string → string → bool.

Lemma ProductListView_rows
    (s c l : option string) (db : DB) (k : Z) (p : Product.t) :
  ProductListView_get_queryset icontains s c l db !! k = Some p
  ↔ products db !! k = Some p
    ∧ Product.is_active p = true
    ∧ (truthy_str s = true → matches_search icontains (default "" s) p = true)
    ∧ (truthy_str c = true → Product.category p = default "" c)
    ∧ (truthy_str l = true → Product.is_low_stock p = true).
Proof.
  unfold ProductListView_get_queryset, Product.is_low_stock.
  destruct (truthy_str s), (truthy_str c), (truthy_str l);
    rewrite ?map_lookup_filter_Some; unfold stock_lte_min; simpl;
    (split; [intros H; repeat split; try tauto; intros; try discriminate; tauto
            | intros (H1 & H2 & H3 & H4 & H5); repeat split; auto]).
Qed.

(** X16. [ProductListView.get_queryset] lists a product exactly when it is
    stored and active and passes every filter whose parameter is a
    non-empty string: the search, the exact category, and the low-stock
    test, which any non-empty value of [low_stock] switches on ("0" as
    well).  An inactive product is never listed, and the rows listed with
    parameters are among those listed without. *)
Theorem product_list_rows
    (search_query category_filter low_stock : option string)
    (db : DB) (k : Z) (p : Product.t) :
  (ProductListView_get_queryset icontains search_query category_filter low_stock db !! k
   = Some p
   ↔ products db !! k = Some p
     ∧ Product.is_active p = true
     ∧ (truthy_str search_query = true →
        matches_search icontains (default "" search_query) p = true)
     ∧ (truthy_str category_filter = true →
        Product.category p = default "" category_filter)
     ∧ (truthy_str low_stock = true → Product.is_low_stock p = true))
  ∧ (ProductListView_get_queryset icontains search_query category_filter low_stock db !! k
     = Some p →
     ProductListView_get_queryset icontains None None None db !! k = Some p)
  ∧ (∀ v, v ≠ "" →
          ProductListView_get_queryset icontains search_query category_filter (Some v) db !! k
          = Some p →
          Product.current_stock p ≤ Product.min_stock_level p).
Proof.
  split; [apply ProductListView_rows|]. split.
  - intros H. apply ProductListView_rows in H. apply ProductListView_rows.
    simpl. destruct H as (H1 & H2 & _). repeat split; auto; discriminate.
  - intros v Hv H. apply ProductListView_rows in H.
    destruct H as (_ & _ & _ & _ & Hlow).
    apply Z.leb_le. apply Hlow. simpl.
    apply negb_true_iff, String.eqb_neq, Hv.
Qed.
End ProductListRows.

(** X17. [low_stock_report] lists exactly the stored active products for
    which [Product.is_low_stock] holds, each once, in non-decreasing order
    of stock.  They are the rows that the product list shows with
    [low_stock] set, and as many as the dashboard counts as low on stock,
    which is never more than its count of products. *)
Theorem low_stock_report_rows (db : DB) :
  (∀ k p, (k, p) ∈ low_stock_report db
          ↔ products db !! k = Some p
            ∧ Product.is_active p = true ∧ Product.is_low_stock p = true)
  ∧ NoDup (low_stock_report db).*1
  ∧ StronglySorted by_stock (low_stock_report db)
  ∧ (∀ icontains k p,
       (k, p) ∈ low_stock_report db
       ↔ ProductListView_get_queryset icontains None None (Some "1") db !! k
         = Some p)
  ∧ length (low_stock_report db) = dashboard_total_low_stock db
  ∧ (dashboard_total_low_stock db ≤ dashboard_total_products db)%nat.
Proof.
  assert (∀ k p, (k, p) ∈ low_stock_report db
                 ↔ products db !! k = Some p
                   ∧ Product.is_active p = true
                   ∧ Product.is_low_stock p = true) as Hrows.
  { intros k p. unfold low_stock_report.
    rewrite merge_sort_Permutation, elem_of_map_to_list.
    unfold low_stock_rows. rewrite map_lookup_filter_Some. simpl.
    unfold Product.is_low_stock, stock_lte_min. tauto. }
  split; [exact Hrows|].
  split.
  { unfold low_stock_report. rewrite merge_sort_Permutation.
    apply NoDup_fst_map_to_list. }
  split; [apply StronglySorted_merge_sort; apply _|].
  split.
  { intros icontains k p. rewrite Hrows.
    rewrite (ProductListView_rows icontains None None (Some "1") db k p).
    simpl. split.
    - intros (H1 & H2 & H3). repeat split; auto; discriminate.
    - intros (H1 & H2 & _ & _ & H5). repeat split; auto. }
  split.
  { unfold low_stock_report, dashboard_total_low_stock.
    rewrite merge_sort_Permutation, length_map_to_list. reflexivity. }
  unfold dashboard_total_low_stock, dashboard_total_products, low_stock_rows.
  apply map_subseteq_size. apply map_subseteq_spec. intros k p.
  rewrite !map_lookup_filter_Some. simpl. tauto.
Qed.

(** ** Saving again what was just saved *)

Lemma sku_taken_insert (k : Z) (s : option string) (v : Product.t)
    (m : gmap Z Product.t) :
  sku_taken k s m = false → sku_taken k s (<[k := v]> m) = false.
Proof.
  destruct s as [s|]; [|reflexivity]. intros Hfree.
  destruct (sku_taken k (Some s) (<[k := v]> m)) eqn:E; [|reflexivity].
  unfold sku_taken in E. apply existsb_exists in E.
  destruct E as ([k' p] & Hin & Hp). simpl in Hp.
  apply andb_true_iff in Hp. destruct Hp as [Hne Hs].
  apply negb_true_iff, Z.eqb_neq in Hne. apply bool_decide_eq_true in Hs.
  apply list_elem_of_In, elem_of_map_to_list in Hin.
  rewrite lookup_insert_ne in Hin by congruence.
  rewrite (sku_taken_true k k' s p m Hin Hs Hne) in Hfree. discriminate.
Qed.

Lemma sale_number_taken_insert (k : Z) (n : string) (v : Sale.t)
    (m : gmap Z Sale.t) :
  sale_number_taken k n m = false → sale_number_taken k n (<[k := v]> m) = false.
Proof.
  intros Hfree.
  destruct (sale_number_taken k n (<[k := v]> m)) eqn:E; [|reflexivity].
  unfold sale_number_taken in E. apply existsb_exists in E.
  destruct E as ([k' p] & Hin & Hp). simpl in Hp.
  apply andb_true_iff in Hp. destruct Hp as [Hne Hs].
  pose proof Hne as Hne'. apply negb_true_iff, Z.eqb_neq in Hne'.
  apply list_elem_of_In, elem_of_map_to_list in Hin.
  rewrite lookup_insert_ne in Hin by congruence.
  assert (sale_number_taken k n m = true) as Ht; [|congruence].
  unfold sale_number_taken. apply existsb_exists. exists (k', p). split.
  - apply list_elem_of_In, elem_of_map_to_list, Hin.
  - simpl. rewrite Hne, Hs. reflexivity.
Qed.

Lemma sku_assigned_truthy (self : Product.t) (db : DB) :
  truthy_str (Product.sku (sku_assigned self db)) = true.
Proof.
  unfold sku_assigned.
  destruct (truthy_str (Product.sku self)) eqn:E; [exact E|reflexivity].
Qed.

Lemma sku_assigned_clean (self : Product.t) (db : DB) :
  Product.clean (sku_assigned self db) = Product.clean self.
Proof.
  unfold sku_assigned.
  destruct (truthy_str (Product.sku self)); reflexivity.
Qed.

Lemma sku_assigned_kept (p : Product.t) (db : DB) :
  truthy_str (Product.sku p) = true → sku_assigned p db = p.
Proof. unfold sku_assigned. intros ->. reflexivity. Qed.

Lemma Model_save_Product_again (p : Product.t) (db : DB) :
  let k := pk_or_fresh (Product.id p) (product_seq (sequences db)) (products db) in
  let saved := Product.set_id k p in
  let db' := note_product_key k (set_products (insert k saved) db) in
  Model_save_Product p db = (Ok saved, db') →
  Model_save_Product saved db' = (Ok saved, db').
Proof.
  intros k saved db' H. unfold Model_save_Product in *. fold k in H.
  destruct (sku_taken k (Product.sku p) (products db)) eqn:Hfree;
    [discriminate|].
  destruct (Product.current_stock p <? 0) eqn:Hst; [discriminate|].
  destruct (Product.min_stock_level p <? 0) eqn:Hmin; [discriminate|].
  subst saved db'. simpl.
  rewrite (sku_taken_insert k _ _ _ Hfree), Hst, Hmin. simpl.
  unfold note_product_key, set_sequences, set_products. simpl.
  rewrite insert_insert_eq, <- Z.max_assoc, Z.max_id. reflexivity.
Qed.

Lemma Model_save_Sale_again (s : Sale.t) (db : DB) :
  let k := pk_or_fresh (Sale.id s) (sale_seq (sequences db)) (sales db) in
  let saved := Sale.set_id k s in
  let db' := note_sale_key k (set_sales (insert k saved) db) in
  Model_save_Sale s db = (Ok saved, db') →
  Model_save_Sale saved db' = (Ok saved, db').
Proof.
  intros k saved db' H. unfold Model_save_Sale in *. fold k in H.
  destruct (sale_number_taken k (Sale.sale_number s) (sales db)) eqn:Hfree;
    [discriminate|].
  subst saved db'. simpl.
  rewrite (sale_number_taken_insert k _ _ _ Hfree).
  unfold note_sale_key, set_sequences, set_sales. simpl.
  rewrite insert_insert_eq, <- Z.max_assoc, Z.max_id. reflexivity.
Qed.

(** X18. What [Product.save] or [Sale.save] has stored is what the table
    holds under the instance's key, and saving the returned instance again
    changes nothing: the SKU and the sale number are kept, and the database
    is the same (up to [updated_at], which is left out of the rows). *)
Theorem resave_changes_nothing :
  (∀ self saved db db',
     Product_save self db = (Ok saved, db') →
     (∃ k, Product.id saved = Some k ∧ Product_get k db' = Some saved)
     ∧ Product_save saved db' = (Ok saved, db'))
  ∧ (∀ self saved db db',
       Sale_save self db = (Ok saved, db') →
       (∃ k, Sale.id saved = Some k ∧ sales db' !! k = Some saved)
       ∧ Sale_save saved db' = (Ok saved, db')).
Proof.
  split.
  - intros self saved db db' H.
    rewrite Product_save_unfold in H.
    destruct (Product.clean self) as [[]|e] eqn:Hclean; [|discriminate].
    pose proof (Model_save_Product_again (sku_assigned self db) db) as Hagain.
    pose proof (sku_assigned_truthy self db) as Hsku.
    pose proof (sku_assigned_clean self db) as Hclean1.
    rewrite Hclean in Hclean1.
    generalize dependent (sku_assigned self db). intros p1 H Hagain Hsku Hclean1.
    pose proof H as Hrun.
    apply Model_save_Product_Ok in H. destruct H as (Hsaved & Hdb & _).
    cbv zeta in Hagain. rewrite <- Hsaved, <- Hdb in Hagain.
    specialize (Hagain Hrun).
    split.
    + exists (pk_or_fresh (Product.id p1) (product_seq (sequences db)) (products db)).
      rewrite Hsaved at 1. split; [reflexivity|].
      unfold Product_get. rewrite Hdb. simpl. rewrite lookup_insert_eq.
      rewrite Hsaved. reflexivity.
    + rewrite Product_save_unfold.
      assert (Product.clean saved = Ok tt) as ->
        by (rewrite Hsaved; exact Hclean1).
      rewrite sku_assigned_kept by (rewrite Hsaved; exact Hsku).
      exact Hagain.
  - intros self saved db db' H.
    unfold Sale_save in H. apply bind_Ok in H.
    destruct H as (s1 & db1 & H1 & H).
    assert (db1 = db ∧ Sale.sale_number s1 ≠ "") as [-> Hnum].
    { destruct (String.eqb (Sale.sale_number self) "") eqn:E.
      - apply bind_Ok in H1. destruct H1 as (r & dbr & Hq & H1).
        unfold query in Hq. injection Hq as _ <-.
        apply bind_Ok in H1. destruct H1 as (n & dbn & Hl & H1).
        unfold lift in Hl. destruct r; [|discriminate]. injection Hl as _ <-.
        unfold ret in H1. injection H1 as <- <-.
        split; [reflexivity|discriminate].
      - unfold ret in H1. injection H1 as <- <-. split; [reflexivity|].
        apply String.eqb_neq, E. }
    pose proof (Model_save_Sale_again s1 db) as Hagain. cbv zeta in Hagain.
    pose proof H as Hrun. unfold Model_save_Sale in Hrun.
    destruct (sale_number_taken _ _ _) in Hrun; [discriminate|].
    injection Hrun as Hsaved Hdb.
    rewrite Hdb, Hsaved in Hagain. specialize (Hagain H).
    split.
    + exists (pk_or_fresh (Sale.id s1) (sale_seq (sequences db)) (sales db)).
      rewrite <- Hsaved at 1. split; [reflexivity|].
      rewrite <- Hdb. simpl. rewrite lookup_insert_eq, Hsaved. reflexivity.
    + assert (Sale.sale_number saved = Sale.sale_number s1) as Hn
        by (rewrite <- Hsaved; reflexivity).
      unfold Sale_save. rewrite Hn.
      replace (String.eqb (Sale.sale_number s1) "") with false
        by (symmetry; apply String.eqb_neq, Hnum).
      exact Hagain.
Qed.

Lemma resave_changes_nothing_widget :
  let stored := Product.mk (Some 1) "A" (Some "SKU-1") "" "" 100 150 10 5 true in
  (∃ k, Product.id stored = Some k
        ∧ Product_get k (Product_save (nameless "A") empty_db).2 = Some stored)
  ∧ Product_save stored (Product_save (nameless "A") empty_db).2
    = (Ok stored, (Product_save (nameless "A") empty_db).2).
Proof.
  intros stored.
  apply (proj1 resave_changes_nothing (nameless "A") stored empty_db).
  vm_compute. reflexivity.
Defined.

(** ** Clearing the data *)

Lemma filter_nonempty_list `{FinMap K Mp} {A} (P : K * A → Prop)
    `{!∀ x, Decision (P x)} (m : Mp A) (k : K) (a : A) :
  m !! k = Some a → P (k, a) → ∃ x l, map_to_list (filter P m) = x :: l.
Proof.
  intros Hk HP.
  destruct (map_to_list (filter P m)) as [|x l] eqn:E; [|eauto].
  apply map_to_list_empty_iff in E.
  assert (filter P m !! k = Some a) as Hin
    by (apply map_lookup_filter_Some; auto).
  rewrite E, lookup_empty in Hin. discriminate.
Qed.

(** X19. [clear_existing_data] always completes and leaves the four tables
    empty, whatever they held (the key counters stay as they are): the
    items are deleted before the sales and products they protect.  In the other order the first deletion is
    refused, and nothing is deleted, as soon as one stored item points to a
    stored sale. *)
Theorem clear_existing_data_empties (db : DB) :
  clear_existing_data db = (Ok tt, mkDB ∅ ∅ ∅ ∅ (sequences db))
  ∧ (∀ k r, sale_items db !! k = Some r →
            is_Some (sales db !! SaleItem.sale_id r) →
            clear_parents_first db = (Raise (ProtectedError "SaleItem.sale"), db)).
Proof.
  split.
  - unfold clear_existing_data, StockTransaction_objects_all_delete,
      SaleItem_objects_all_delete, Sale_objects_all_delete,
      Product_objects_all_delete, bind, write, query, ret. simpl.
    rewrite map_filter_empty, map_to_list_empty. simpl.
    rewrite map_filter_empty, map_to_list_empty.
    unfold set_products, set_stock_transactions. simpl.
    rewrite map_filter_empty. reflexivity.
  - intros k r Hk Hs.
    unfold clear_parents_first, Sale_objects_all_delete, bind, query. simpl.
    destruct (filter_nonempty_list
                (λ kv, is_Some (sales db !! SaleItem.sale_id kv.2))
                (sale_items db) k r Hk Hs) as (x & l & ->).
    reflexivity.
Qed.
